(** * programl/util/py/progress.py: profiling timers, profiling scopes,
      logging contexts and the progress run loop.

    The module is embedded function by function.  Python objects that are
    shared and mutated (the [ProfileTimer] handed to the body of a [with]
    block, the context objects) live in a store; everything that reads a
    clock or the state of the job thread asks an oracle indexed by the number
    of reads made so far. *)

From Stdlib Require Import ZArith QArith Lia List.
From Stdlib Require Import Floats.SpecFloat.
From stdpp Require Import gmap strings pretty.

Open Scope string_scope.
Open Scope list_scope.
Open Scope Z_scope.

(** ** Exceptions and outcomes *)

Inductive exn : Type :=
| ValueError (msg : string)
| TypeError (msg : string)
| AttributeError (msg : string)
| OverflowError (msg : string)
| ZeroDivisionError (msg : string)
| RuntimeError (msg : string)
| NotImplementedError (msg : string)
| OSError (msg : string).

Inductive outcome (A : Type) : Type :=
| Normal (a : A)
| Raised (e : exn).
Arguments Normal {A} a.
Arguments Raised {A} e.

#[global] Instance exn_eq_dec : EqDecision exn.
Proof. solve_decision. Defined.

(** ** Binary64 floats

    Python's [float] is IEEE binary64; the operations are the ones of the
    Standard Library's executable specification, at precision 53. *)

Module Float.

Definition prec : Z := 53.
Definition emax : Z := 1024.

Definition float := spec_float.

(** [float(z)] for an int of any size: round to nearest, ties to even. *)
Definition of_Z (z : Z) : float := binary_normalize prec emax z 0 false.

(** Python's true division [a / b] of two ints is the correctly rounded
    quotient of the exact integers (not the quotient of their roundings):
    the division core is run on the integers themselves.  Only a positive
    divisor is needed here. *)
Definition int_truediv (a : Z) (b : positive) : float :=
  match a with
  | Z0 => S754_zero false
  | Zpos p => SFdiv prec emax (S754_finite false p 0) (S754_finite false b 0)
  | Zneg p => SFdiv prec emax (S754_finite true p 0) (S754_finite false b 0)
  end.

Definition mul (x y : float) : float := SFmul prec emax x y.
Definition sub (x y : float) : float := SFsub prec emax x y.

(** Round half to even of the rational [m * 2^e], [m >= 0]. *)
Definition round_half_even (m : Z) (e : Z) : Z :=
  match e with
  | Zneg p =>
      let d := Z.pow_pos 2 p in
      let q := m / d in
      let r := m mod d in
      match 2 * r ?= d with
      | Lt => q
      | Gt => q + 1
      | Eq => if Z.even q then q else q + 1
      end
  | _ => m * 2 ^ e
  end.

(** The builtin [round(x)] with one argument: an int, ties to even;
    [OverflowError] on an infinity and [ValueError] on a NaN. *)
Definition round (x : float) : outcome Z :=
  match x with
  | S754_zero _ => Normal 0
  | S754_finite s m e =>
      let r := round_half_even (Zpos m) e in
      Normal (if s then - r else r)
  | S754_infinity _ => Raised (OverflowError "cannot convert float infinity to integer")
  | S754_nan => Raised (ValueError "cannot convert float NaN to integer")
  end.

(** The exact value of a finite float, as a rational. *)
Definition to_Q (x : float) : option Q :=
  match x with
  | S754_zero _ => Some 0%Q
  | S754_finite s m e =>
      let a := match e with
               | Zneg p => Qmake (Zpos m) (Pos.pow 2 p)
               | _ => inject_Z (Zpos m * 2 ^ e)
               end in
      Some (if s then Qopp a else a)
  | _ => None
  end.

(** [x > z] for a float and an int: Python compares the exact values;
    every comparison with a NaN is false. *)
Definition gt_Z (x : float) (z : Z) : bool :=
  match x with
  | S754_nan => false
  | S754_infinity s => negb s
  | _ =>
      match to_Q x with
      | Some q => negb (Qle_bool q (inject_Z z))
      | None => false
      end
  end.

(** [format(x, ".0f")]: no digit after the point, ties to even, the sign
    kept on a negative zero. *)
Definition format_0f (x : float) : string :=
  match x with
  | S754_zero s => if s then "-0" else "0"
  | S754_finite s m e =>
      (if s then "-" else EmptyString) +:+ pretty (round_half_even (Zpos m) e)
  | S754_infinity s => if s then "-inf" else "inf"
  | S754_nan => "nan"
  end.

End Float.

(** ** Values, objects and the store *)

Definition loc := positive.

(** The classes whose instances are stored: the two context classes, the
    job, the [tqdm] bar a bar context owns, and bound-method objects such as
    [bar.external_write_mode]. *)
Inductive class : Type :=
| ProgressContext
| ProgressBarContext
| Progress
| Tqdm
| BoundMethod.

#[global] Instance class_eq_dec : EqDecision class.
Proof. solve_decision. Defined.

(** The values that flow through the module: [None], booleans, ints,
    strings, references to stored objects (identity is the address), and
    class objects, which a method bound to its class has as [__self__]. *)
Inductive pyval : Type :=
| PyNone
| PyBool (b : bool)
| PyInt (z : Z)
| PyStr (s : string)
| PyRef (l : loc)
| PyClass (c : class).

#[global] Instance pyval_eq_dec : EqDecision pyval.
Proof. solve_decision. Defined.

(** An instance is its class and its attribute dictionary. *)
Record instance : Type := Instance {
  cls : class;
  attrs : gmap string pyval
}.

(** The names a class defines (its methods), following inheritance. *)
Definition class_names (c : class) : list string :=
  match c with
  | ProgressContext => ["Log"; "Warning"; "Error"; "Profile"; "print"]
  | ProgressBarContext =>
      ["ToProgressContext"; "Refresh"; "Log"; "Warning"; "Error"; "Profile"; "print"]
  | Progress => ["Run"; "start"; "join"; "is_alive"]
  | Tqdm => ["refresh"; "close"; "external_write_mode"]
  | BoundMethod => ["__call__"]
  end.

(** [hasattr(o, a)]: in the instance dictionary or defined by the class. *)
Definition hasattr (o : instance) (a : string) : bool :=
  bool_decide (is_Some (attrs o !! a)) || bool_decide (a ∈ class_names (cls o)).

(** Severities of the logging facility. *)
Inductive severity : Type := INFO | WARNING | ERROR.

(** What the module hands to its collaborators: text given to the builtin
    [print], the entry and exit of the write mode of a bar class (the
    library then clears and redraws every bar of the class that is shown),
    the calls made on a bar, and the calls made on the job thread. *)
Inductive output : Type :=
| Printed (args : list pyval) (kwargs : gmap string pyval)
| WriteModeEnter (c : class)
| WriteModeExit (c : class)
| BarRefresh (bar : loc) (n : pyval)
| BarClose (bar : loc)
| ThreadStart (job : loc)
| ThreadJoin (job : loc) (timeout : Float.float).

(** A [ProfileTimer]: datetimes are counted in microseconds, which is the
    resolution of [datetime.datetime]; [end] is [None] until [Stop]. *)
Record ProfileTimer : Type := {
  start : Z;
  end_ : option Z
}.

(** The timers are in a total store, allocated in order from [next_timer];
    the other objects are in a finite heap. *)
Record memory : Type := {
  utc_reads : nat;                 (* calls of datetime.utcnow() so far *)
  time_reads : nat;                (* calls of time.time() so far *)
  alive_polls : nat;               (* calls of is_alive() so far *)
  i_reads : nat;                   (* reads of the job's ctx.i so far *)
  timers : loc -> ProfileTimer;    (* the ProfileTimer objects *)
  next_timer : loc;
  heap : gmap loc instance;        (* context, job, bar and method objects *)
  emitted : list output
}.

Definition with_utc_reads (n : nat) (m : memory) : memory :=
  {| utc_reads := n; time_reads := time_reads m; alive_polls := alive_polls m;
     i_reads := i_reads m; timers := timers m; next_timer := next_timer m;
     heap := heap m; emitted := emitted m |}.
Definition with_time_reads (n : nat) (m : memory) : memory :=
  {| utc_reads := utc_reads m; time_reads := n; alive_polls := alive_polls m;
     i_reads := i_reads m; timers := timers m; next_timer := next_timer m;
     heap := heap m; emitted := emitted m |}.
Definition with_alive_polls (n : nat) (m : memory) : memory :=
  {| utc_reads := utc_reads m; time_reads := time_reads m; alive_polls := n;
     i_reads := i_reads m; timers := timers m; next_timer := next_timer m;
     heap := heap m; emitted := emitted m |}.
Definition with_i_reads (n : nat) (m : memory) : memory :=
  {| utc_reads := utc_reads m; time_reads := time_reads m; alive_polls := alive_polls m;
     i_reads := n; timers := timers m; next_timer := next_timer m;
     heap := heap m; emitted := emitted m |}.
Definition with_timers (t : loc -> ProfileTimer) (nx : loc) (m : memory) : memory :=
  {| utc_reads := utc_reads m; time_reads := time_reads m; alive_polls := alive_polls m;
     i_reads := i_reads m; timers := t; next_timer := nx;
     heap := heap m; emitted := emitted m |}.
Definition with_heap (h : gmap loc instance) (m : memory) : memory :=
  {| utc_reads := utc_reads m; time_reads := time_reads m; alive_polls := alive_polls m;
     i_reads := i_reads m; timers := timers m; next_timer := next_timer m;
     heap := h; emitted := emitted m |}.
Definition with_emitted (o : list output) (m : memory) : memory :=
  {| utc_reads := utc_reads m; time_reads := time_reads m; alive_polls := alive_polls m;
     i_reads := i_reads m; timers := timers m; next_timer := next_timer m;
     heap := heap m; emitted := o |}.

(** ** The monad of the module's code: state and exceptions *)

Definition M (A : Type) : Type := memory -> outcome A * memory.

Definition ret {A} (a : A) : M A := fun m => (Normal a, m).
Definition raise {A} (e : exn) : M A := fun m => (Raised e, m).
Definition bind {A B} (c : M A) (k : A -> M B) : M B :=
  fun m => match c m with
           | (Normal a, m') => k a m'
           | (Raised e, m') => (Raised e, m')
           end.

Declare Scope py_scope.
Delimit Scope py_scope with py.
Notation "x <- c1 ;; c2" := (bind c1 (fun x => c2))
  (at level 100, c1 at next level, right associativity) : py_scope.
Notation "c1 ;; c2" := (bind c1 (fun _ => c2))
  (at level 100, right associativity) : py_scope.
Open Scope py_scope.

Definition emit (o : output) : M unit :=
  fun m => (Normal tt, with_emitted (emitted m ++ [o]) m).

(** *** Timer objects *)

Definition set_timer (l : loc) (t : ProfileTimer) : M unit :=
  fun m => (Normal tt,
            with_timers (fun l' => if Pos.eqb l' l then t else timers m l') (next_timer m) m).

Definition new_timer (t : ProfileTimer) : M loc :=
  fun m => (Normal (next_timer m),
            with_timers (fun l' => if Pos.eqb l' (next_timer m) then t else timers m l')
                        (Pos.succ (next_timer m)) m).

Definition get_timer (l : loc) : M ProfileTimer := fun m => (Normal (timers m l), m).

(** *** Heap objects *)

(** A new object, at an address no stored object has. *)
Definition new_object (o : instance) : M loc :=
  fun m => let l := fresh (dom (heap m)) in
           (Normal l, with_heap (<[l := o]> (heap m)) m).

(** The attribute [a] of the object at [o], when the object is stored and
    its dictionary has [a]. *)
Definition attr (m : memory) (o : loc) (a : string) : option pyval :=
  match heap m !! o with
  | Some i => attrs i !! a
  | None => None
  end.

(** [o.a] for an attribute kept in the instance dictionary. *)
Definition getattr (o : loc) (a : string) : M pyval :=
  fun m => match attr m o a with
           | Some v => (Normal v, m)
           | None => (Raised (AttributeError a), m)
           end.

(** [o.a = v] *)
Definition setattr (o : loc) (a : string) (v : pyval) : M unit :=
  fun m => match heap m !! o with
           | Some i =>
               (Normal tt,
                with_heap (<[o := Instance (cls i) (<[a := v]> (attrs i))]> (heap m)) m)
           | None => (Raised (AttributeError a), m)
           end.

(** The object an attribute refers to, as in [o.a.b]: on a value of [o.a]
    that is no stored object, the further access is an [AttributeError]. *)
Definition getattr_ref (o : loc) (a : string) : M loc :=
  v <- getattr o a ;;
  match v with
  | PyRef l => ret l
  | _ => raise (AttributeError a)
  end.

(** ** Generators and [@contextmanager]

    A generator body is a tree of steps: run a piece of code of the monad,
    or yield.  A suspended generator is resumed by [next] or by [throw]; a
    plain [yield] that is thrown into raises the exception at the yield, and
    what follows the yield in the body is skipped like after any raise. *)

(** The calls a generator makes that a caller can observe. *)
Inductive call : Type :=
| CallStop (timer : loc)
| CallName (elapsed : Float.float)
| CallSink (msg : string).

Inductive resume : Type :=
| Next
| Throw (e : exn).

Inductive gen (Y A : Type) : Type :=
| GRet (a : A)
| GRaise (e : exn)
| GRun {X : Type} (label : option call) (c : M X) (k : X -> gen Y A)
| GYield (y : Y) (k : resume -> gen Y A).
Arguments GRet {Y A} a.
Arguments GRaise {Y A} e.
Arguments GRun {Y A X} label c k.
Arguments GYield {Y A} y k.

Fixpoint gbind {Y A B} (g : gen Y A) (f : A -> gen Y B) : gen Y B :=
  match g with
  | GRet a => f a
  | GRaise e => GRaise e
  | GRun label c k => GRun label c (fun x => gbind (k x) f)
  | GYield y k => GYield y (fun r => gbind (k r) f)
  end.

(** The statement [yield y], outside of any [try]. *)
Definition yield_ {Y} (y : Y) : gen Y unit :=
  GYield y (fun r => match r with
                     | Next => GRet tt
                     | Throw e => GRaise e
                     end).

Definition run {Y A} (c : M A) : gen Y A := GRun None c GRet.
Definition run_call {Y A} (l : call) (c : M A) : gen Y A := GRun (Some l) c GRet.

Declare Scope gen_scope.
Delimit Scope gen_scope with gen.
Notation "x <- c1 ;; c2" := (gbind c1 (fun x => c2))
  (at level 100, c1 at next level, right associativity) : gen_scope.
Notation "c1 ;; c2" := (gbind c1 (fun _ => c2))
  (at level 100, right associativity) : gen_scope.

(** Where a generator stands after it was run as far as it goes. *)
Inductive suspension (Y A : Type) : Type :=
| Done (a : A)
| Failed (e : exn)
| Suspended (y : Y) (k : resume -> gen Y A).
Arguments Done {Y A} a.
Arguments Failed {Y A} e.
Arguments Suspended {Y A} y k.

Definition label_calls (l : option call) : list call :=
  match l with
  | Some c => [c]
  | None => []
  end.

(** Run a generator to its next yield, its end, or the exception that
    leaves it; the labelled calls it made are collected in order. *)
Fixpoint advance {Y A} (g : gen Y A) (m : memory) : suspension Y A * memory * list call :=
  match g with
  | GRet a => (Done a, m, [])
  | GRaise e => (Failed e, m, [])
  | GRun label c k =>
      match c m with
      | (Normal x, m') =>
          let '(r, m'', tr) := advance (k x) m' in (r, m'', label_calls label ++ tr)
      | (Raised e, m') => (Failed e, m', label_calls label)
      end
  | GYield y k => (Suspended y k, m, [])
  end.

(** [contextlib._GeneratorContextManager.__enter__] *)
Definition cm_enter {Y} (g : gen Y unit)
    (m : memory) : outcome (Y * (resume -> gen Y unit)) * memory * list call :=
  match advance g m with
  | (Suspended y k, m', tr) => (Normal (y, k), m', tr)
  | (Done _, m', tr) => (Raised (RuntimeError "generator didn't yield"), m', tr)
  | (Failed e, m', tr) => (Raised e, m', tr)
  end.

(** [contextlib._GeneratorContextManager.__exit__]: the result says whether
    the exception of the block is suppressed. *)
Definition cm_exit {Y} (k : resume -> gen Y unit) (exc : option exn)
    (m : memory) : outcome bool * memory * list call :=
  match exc with
  | None =>
      match advance (k Next) m with
      | (Done _, m', tr) => (Normal false, m', tr)
      | (Suspended _ _, m', tr) => (Raised (RuntimeError "generator didn't stop"), m', tr)
      | (Failed e, m', tr) => (Raised e, m', tr)
      end
  | Some e =>
      match advance (k (Throw e)) m with
      | (Done _, m', tr) => (Normal true, m', tr)
      | (Suspended _ _, m', tr) =>
          (Raised (RuntimeError "generator didn't stop after throw()"), m', tr)
      | (Failed e', m', tr) =>
          if decide (e' = e) then (Normal false, m', tr) else (Raised e', m', tr)
      end
  end.

(** [with cm as y: body]: the value of the block, or [None] when [__exit__]
    suppressed its exception. *)
Definition with_ {Y A} (g : gen Y unit) (body : Y -> M A)
    (m : memory) : outcome (option A) * memory * list call :=
  match cm_enter g m with
  | (Raised e, m1, tr1) => (Raised e, m1, tr1)
  | (Normal (y, k), m1, tr1) =>
      match body y m1 with
      | (Normal a, m2) =>
          match cm_exit k None m2 with
          | (Normal _, m3, tr3) => (Normal (Some a), m3, tr1 ++ tr3)
          | (Raised e, m3, tr3) => (Raised e, m3, tr1 ++ tr3)
          end
      | (Raised e, m2) =>
          match cm_exit k (Some e) m2 with
          | (Normal true, m3, tr3) => (Normal None, m3, tr1 ++ tr3)
          | (Normal false, m3, tr3) => (Raised e, m3, tr1 ++ tr3)
          | (Raised e', m3, tr3) => (Raised e', m3, tr1 ++ tr3)
          end
      end
  end.

(** ** The [name] argument of [Profile]

    A string, a callable given the elapsed seconds ([callable(name)] holds
    of [NameFn] only), or any other object, which is then known by its truth
    value and its [str()].  A function is truthy; a callable object may
    define its own truth value. *)
Inductive name_t : Type :=
| NameStr (s : string)
| NameObj (truth : bool) (text : string)
| NameFn (truth : bool) (f : Float.float -> M string).

Definition truthy (n : name_t) : bool :=
  match n with
  | NameStr s => negb (String.eqb s EmptyString)
  | NameObj t _ => t
  | NameFn t _ => t
  end.

(** [a or b] *)
Definition or_ (a b : name_t) : name_t := if truthy a then a else b.

Definition is_sink (c : call) : bool :=
  match c with
  | CallSink _ => true
  | _ => false
  end.

(** How many times the sink was called. *)
Definition count_sink (tr : list call) : nat := length (List.filter is_sink tr).

(** [str(name)] of a name that is not called. *)
Definition name_text (n : name_t) : string :=
  match n with
  | NameStr s => s
  | NameObj _ text => text
  | NameFn _ _ => "<function>"
  end.

(** A call of [f] that passes [args] and [kwargs] through and adds the
    keyword [key=v]: a keyword given twice is a [TypeError] raised before
    [f] is entered. *)
Definition call_kw (f : list pyval -> gmap string pyval -> M unit)
    (args : list pyval) (kwargs : gmap string pyval) (key : string) (v : pyval) : M unit :=
  match kwargs !! key with
  | Some _ => raise (TypeError ("got multiple values for keyword argument '" +:+ key +:+ "'"))
  | None => f args (<[key := v]> kwargs)
  end.

Definition type_name (v : pyval) : string :=
  match v with
  | PyNone => "NoneType"
  | PyBool _ => "bool"
  | PyInt _ => "int"
  | PyStr _ => "str"
  | PyRef _ => "object"
  | PyClass _ => "type"
  end.

Definition not_callable (v : pyval) : exn :=
  TypeError ("'" +:+ type_name v +:+ "' object is not callable").

(** [v()]: the callable that the module stores as a [print_context] is
    [tqdm.external_write_mode], a class method: it is bound to the class
    [tqdm], not to a bar, and calling it gives the write-mode context
    manager of the class, known here by the class.  No other callable is
    run: any other value is answered as one that is not callable. *)
Definition call_value (v : pyval) : M class :=
  match v with
  | PyRef f =>
      fun m => match heap m !! f with
               | Some (Instance BoundMethod a) =>
                   match a !! "__self__", a !! "__name__" with
                   | Some (PyClass Tqdm), Some (PyStr name) =>
                       if String.eqb name "external_write_mode"
                       then (Normal Tqdm, m)
                       else (Raised (not_callable v), m)
                   | _, _ => (Raised (not_callable v), m)
                   end
               | _ => (Raised (not_callable v), m)
               end
  | _ => raise (not_callable v)
  end.

(** The bound method object made by the expression [self.name]. *)
Definition bound_method (self : loc) (name : string) : M loc :=
  new_object (Instance BoundMethod
                (<["__self__" := PyRef self]> (<["__name__" := PyStr name]> ∅))).

(** The bound method object made by [o.name] when [name] is a class method
    of the class [c] of [o]: its [__self__] is the class. *)
Definition bound_classmethod (c : class) (name : string) : M loc :=
  new_object (Instance BoundMethod
                (<["__self__" := PyClass c]> (<["__name__" := PyStr name]> ∅))).

Definition opt_int (n : option Z) : pyval :=
  match n with
  | Some z => PyInt z
  | None => PyNone
  end.

Definition opt_bool (b : option bool) : pyval :=
  match b with
  | Some b => PyBool b
  | None => PyNone
  end.

(** [tqdm.tqdm(desc=, initial=, total=, unit=, position=, leave=)]: the bar
    starts with its counter [n] at [initial], and keeps the position it is
    given with the sign changed, as [pos]. *)
Definition tqdm_init (desc : string) (initial : Z) (total : option Z) (unit : string)
    (position : Z) (leave : option bool) : M loc :=
  new_object (Instance Tqdm
                (<["desc" := PyStr desc]> (<["n" := PyInt initial]>
                 (<["total" := opt_int total]> (<["unit" := PyStr unit]>
                  (<["pos" := PyInt (- position)]> (<["leave" := opt_bool leave]> ∅))))))).

Section Progress.

(** The wall clock: [utcnow_at k] is what the [k]-th call of
    [datetime.datetime.utcnow()] returns, in microseconds. *)
Variable utcnow_at : nat -> Z.

(** [time_at k] is what the [k]-th call of [time.time()] returns. *)
Variable time_at : nat -> Float.float.

(** The job thread, seen from the thread that runs the loop:
    [is_alive_at k] answers the [k]-th call of [is_alive()], and
    [job_writes_at k] is the value the job stored in [ctx.i] since the
    previous read of [ctx.i], if it stored one. *)
Variable is_alive_at : nat -> bool.
Variable job_writes_at : nat -> option Z.

(** [humanize.Duration], of [programl.util.py.humanize]: seconds to text. *)
Variable Duration : Float.float -> string.

(** The logging facility ([absl.logging]), by severity. *)
Variable logging_call : severity -> list pyval -> gmap string pyval -> M unit.

Definition logging_info := logging_call INFO.
Definition logging_warning := logging_call WARNING.

Definition utcnow : M Z :=
  fun m => (Normal (utcnow_at (utc_reads m)), with_utc_reads (S (utc_reads m)) m).

Definition time_time : M Float.float :=
  fun m => (Normal (time_at (time_reads m)), with_time_reads (S (time_reads m)) m).

(** [timedelta.total_seconds()]: the microseconds of the difference,
    divided by [10**6]. *)
Definition total_seconds (us : Z) : Float.float := Float.int_truediv us 1000000.

(** *** class ProfileTimer *)

(** [ProfileTimer.__init__] *)
Definition ProfileTimer_init : M loc :=
  now <- utcnow ;;
  new_timer {| start := now; end_ := None |}.

(** [ProfileTimer.Stop]: a [datetime] is always truthy, so [if self.end]
    tests for [None]. *)
Definition Stop (self : loc) : M unit :=
  t <- get_timer self ;;
  match end_ t with
  | Some _ => ret tt
  | None =>
      now <- utcnow ;;
      set_timer self {| start := start t; end_ := Some now |}
  end.

(** [ProfileTimer.elapsed] *)
Definition elapsed (self : loc) : M Float.float :=
  t <- get_timer self ;;
  match end_ t with
  | Some e => ret (total_seconds (e - start t))
  | None =>
      now <- utcnow ;;
      ret (total_seconds (now - start t))
  end.

(** [ProfileTimer.elapsed_ms]: [int(round(self.elapsed * 1000))]; [round]
    already gives an int. *)
Definition elapsed_ms (self : loc) : M Z :=
  e <- elapsed self ;;
  fun m => (Float.round (Float.mul e (Float.of_Z 1000)), m).

(** [ProfileTimer.__repr__] *)
Definition ProfileTimer_repr (self : loc) : M string :=
  e <- elapsed self ;;
  ret (Duration e).

(** *** def Profile *)

(** The generator under [@contextmanager].  [f"{name} in {timer}"]
    formats [name] with [str] and [timer] with its [__repr__]. *)
Definition Profile (name : name_t) (print_to : string -> M unit) : gen loc unit :=
  (let name := or_ name (NameStr "completed") in
   timer <- run ProfileTimer_init ;;
   yield_ timer ;;
   run_call (CallStop timer) (Stop timer) ;;
   name <- match name with
           | NameFn _ f =>
               e <- run (elapsed timer) ;;
               run_call (CallName e) (f e)
           | _ => GRet (name_text name)
           end ;;
   t <- run (ProfileTimer_repr timer) ;;
   run_call (CallSink (name +:+ " in " +:+ t)) (print_to (name +:+ " in " +:+ t)))%gen.

(** The defaults of [Profile]: the empty string for [name], and
    [lambda msg: logging.info(msg)] for [print_to]. *)
Definition Profile_default_name : name_t := NameStr EmptyString.
Definition Profile_default_print_to (msg : string) : M unit :=
  logging_info [PyStr msg] ∅.

(** *** class ProgressContext *)

(** [ProgressContext.__init__] on a new instance *)
Definition ProgressContext_init (print_context : pyval) : M loc :=
  self <- new_object (Instance ProgressContext ∅) ;;
  setattr self "print_context" print_context ;;
  ret self.

(** The module's [NullContext = ProgressContext(None)]. *)
Definition NullContext : M loc := ProgressContext_init PyNone.

(** [Log], [Warning] and [Error] pass their arguments on, with the keyword
    [print_context=self.print_context] added: [Log] to [logging.info], and
    both [Warning] and [Error] to [logging.warning]. *)
Definition Log (self : loc) (args : list pyval) (kwargs : gmap string pyval) : M unit :=
  pc <- getattr self "print_context" ;;
  call_kw logging_info args kwargs "print_context" pc.

Definition Warning (self : loc) (args : list pyval) (kwargs : gmap string pyval) : M unit :=
  pc <- getattr self "print_context" ;;
  call_kw logging_warning args kwargs "print_context" pc.

Definition Error (self : loc) (args : list pyval) (kwargs : gmap string pyval) : M unit :=
  pc <- getattr self "print_context" ;;
  call_kw logging_warning args kwargs "print_context" pc.

(** [ProgressContext.Profile]: nothing runs until the scope is entered. *)
Definition ProgressContext_Profile (self : loc) (level : Z) (msg : name_t) : gen loc unit :=
  Profile msg (fun x => Log self [PyInt level; PyStr "%s"; PyStr x] ∅).

(** [ProgressContext.print]: [self.print_context()] is called, the context
    manager it returns is entered, the builtin [print] is given the
    arguments, and the context manager is left. *)
Definition print (self : loc) (args : list pyval) (kwargs : gmap string pyval) : M unit :=
  pc <- getattr self "print_context" ;;
  write_mode <- call_value pc ;;
  emit (WriteModeEnter write_mode) ;;
  emit (Printed args kwargs) ;;
  emit (WriteModeExit write_mode).

(** *** class ProgressBarContext *)

(** [ProgressBarContext.__init__] on a new instance; [int()] of an int is
    the int.  [self.bar.external_write_mode] names a class method of
    [tqdm]: the method object that is stored is bound to the class. *)
Definition ProgressBarContext_init (name : string) (i : Z) (n : option Z) (unit : string)
    (vertical_position : Z) (leave : option bool) : M loc :=
  self <- new_object (Instance ProgressBarContext ∅) ;;
  setattr self "name" (PyStr name) ;;
  setattr self "i" (PyInt i) ;;
  setattr self "n" (opt_int n) ;;
  setattr self "unit" (PyStr unit) ;;
  setattr self "vertical_position" (PyInt vertical_position) ;;
  match n with
  | Some z => setattr self "n" (PyInt z)
  | None => ret tt
  end ;;
  let unit := if String.eqb unit EmptyString then unit else " " +:+ unit in
  bar <- tqdm_init name i n unit vertical_position leave ;;
  setattr self "bar" (PyRef bar) ;;
  external_write_mode <- bound_classmethod Tqdm "external_write_mode" ;;
  setattr self "print_context" (PyRef external_write_mode) ;;
  ret self.

Definition ToProgressContext (self : loc) : M loc :=
  pc <- getattr self "print_context" ;;
  ProgressContext_init pc.

(** A read of [ctx.i] by the thread that runs the loop: what the job
    stored in between is in place first. *)
Definition read_i (ctx : loc) : M pyval :=
  (fun m => match job_writes_at (i_reads m) with
            | Some z => setattr ctx "i" (PyInt z) (with_i_reads (S (i_reads m)) m)
            | None => (Normal tt, with_i_reads (S (i_reads m)) m)
            end) ;;
  getattr ctx "i".

(** [ProgressBarContext.Refresh]: the right-hand side [self.i] is read
    before the target [self.bar]; the redraw shows the counter just
    stored. *)
Definition Refresh (self : loc) : M unit :=
  i <- read_i self ;;
  bar <- getattr_ref self "bar" ;;
  setattr bar "n" i ;;
  emit (BarRefresh bar i).

(** *** class Progress *)

Definition Progress_init (name : string) (i : Z) (n : option Z) (unit : string)
    (vertical_position : Z) (leave : option bool) : M loc :=
  self <- new_object (Instance Progress ∅) ;;
  ctx <- ProgressBarContext_init name i n unit vertical_position leave ;;
  setattr self "ctx" (PyRef ctx) ;;
  run_ <- bound_method self "Run" ;;
  setattr self "run" (PyRef run_) ;;
  start_ <- bound_method self "start" ;;
  setattr self "Start" (PyRef start_) ;;
  is_alive_ <- bound_method self "is_alive" ;;
  setattr self "IsAlive" (PyRef is_alive_) ;;
  ret self.

(** [Progress.Run], the abstract entry point. *)
Definition Progress_Run (self : loc) : M unit :=
  raise (NotImplementedError "abstract class").

(** [progress.Start()]: the attribute that [__init__] set to [self.start]
    is looked up and called, which starts the thread. *)
Definition Start (progress : loc) : M unit :=
  getattr progress "Start" ;;
  emit (ThreadStart progress).

Definition is_alive (progress : loc) : M bool :=
  fun m => (Normal (is_alive_at (alive_polls m)), with_alive_polls (S (alive_polls m)) m).

Definition join (progress : loc) (timeout : Float.float) : M unit :=
  emit (ThreadJoin progress timeout).

(** [progress.ctx.i] *)
Definition progress_ctx_i (progress : loc) : M pyval :=
  ctx <- getattr_ref progress "ctx" ;;
  read_i ctx.

(** [progress.ctx.Refresh()] *)
Definition progress_ctx_Refresh (progress : loc) : M unit :=
  ctx <- getattr_ref progress "ctx" ;;
  Refresh ctx.

(** [progress.ctx.bar.close()] *)
Definition progress_ctx_bar_close (progress : loc) : M unit :=
  ctx <- getattr_ref progress "ctx" ;;
  bar <- getattr_ref ctx "bar" ;;
  emit (BarClose bar).

(** *** def Run *)

Definition stall_message (stalled_for : Float.float) : string :=
  "Failed to make progress after " +:+ Float.format_0f stalled_for +:+ " seconds".

(** One turn of [while progress.is_alive(): ...]: the test and, when it
    holds, the body, which leaves the loop's two variables for the next
    turn.  [patience and ...] is false at once when [patience] is 0. *)
Inductive turn : Type :=
| Continue (last_i : pyval) (last_progress : Float.float)
| Break.

Definition Run_body (progress : loc) (refresh_time : Float.float) (patience : Z)
    (last_i : pyval) (last_progress : Float.float) : M turn :=
  alive <- is_alive progress ;;
  if alive then
    current_time <- time_time ;;
    i <- progress_ctx_i progress ;;
    seen <- (if negb (bool_decide (i = last_i)) then
               last_i <- progress_ctx_i progress ;;
               ret (last_i, current_time)
             else if negb (patience =? 0)
                     && Float.gt_Z (Float.sub current_time last_progress) patience then
               raise (OSError (stall_message (Float.sub current_time last_progress)))
             else
               ret (last_i, last_progress)) ;;
    progress_ctx_Refresh progress ;;
    join progress refresh_time ;;
    ret (Continue (fst seen) (snd seen))
  else
    ret Break.

(** The [while] loop; [false] when the fuel ran out with the job still
    alive, [true] when the loop ended. *)
Fixpoint Run_loop (fuel : nat) (progress : loc) (refresh_time : Float.float)
    (patience : Z) (last_i : pyval) (last_progress : Float.float) : M bool :=
  match fuel with
  | O => ret false
  | S fuel =>
      t <- Run_body progress refresh_time patience last_i last_progress ;;
      match t with
      | Continue last_i last_progress =>
          Run_loop fuel progress refresh_time patience last_i last_progress
      | Break => ret true
      end
  end.

(** [Run]: the job when it returned, [None] when the fuel ran out. *)
Definition Run (fuel : nat) (progress : loc) (refresh_time : Float.float)
    (patience : Z) : M (option loc) :=
  Start progress ;;
  last_i <- progress_ctx_i progress ;;
  last_progress <- time_time ;;
  ended <- Run_loop fuel progress refresh_time patience last_i last_progress ;;
  if ended : bool then
    progress_ctx_Refresh progress ;;
    progress_ctx_bar_close progress ;;
    ret (Some progress)
  else
    ret None.

End Progress.

(** ** Vocabulary of the statements *)

(** The end of the window of a timer when [Stop] is called on it: the end
    it has, or the clock. *)
Definition end_at_Stop (utcnow_at : nat -> Z) (m : memory) (timer : loc) : Z :=
  match end_ (timers m timer) with
  | Some e => e
  | None => utcnow_at (utc_reads m)
  end.

(** A computation that emits nothing, never raises [OSError], and leaves
    the [n] attribute of every object alone. *)
Definition silent {A} (c : M A) : Prop :=
  forall m r m', c m = (r, m') ->
    emitted m' = emitted m
    /\ (forall msg, r <> Raised (OSError msg))
    /\ forall l, attr m' l "n" = attr m l "n".

(** A computation that makes no call of [time.time()] or [is_alive()]. *)
Definition steady {A} (c : M A) : Prop :=
  forall m r m', c m = (r, m') ->
    time_reads m' = time_reads m /\ alive_polls m' = alive_polls m.

(** A computation that never raises [OSError]. *)
Definition calm {A} (c : M A) : Prop :=
  forall m r m', c m = (r, m') -> forall msg, r <> Raised (OSError msg).

(** What the turns of the loop that went on have emitted: for each, the
    redraw of a bar at a count, then the wait for the job. *)
Definition turns_trace (progress : loc) (refresh_time : Float.float)
    (redrawn : list (loc * pyval)) : list output :=
  concat (List.map (fun bv => [BarRefresh (fst bv) (snd bv); ThreadJoin progress refresh_time])
                   redrawn).

(** The job as [Run] needs it: it has its context, the context its bar
    and a counter, the bar a counter, and the job its [Start].
    [Progress.__init__] makes it so. *)
Definition job_ready (m : memory) (progress ctx bar : loc) : Prop :=
  attr m progress "ctx" = Some (PyRef ctx)
  /\ attr m ctx "bar" = Some (PyRef bar)
  /\ is_Some (attr m ctx "i")
  /\ is_Some (attr m bar "n")
  /\ is_Some (attr m progress "Start").

(** A job whose counter stays at [i0] stores nothing else in [ctx.i]. *)
Definition counter_stays (job_writes_at : nat -> option Z) (i0 : Z) : Prop :=
  forall k, job_writes_at k = None \/ job_writes_at k = Some i0.

(** ** Vocabulary of the further properties *)

(** The sign bit of a float; a NaN has none. *)
Definition sign_bit (x : Float.float) : bool :=
  match x with
  | S754_zero s => s
  | S754_infinity s => s
  | S754_finite s _ _ => s
  | S754_nan => false
  end.

(** The name that [Profile] reports is not a callable: it is formatted as it
    is. *)
Definition reported_as_is (name : name_t) : bool :=
  match or_ name (NameStr "completed") with
  | NameFn _ _ => false
  | _ => true
  end.

(** A computation after which no fewer reads of the counter are on
    record. *)
Definition forward {A} (c : M A) : Prop :=
  forall m r m', c m = (r, m') -> (i_reads m <= i_reads m')%nat.

(** A job that stores a value in [ctx.i] between any two reads of it, and
    never a value it stored before. *)
Definition counter_advances (job_writes_at : nat -> option Z) : Prop :=
  (forall k, is_Some (job_writes_at k))
  /\ forall j k z, (j < k)%nat -> job_writes_at j = Some z -> job_writes_at k <> Some z.

(** ** Sample inputs *)

Definition sample_memory : memory :=
  {| utc_reads := 0; time_reads := 0; alive_polls := 0; i_reads := 0;
     timers := fun _ => {| start := 0; end_ := None |}; next_timer := 1%positive;
     heap := ∅; emitted := [] |}.

(** A clock that advances by 1.5 ms per reading. *)
Definition sample_utcnow (k : nat) : Z := 1000000 + Z.of_nat k * 1500.

Definition sample_Duration (x : Float.float) : string := Float.format_0f x +:+ "s".

Definition sample_sink (msg : string) : M unit := emit (Printed [PyStr msg] ∅).

Definition sample_logging (sev : severity) (args : list pyval)
    (kwargs : gmap string pyval) : M unit :=
  emit (Printed args kwargs).

(** [time.time()] advancing by a quarter of a second per reading. *)
Definition sample_time (k : nat) : Float.float := Float.int_truediv (4000 + Z.of_nat k) 4.

Definition quarter_second : Float.float := Float.int_truediv 1 4.

Definition sample_job : memory :=
  snd (Progress_init "load" 0 (Some 100) "files" 0 None sample_memory).

Definition sample_context : memory :=
  snd (ProgressBarContext_init "load" 0 (Some 100) "files" 0 None sample_memory).

Definition sample_null : memory := snd (NullContext sample_memory).

Definition always_alive (k : nat) : bool := true.

Definition alive_three_polls (k : nat) : bool := (k <? 3)%nat.

Definition job_stores_nothing (k : nat) : option Z := None.

Definition job_counts (k : nat) : option Z := Some (Z.of_nat k).

(** A clock that advances by three quarters of a second per reading. *)
Definition slow_time (k : nat) : Float.float := Float.int_truediv (4000 + 3 * Z.of_nat k) 4.

(** * Properties *)

(** ** Sanity checks of the float model against CPython *)

Example total_seconds_1us :
  total_seconds 1 = S754_finite false 4722366482869645 (-72).
Proof. reflexivity. Qed.

Example total_seconds_1500us :
  total_seconds 1500 = S754_finite false 6917529027641082 (-62).
Proof. reflexivity. Qed.

Example round_ties_to_even :
  Float.round (Float.mul (total_seconds 2500) (Float.of_Z 1000)) = Normal 2
  /\ Float.round (Float.mul (total_seconds 1500) (Float.of_Z 1000)) = Normal 2
  /\ Float.round (Float.mul (total_seconds 999999) (Float.of_Z 1000)) = Normal 1000
  /\ Float.round (Float.mul (total_seconds (-1500)) (Float.of_Z 1000)) = Normal (-2).
Proof. repeat split; reflexivity. Qed.

Example format_0f_examples :
  Float.format_0f (total_seconds 2500000) = "2"
  /\ Float.format_0f (total_seconds 3500000) = "4"
  /\ Float.format_0f (total_seconds (-400000)) = "-0"
  /\ Float.format_0f (total_seconds 123456789) = "123".
Proof. repeat split; reflexivity. Qed.

(** [round] gives a nearest integer, and the even one of two nearest. *)
Lemma round_half_even_nearest (m : Z) (p : positive) :
  let d := Z.pow_pos 2 p in
  let r := Float.round_half_even m (Zneg p) in
  2 * Z.abs (r * d - m) <= d
  /\ (2 * Z.abs (r * d - m) = d -> Z.even r = true).
Proof.
  intros d r.
  assert (Hd : 0 < d) by (unfold d; rewrite Z.pow_pos_fold; apply Z.pow_pos_nonneg; lia).
  pose proof (Z.div_mod m d ltac:(lia)) as Hdm.
  pose proof (Z.mod_pos_bound m d Hd) as Hmod.
  unfold r, Float.round_half_even. fold d.
  destruct (Z.compare_spec (2 * (m mod d)) d) as [Heq|Hlt|Hgt].
  - destruct (Z.even (m / d)) eqn:Hev.
    + split; [|intros _; exact Hev].
      replace (m / d * d - m) with (- (m mod d)) by lia. lia.
    + split.
      * replace ((m / d + 1) * d - m) with (d - m mod d) by lia. lia.
      * intros _. rewrite Z.even_add, Hev. reflexivity.
  - replace (m / d * d - m) with (- (m mod d)) by lia. split; lia.
  - replace ((m / d + 1) * d - m) with (d - m mod d) by lia. split; lia.
Qed.

Section ProfileTimerProperties.

Variable utcnow_at : nat -> Z.

Lemma Stop_running (self : loc) (m : memory) :
  end_ (timers m self) = None ->
  Stop utcnow_at self m =
    (Normal tt,
     with_timers (fun l => if Pos.eqb l self
                           then {| start := start (timers m self);
                                   end_ := Some (utcnow_at (utc_reads m)) |}
                           else timers m l)
                 (next_timer m) (with_utc_reads (S (utc_reads m)) m)).
Proof.
  intros E. unfold Stop, bind, get_timer, utcnow, set_timer. rewrite E. reflexivity.
Qed.

Lemma Stop_stopped (self : loc) (m : memory) (e : Z) :
  end_ (timers m self) = Some e ->
  Stop utcnow_at self m = (Normal tt, m).
Proof.
  intros E. unfold Stop, bind, get_timer. rewrite E. reflexivity.
Qed.

(** After [Stop] the timer has an end time: the one it had, or the
    reading of the clock. *)
Lemma Stop_records_end (self : loc) (m : memory) :
  end_ (timers (snd (Stop utcnow_at self m)) self) =
    Some (match end_ (timers m self) with
          | Some e => e
          | None => utcnow_at (utc_reads m)
          end).
Proof.
  destruct (end_ (timers m self)) as [e|] eqn:E.
  - rewrite (Stop_stopped _ _ e E). exact E.
  - rewrite (Stop_running _ _ E). simpl. rewrite Pos.eqb_refl. reflexivity.
Qed.

Lemma Stop_returns (self : loc) (m : memory) :
  fst (Stop utcnow_at self m) = Normal tt.
Proof.
  destruct (end_ (timers m self)) as [e|] eqn:E.
  - rewrite (Stop_stopped _ _ e E). reflexivity.
  - rewrite (Stop_running _ _ E). reflexivity.
Qed.

Lemma elapsed_stopped (self : loc) (m : memory) (e : Z) :
  end_ (timers m self) = Some e ->
  elapsed utcnow_at self m = (Normal (total_seconds (e - start (timers m self))), m).
Proof.
  intros E. unfold elapsed, bind, get_timer. rewrite E. reflexivity.
Qed.

Lemma elapsed_running (self : loc) (m : memory) :
  end_ (timers m self) = None ->
  elapsed utcnow_at self m =
    (Normal (total_seconds (utcnow_at (utc_reads m) - start (timers m self))),
     with_utc_reads (S (utc_reads m)) m).
Proof.
  intros E. unfold elapsed, bind, get_timer, utcnow. rewrite E. reflexivity.
Qed.

(** C5. [ProfileTimer.Stop] is idempotent: the first call leaves an end
    time (the clock reading, on a running timer), a second call changes
    nothing at all, so the end time and [elapsed] after two calls are the
    ones after one call, and [elapsed] is the frozen difference. *)
Theorem Stop_idempotent (self : loc) (m : memory) :
  let once := snd (Stop utcnow_at self m) in
  let twice := snd (Stop utcnow_at self once) in
  Stop utcnow_at self once = (Normal tt, once)
  /\ end_ (timers twice self) = end_ (timers once self)
  /\ end_ (timers once self) =
       Some (match end_ (timers m self) with
             | Some e => e
             | None => utcnow_at (utc_reads m)
             end)
  /\ elapsed utcnow_at self twice = elapsed utcnow_at self once
  /\ exists e, end_ (timers once self) = Some e
       /\ elapsed utcnow_at self once
          = (Normal (total_seconds (e - start (timers once self))), once).
Proof.
  intros once twice.
  pose proof (Stop_records_end self m) as Hend. fold once in Hend.
  assert (Hnoop : Stop utcnow_at self once = (Normal tt, once))
    by (eapply Stop_stopped; exact Hend).
  assert (Htwice : twice = once) by (unfold twice; rewrite Hnoop; reflexivity).
  repeat split.
  - exact Hnoop.
  - rewrite Htwice. reflexivity.
  - exact Hend.
  - rewrite Htwice. reflexivity.
  - eexists. split; [exact Hend|]. apply elapsed_stopped. exact Hend.
Qed.

(** C6. [elapsed] is the float of [end - start] seconds on a stopped
    timer and of [now - start] on a running one, [now] being read from the
    clock; [elapsed_ms] is [round(elapsed * 1000)], an int. *)
Theorem elapsed_spec (self : loc) (m : memory) :
  let t := timers m self in
  elapsed utcnow_at self m =
    match end_ t with
    | Some e => (Normal (total_seconds (e - start t)), m)
    | None => (Normal (total_seconds (utcnow_at (utc_reads m) - start t)),
               with_utc_reads (S (utc_reads m)) m)
    end
  /\ elapsed_ms utcnow_at self m =
       match elapsed utcnow_at self m with
       | (Normal x, m') => (Float.round (Float.mul x (Float.of_Z 1000)), m')
       | (Raised e, m') => (Raised e, m')
       end.
Proof.
  intros t. split.
  - destruct (end_ t) as [e|] eqn:E.
    + apply elapsed_stopped. exact E.
    + apply elapsed_running. exact E.
  - reflexivity.
Qed.

End ProfileTimerProperties.

Section ProfileProperties.

Variable utcnow_at : nat -> Z.
Variable Duration : Float.float -> string.

Lemma elapsed_returns (self : loc) (m : memory) :
  exists x m', elapsed utcnow_at self m = (Normal x, m').
Proof.
  destruct (end_ (timers m self)) as [e|] eqn:E.
  - rewrite (elapsed_stopped _ _ _ e E). eauto.
  - rewrite (elapsed_running _ _ _ E). eauto.
Qed.

Lemma ProfileTimer_init_eq (m : memory) :
  ProfileTimer_init utcnow_at m
  = (Normal (next_timer m), snd (ProfileTimer_init utcnow_at m)).
Proof. reflexivity. Qed.

(** The [with] statement over [Profile], path by path. *)
Lemma with_Profile_paths {A} (name : name_t) (print_to : string -> M unit)
    (body : loc -> M A) (m : memory) :
  with_ (Profile utcnow_at Duration name print_to) body m =
    let timer := next_timer m in
    let report (a : A) (s : string) (pre : list call) (m : memory) :=
      match ProfileTimer_repr utcnow_at Duration timer m with
      | (Normal t, m') =>
          match print_to (s +:+ " in " +:+ t) m' with
          | (Normal _, m'') => (Normal (Some a), m'', pre ++ [CallSink (s +:+ " in " +:+ t)])
          | (Raised ex, m'') => (Raised ex, m'', pre ++ [CallSink (s +:+ " in " +:+ t)])
          end
      | (Raised ex, m') => (Raised ex, m', pre)
      end in
    match body timer (snd (ProfileTimer_init utcnow_at m)) with
    | (Raised e, m2) => (Raised e, m2, [])
    | (Normal a, m2) =>
        let m3 := snd (Stop utcnow_at timer m2) in
        match or_ name (NameStr "completed") with
        | NameFn _ f =>
            match elapsed utcnow_at timer m3 with
            | (Normal e, m4) =>
                match f e m4 with
                | (Normal s, m5) =>
                    report a s [CallStop timer; CallName e] m5
                | (Raised ex, m5) => (Raised ex, m5, [CallStop timer; CallName e])
                end
            | (Raised ex, m4) => (Raised ex, m4, [CallStop timer])
            end
        | n => report a (name_text n) [CallStop timer] m3
        end
    end.
Proof.
  unfold with_, cm_enter, Profile.
  cbn -[Stop elapsed ProfileTimer_repr ProfileTimer_init].
  rewrite (ProfileTimer_init_eq m).
  cbn -[Stop elapsed ProfileTimer_repr ProfileTimer_init].
  destruct (body (next_timer m) _) as [[a|e] m2] eqn:Hbody;
    cbn -[Stop elapsed ProfileTimer_repr ProfileTimer_init].
  - pose proof (Stop_returns utcnow_at (next_timer m) m2) as Hstop.
    destruct (Stop utcnow_at (next_timer m) m2) as [r m3]. cbn in Hstop. subst r.
    destruct (or_ name (NameStr "completed")) as [s|t s|t f];
      cbn -[Stop elapsed ProfileTimer_repr ProfileTimer_init].
    + destruct (ProfileTimer_repr utcnow_at Duration (next_timer m) m3) as [[t|ex] m6];
        [|reflexivity].
      destruct (print_to _ m6) as [[[]|ex] m7]; reflexivity.
    + destruct (ProfileTimer_repr utcnow_at Duration (next_timer m) m3) as [[t'|ex] m6];
        [|reflexivity].
      destruct (print_to _ m6) as [[[]|ex] m7]; reflexivity.
    + destruct (elapsed utcnow_at (next_timer m) m3) as [[e|ex] m4]; [|reflexivity].
      cbn -[Stop elapsed ProfileTimer_repr ProfileTimer_init].
      destruct (f e m4) as [[s|ex] m5]; [|reflexivity].
      cbn -[Stop elapsed ProfileTimer_repr ProfileTimer_init].
      destruct (ProfileTimer_repr utcnow_at Duration (next_timer m) m5) as [[t'|ex] m6];
        [|reflexivity].
      destruct (print_to _ m6) as [[[]|ex] m7]; reflexivity.
  - destruct (decide (e = e)) as [_|Hne]; [reflexivity|congruence].
Qed.

Lemma ProfileTimer_repr_eq (self : loc) (m : memory) :
  ProfileTimer_repr utcnow_at Duration self m =
    match elapsed utcnow_at self m with
    | (Normal x, m') => (Normal (Duration x), m')
    | (Raised e, m') => (Raised e, m')
    end.
Proof. reflexivity. Qed.


Lemma Stop_keeps_start (self : loc) (m : memory) :
  start (timers (snd (Stop utcnow_at self m)) self) = start (timers m self).
Proof.
  destruct (end_ (timers m self)) as [e|] eqn:E.
  - rewrite (Stop_stopped _ _ _ e E). reflexivity.
  - rewrite (Stop_running _ _ _ E). cbn. rewrite Pos.eqb_refl. reflexivity.
Qed.

(** [elapsed] right after [Stop]. *)
Lemma elapsed_after_Stop (self : loc) (m : memory) :
  elapsed utcnow_at self (snd (Stop utcnow_at self m))
  = (Normal (total_seconds (end_at_Stop utcnow_at m self - start (timers m self))),
     snd (Stop utcnow_at self m)).
Proof.
  rewrite (elapsed_stopped _ _ _ _ (Stop_records_end utcnow_at self m)).
  rewrite Stop_keeps_start. reflexivity.
Qed.

(** C1, as the code has it.  When the enclosed code returns, the scope
    calls [Stop] on its timer, which is stopped from then on, and after
    that it calls the sink, once: the outcome of the [with] statement is
    the outcome of that one call of the sink, made in the memory that
    [Stop] (and the name callback, if there is one) left, and the block's
    value is returned when the sink returns.  A callable name is called in
    between, with the elapsed seconds of the stopped timer; if it raises,
    its exception leaves the [with] statement and the sink is not called.
    When the enclosed code raises, the exception reaches the caller
    unchanged and the scope has done nothing at all: the memory is the one
    the enclosed code left, so the timer was not stopped and the sink was
    not called. *)
Theorem Profile_reports_on_return_only {A} (name : name_t) (print_to : string -> M unit)
    (body : loc -> M A) (m : memory) :
  let timer := next_timer m in
  match body timer (snd (ProfileTimer_init utcnow_at m)) with
  | (Raised e, m2) =>
      with_ (Profile utcnow_at Duration name print_to) body m = (Raised e, m2, [])
  | (Normal a, m2) =>
      let m3 := snd (Stop utcnow_at timer m2) in
      let x := total_seconds (end_at_Stop utcnow_at m2 timer - start (timers m2 timer)) in
      let report (s : string) (pre : list call) (m5 : memory) :=
        match print_to s m5 with
        | (Normal _, m') => (Normal (Some a), m', pre ++ [CallSink s])
        | (Raised ex, m') => (Raised ex, m', pre ++ [CallSink s])
        end in
      Stop utcnow_at timer m2 = (Normal tt, m3)
      /\ end_ (timers m3 timer) = Some (end_at_Stop utcnow_at m2 timer)
      /\ match or_ name (NameStr "completed") with
         | NameFn _ f =>
             match f x m3 with
             | (Normal s, m5) =>
                 exists y m6,
                   elapsed utcnow_at timer m5 = (Normal y, m6)
                   /\ with_ (Profile utcnow_at Duration name print_to) body m
                      = report (s +:+ " in " +:+ Duration y) [CallStop timer; CallName x] m6
             | (Raised ex, m5) =>
                 with_ (Profile utcnow_at Duration name print_to) body m
                 = (Raised ex, m5, [CallStop timer; CallName x])
             end
         | n =>
             with_ (Profile utcnow_at Duration name print_to) body m
             = report (name_text n +:+ " in " +:+ Duration x) [CallStop timer] m3
         end
  end.
Proof.
  intros timer. rewrite with_Profile_paths. cbv beta zeta. fold timer.
  destruct (body timer _) as [[a|e] m2]; [|reflexivity].
  split.
  { pose proof (Stop_returns utcnow_at timer m2) as Hstop.
    destruct (Stop utcnow_at timer m2) as [r m3]. cbn in Hstop. subst r. reflexivity. }
  split; [exact (Stop_records_end utcnow_at timer m2)|].
  destruct (or_ name (NameStr "completed")) as [s|t s|t f].
  - rewrite ProfileTimer_repr_eq, elapsed_after_Stop.
    destruct (print_to _ _) as [[[]|ex] m7]; reflexivity.
  - rewrite ProfileTimer_repr_eq, elapsed_after_Stop.
    destruct (print_to _ _) as [[[]|ex] m7]; reflexivity.
  - rewrite elapsed_after_Stop.
    destruct (f _ _) as [[s|ex] m5]; [|reflexivity].
    destruct (elapsed_returns timer m5) as (y & m6 & Hy).
    exists y, m6. split; [exact Hy|].
    rewrite ProfileTimer_repr_eq, Hy.
    destruct (print_to _ m6) as [[[]|ex] m7]; reflexivity.
Qed.

(** C10, as the code has it.  A falsy name resolves to the literal
    "completed".  When the enclosed code returns, the scope stops its timer
    and calls the sink, once, with "completed in " followed by the
    humanized elapsed time of the stopped timer: the outcome of the [with]
    statement is the outcome of that call.  When the enclosed code raises,
    the sink receives no message: the scope does nothing, and the
    exception reaches the caller. *)
Theorem Profile_falsy_name_completed {A} (name : name_t) (print_to : string -> M unit)
    (body : loc -> M A) (m : memory) :
  truthy name = false ->
  let timer := next_timer m in
  or_ name (NameStr "completed") = NameStr "completed"
  /\ match body timer (snd (ProfileTimer_init utcnow_at m)) with
     | (Raised e, m2) =>
         with_ (Profile utcnow_at Duration name print_to) body m = (Raised e, m2, [])
     | (Normal a, m2) =>
         let m3 := snd (Stop utcnow_at timer m2) in
         let msg := "completed in "
                    +:+ Duration (total_seconds (end_at_Stop utcnow_at m2 timer
                                                 - start (timers m2 timer))) in
         end_ (timers m3 timer) = Some (end_at_Stop utcnow_at m2 timer)
         /\ with_ (Profile utcnow_at Duration name print_to) body m
            = match print_to msg m3 with
              | (Normal _, m') => (Normal (Some a), m', [CallStop timer; CallSink msg])
              | (Raised ex, m') => (Raised ex, m', [CallStop timer; CallSink msg])
              end
     end.
Proof.
  intros Hfalsy timer.
  assert (Hor : or_ name (NameStr "completed") = NameStr "completed")
    by (unfold or_; rewrite Hfalsy; reflexivity).
  split; [exact Hor|].
  rewrite with_Profile_paths. cbv beta zeta. fold timer. rewrite Hor.
  destruct (body timer _) as [[a|e] m2]; [|reflexivity].
  split; [exact (Stop_records_end utcnow_at timer m2)|].
  rewrite ProfileTimer_repr_eq, elapsed_after_Stop. cbn [name_text].
  destruct (print_to _ _) as [[[]|ex] m7]; reflexivity.
Qed.

End ProfileProperties.

(** ** Objects and attributes *)

Lemma getattr_Some (o : loc) (a : string) (m : memory) (i : instance) (v : pyval) :
  heap m !! o = Some i -> attrs i !! a = Some v ->
  getattr o a m = (Normal v, m).
Proof. intros Ho Ha. unfold getattr, attr. rewrite Ho, Ha. reflexivity. Qed.

Lemma getattr_memory (o : loc) (a : string) (m : memory) :
  snd (getattr o a m) = m.
Proof.
  unfold getattr. destruct (attr m o a); reflexivity.
Qed.

Lemma new_object_fresh (m : memory) :
  heap m !! fresh (dom (heap m)) = None.
Proof. apply not_elem_of_dom, is_fresh. Qed.

Section ContextProperties.

Variable logging_call : severity -> list pyval -> gmap string pyval -> M unit.

(** [ProgressContext(pc)] stores one new object, whose only attribute is
    [print_context]. *)
Lemma ProgressContext_init_spec (pc : pyval) (m : memory) :
  let new := fresh (dom (heap m)) in
  exists m',
    ProgressContext_init pc m = (Normal new, m')
    /\ heap m !! new = None
    /\ heap m' !! new = Some (Instance ProgressContext (<["print_context" := pc]> ∅))
    /\ forall l, l <> new -> heap m' !! l = heap m !! l.
Proof.
  intros new. unfold ProgressContext_init, new_object, setattr, bind, ret. cbn.
  fold new. rewrite lookup_insert_eq. cbn.
  eexists. split; [reflexivity|]. cbn. repeat split.
  - apply new_object_fresh.
  - rewrite lookup_insert_eq. reflexivity.
  - intros l Hl. rewrite !lookup_insert_ne by congruence. reflexivity.
Qed.

(** C4. [Error] does what [Warning] does, whatever the arguments: both
    hand the arguments to the logging facility at the warning severity,
    with the held [print_context] added as a keyword. *)
Theorem Error_same_as_Warning (self : loc) (args : list pyval)
    (kwargs : gmap string pyval) (m : memory) :
  Error logging_call self args kwargs m = Warning logging_call self args kwargs m
  /\ Warning logging_call self args kwargs m =
       match getattr self "print_context" m with
       | (Normal pc, _) =>
           match kwargs !! "print_context" with
           | None => logging_call WARNING args (<["print_context" := pc]> kwargs) m
           | Some _ =>
               (Raised (TypeError "got multiple values for keyword argument 'print_context'"), m)
           end
       | (Raised e, _) => (Raised e, m)
       end.
Proof.
  split; [reflexivity|].
  unfold Warning, bind. pose proof (getattr_memory self "print_context" m) as Hm.
  destruct (getattr self "print_context" m) as [[pc|e] m']; cbn in Hm; subst m';
    [|reflexivity].
  unfold call_kw. destruct (kwargs !! "print_context"); reflexivity.
Qed.

(** C7. On a bar-attached context, [ToProgressContext] returns a new
    [ProgressContext] object; its [print_context] is the very value the
    original holds (the same object, which is left as it was, like every
    object already stored), and it has no [bar] attribute. *)
Theorem ToProgressContext_strips_bar (self : loc) (m : memory)
    (a : gmap string pyval) (pc bar : pyval) :
  heap m !! self = Some (Instance ProgressBarContext a) ->
  a !! "print_context" = Some pc ->
  a !! "bar" = Some bar ->
  exists new m' a',
    ToProgressContext self m = (Normal new, m')
    /\ heap m !! new = None
    /\ heap m' !! new = Some (Instance ProgressContext a')
    /\ a' !! "print_context" = Some pc
    /\ a' !! "bar" = None
    /\ hasattr (Instance ProgressContext a') "bar" = false
    /\ forall l, l <> new -> heap m' !! l = heap m !! l.
Proof.
  intros Hself Hpc Hbar.
  destruct (ProgressContext_init_spec pc m) as (m' & Hinit & Hfresh & Hnew & Hold).
  exists (fresh (dom (heap m))), m', (<["print_context" := pc]> ∅).
  split.
  { unfold ToProgressContext, bind. rewrite (getattr_Some _ _ _ _ _ Hself Hpc).
    exact Hinit. }
  split; [exact Hfresh|]. split; [exact Hnew|].
  split; [apply lookup_insert_eq|].
  assert (Hnobar : (<["print_context" := pc]> (∅ : gmap string pyval)) !! "bar" = None)
    by (rewrite lookup_insert_ne by discriminate; apply lookup_empty).
  split; [exact Hnobar|]. split; [|exact Hold].
  unfold hasattr. cbn [attrs cls]. rewrite Hnobar. reflexivity.
Qed.

(** C9. On the null context, whose [print_context] is [None], [print]
    always raises the [TypeError] of calling [None], and nothing is
    printed.  [Log], [Warning] and [Error] do not call the held value: they
    pass [None] on to the logging facility as the [print_context] keyword,
    and the sink of a [Profile] scope is such a [Log]. *)
Theorem NullContext_print_raises (null : loc) (m : memory) (a : gmap string pyval)
    (args : list pyval) (kwargs : gmap string pyval) (level : Z) (msg : name_t) :
  heap m !! null = Some (Instance ProgressContext a) ->
  a !! "print_context" = Some PyNone ->
  print null args kwargs m = (Raised (TypeError "'NoneType' object is not callable"), m)
  /\ (kwargs !! "print_context" = None ->
      Log logging_call null args kwargs m
        = logging_call INFO args (<["print_context" := PyNone]> kwargs) m
      /\ Warning logging_call null args kwargs m
        = logging_call WARNING args (<["print_context" := PyNone]> kwargs) m
      /\ Error logging_call null args kwargs m
        = logging_call WARNING args (<["print_context" := PyNone]> kwargs) m)
  /\ forall utcnow_at Duration,
       ProgressContext_Profile utcnow_at Duration logging_call null level msg
       = Profile utcnow_at Duration msg
           (fun x => Log logging_call null [PyInt level; PyStr "%s"; PyStr x] ∅)
       /\ forall x m2,
            attr m2 null "print_context" = Some PyNone ->
            Log logging_call null [PyInt level; PyStr "%s"; PyStr x] ∅ m2
            = logging_call INFO [PyInt level; PyStr "%s"; PyStr x]
                (<["print_context" := PyNone]> ∅) m2.
Proof.
  intros Hnull Hpc.
  assert (Hget : getattr null "print_context" m = (Normal PyNone, m))
    by (eapply getattr_Some; eassumption).
  split; [|split].
  - unfold print, bind. rewrite Hget. reflexivity.
  - intros Hkw. unfold Log, Warning, Error, bind, call_kw. rewrite Hget, Hkw.
    repeat split.
  - intros utcnow_at Duration. split; [reflexivity|].
    intros x m2 Hm2. unfold Log, bind, call_kw, getattr. rewrite Hm2, lookup_empty.
    reflexivity.
Qed.

End ContextProperties.

(** ** The footprint of the heap operations *)

Lemma attr_with_heap (h : gmap loc instance) (m : memory) (l : loc) (b : string) :
  attr (with_heap h m) l b = match h !! l with Some i => attrs i !! b | None => None end.
Proof. reflexivity. Qed.

(** [setattr] on a stored object succeeds and changes that attribute of
    that object only. *)
Lemma setattr_stored (o : loc) (a : string) (v : pyval) (m : memory) (i : instance) :
  heap m !! o = Some i ->
  exists h,
    setattr o a v m = (Normal tt, with_heap h m)
    /\ forall l b, attr (with_heap h m) l b
                   = if decide (l = o /\ b = a) then Some v else attr m l b.
Proof.
  intros Ho. unfold setattr. rewrite Ho. eexists. split; [reflexivity|].
  intros l b. rewrite attr_with_heap. unfold attr.
  destruct (decide (l = o)) as [->|Hl].
  - rewrite lookup_insert_eq, Ho. cbn.
    destruct (decide (b = a)) as [->|Hb].
    + rewrite lookup_insert_eq. rewrite decide_True by auto. reflexivity.
    + rewrite lookup_insert_ne by congruence. rewrite decide_False by tauto. reflexivity.
  - rewrite lookup_insert_ne by congruence. rewrite decide_False by tauto. reflexivity.
Qed.

Lemma attr_stored (m : memory) (o : loc) (a : string) :
  is_Some (attr m o a) -> exists i, heap m !! o = Some i.
Proof. unfold attr. destruct (heap m !! o); [eauto|intros [? ?]; discriminate]. Qed.

(** Whatever its outcome, [setattr] emits nothing, raises no [OSError], and
    leaves every other attribute as it was. *)
Lemma setattr_footprint (o : loc) (a : string) (v : pyval) (m : memory)
    (r : outcome unit) (m' : memory) :
  setattr o a v m = (r, m') ->
  emitted m' = emitted m
  /\ (forall msg, r <> Raised (OSError msg))
  /\ forall l b, b <> a -> attr m' l b = attr m l b.
Proof.
  intros H. destruct (heap m !! o) as [i|] eqn:Ho.
  - destruct (setattr_stored o a v m i Ho) as (h & Hset & Hattr).
    rewrite Hset in H. inversion H; subst.
    split; [reflexivity|]. split; [discriminate|].
    intros l b Hb. rewrite Hattr, decide_False by tauto. reflexivity.
  - unfold setattr in H. rewrite Ho in H. inversion H; subst.
    split; [reflexivity|]. split; [discriminate|reflexivity].
Qed.


Lemma silent_bind {A B} (c : M A) (k : A -> M B) :
  silent c -> (forall a, silent (k a)) -> silent (bind c k).
Proof.
  intros Hc Hk m r m' H. unfold bind in H.
  destruct (c m) as [[a|e] m1] eqn:Hcm.
  - destruct (Hc _ _ _ Hcm) as (He & _ & Hn).
    destruct (Hk a _ _ _ H) as (He' & Hr' & Hn').
    split; [congruence|]. split; [exact Hr'|]. intros l. rewrite Hn', Hn. reflexivity.
  - inversion H; subst. destruct (Hc _ _ _ Hcm) as (He & Hr & Hn).
    split; [exact He|]. split; [|exact Hn].
    intros msg Heq. inversion Heq; subst. exact (Hr msg eq_refl).
Qed.

Lemma silent_ret {A} (a : A) : silent (ret a).
Proof. intros m r m' H. inversion H; subst. repeat split; discriminate. Qed.

Lemma silent_getattr (o : loc) (a : string) : silent (getattr o a).
Proof.
  intros m r m' H. unfold getattr in H.
  destruct (attr m o a); inversion H; subst;
    (split; [reflexivity|]; split; [discriminate|reflexivity]).
Qed.

Lemma silent_getattr_ref (o : loc) (a : string) : silent (getattr_ref o a).
Proof.
  apply silent_bind; [apply silent_getattr|].
  intros [| | | |l|c]; try apply silent_ret;
    intros m r m' H; inversion H; subst; (split; [reflexivity|]; split; [discriminate|reflexivity]).
Qed.


Lemma steady_bind {A B} (c : M A) (k : A -> M B) :
  steady c -> (forall a, steady (k a)) -> steady (bind c k).
Proof.
  intros Hc Hk m r m' H. unfold bind in H.
  destruct (c m) as [[a|e] m1] eqn:Hcm.
  - destruct (Hc _ _ _ Hcm) as (Ht & Ha). destruct (Hk a _ _ _ H) as (Ht' & Ha').
    split; congruence.
  - inversion H; subst. exact (Hc _ _ _ Hcm).
Qed.

Lemma steady_ret {A} (a : A) : steady (ret a).
Proof. intros m r m' H. inversion H; subst. split; reflexivity. Qed.

Lemma steady_raise {A} (e : exn) : steady (raise (A:=A) e).
Proof. intros m r m' H. inversion H; subst. split; reflexivity. Qed.

Lemma steady_emit (o : output) : steady (emit o).
Proof. intros m r m' H. inversion H; subst. split; reflexivity. Qed.

Lemma steady_getattr (o : loc) (a : string) : steady (getattr o a).
Proof.
  intros m r m' H. unfold getattr in H.
  destruct (attr m o a); inversion H; subst; split; reflexivity.
Qed.

Lemma steady_getattr_ref (o : loc) (a : string) : steady (getattr_ref o a).
Proof.
  apply steady_bind; [apply steady_getattr|].
  intros [| | | |l|c]; first [apply steady_ret | apply steady_raise].
Qed.

Lemma steady_setattr (o : loc) (a : string) (v : pyval) : steady (setattr o a v).
Proof.
  intros m r m' H. unfold setattr in H.
  destruct (heap m !! o); inversion H; subst; split; reflexivity.
Qed.


Lemma silent_calm {A} (c : M A) : silent c -> calm c.
Proof. intros Hc m r m' H. exact (proj1 (proj2 (Hc m r m' H))). Qed.

Lemma bind_inv {A B} (c : M A) (k : A -> M B) (m : memory) (r : outcome B) (m' : memory) :
  bind c k m = (r, m') ->
  (exists a m1, c m = (Normal a, m1) /\ k a m1 = (r, m'))
  \/ (exists e, c m = (Raised e, m') /\ r = Raised e).
Proof.
  unfold bind. destruct (c m) as [[a|e] m1]; intros H.
  - left. eauto.
  - right. inversion H; subst. eauto.
Qed.

Lemma calm_bind {A B} (c : M A) (k : A -> M B) :
  calm c -> (forall a, calm (k a)) -> calm (bind c k).
Proof.
  intros Hc Hk m r m' H msg.
  destruct (bind_inv _ _ _ _ _ H) as [(a & m1 & _ & Hk')|(e & Hc' & ->)].
  - exact (Hk a _ _ _ Hk' msg).
  - intros Heq. inversion Heq; subst. exact (Hc _ _ _ Hc' msg eq_refl).
Qed.

Lemma calm_ret {A} (a : A) : calm (ret a).
Proof. intros m r m' H msg. inversion H; subst. discriminate. Qed.

Lemma calm_emit (o : output) : calm (emit o).
Proof. intros m r m' H msg. inversion H; subst. discriminate. Qed.

Lemma calm_setattr (o : loc) (a : string) (v : pyval) : calm (setattr o a v).
Proof. intros m r m' H. exact (proj1 (proj2 (setattr_footprint _ _ _ _ _ _ H))). Qed.


Lemma turns_trace_cons (progress : loc) (refresh_time : Float.float)
    (bar : loc) (v : pyval) (l : list (loc * pyval)) :
  turns_trace progress refresh_time ((bar, v) :: l)
  = BarRefresh bar v :: ThreadJoin progress refresh_time
      :: turns_trace progress refresh_time l.
Proof. reflexivity. Qed.

(** The loop closes no bar while it turns. *)
Lemma turns_trace_no_close (progress : loc) (refresh_time : Float.float)
    (redrawn : list (loc * pyval)) (bar : loc) :
  ~ In (BarClose bar) (turns_trace progress refresh_time redrawn).
Proof.
  induction redrawn as [|[b v] l IH]; [intros []|].
  rewrite turns_trace_cons. intros [H|[H|H]]; [discriminate|discriminate|exact (IH H)].
Qed.

(** The first index at which a test holds, below one at which it holds. *)
Lemma first_true (f : nat -> bool) (k : nat) :
  f k = true ->
  exists j, (j <= k)%nat /\ f j = true /\ forall i, (i < j)%nat -> f i = false.
Proof.
  induction k as [k IH] using lt_wf_ind. intros Hk.
  destruct (List.existsb f (seq 0 k)) eqn:Hex.
  - apply List.existsb_exists in Hex. destruct Hex as (i & Hin & Hi).
    apply in_seq in Hin. destruct (IH i ltac:(lia) Hi) as (j & Hj & Hfj & Hmin).
    exists j. split; [lia|]. split; assumption.
  - exists k. split; [lia|]. split; [exact Hk|].
    intros i Hi. destruct (f i) eqn:Hfi; [|reflexivity].
    assert (List.existsb f (seq 0 k) = true); [|congruence].
    apply List.existsb_exists. exists i. split; [apply in_seq; lia|exact Hfi].
Qed.

Lemma gt_Z_to_Q (x : Float.float) (q : Q) (z : Z) :
  Float.to_Q x = Some q -> Float.gt_Z x z = negb (Qle_bool q (inject_Z z)).
Proof.
  intros H. destruct x; cbn in H; try discriminate; unfold Float.gt_Z; cbn [Float.to_Q];
    inversion H; subst; reflexivity.
Qed.

Section RunProperties.

Variable time_at : nat -> Float.float.
Variable is_alive_at : nat -> bool.
Variable job_writes_at : nat -> option Z.

Lemma silent_read_i (ctx : loc) : silent (read_i job_writes_at ctx).
Proof.
  apply silent_bind; [|intros; apply silent_getattr].
  intros m r m' H. destruct (job_writes_at (i_reads m)) as [z|].
  - destruct (setattr_footprint _ _ _ _ _ _ H) as (He & Hr & Hn).
    split; [exact He|]. split; [exact Hr|]. intros l. apply Hn. discriminate.
  - inversion H; subst. split; [reflexivity|]. split; [discriminate|reflexivity].
Qed.

Lemma silent_progress_ctx_i (progress : loc) :
  silent (progress_ctx_i job_writes_at progress).
Proof.
  apply silent_bind; [apply silent_getattr_ref|]. intros ctx. apply silent_read_i.
Qed.

Lemma calm_Refresh (progress : loc) : calm (progress_ctx_Refresh job_writes_at progress).
Proof.
  apply calm_bind; [apply silent_calm, silent_getattr_ref|]. intros ctx.
  apply calm_bind; [apply silent_calm, silent_read_i|]. intros i.
  apply calm_bind; [apply silent_calm, silent_getattr_ref|]. intros bar.
  apply calm_bind; [apply calm_setattr|]. intros _. apply calm_emit.
Qed.

Lemma calm_bar_close (progress : loc) : calm (progress_ctx_bar_close progress).
Proof.
  apply calm_bind; [apply silent_calm, silent_getattr_ref|]. intros ctx.
  apply calm_bind; [apply silent_calm, silent_getattr_ref|]. intros bar.
  apply calm_emit.
Qed.

(** A [Refresh] that returns has redrawn a bar, and that is all it
    emitted. *)
Lemma Refresh_emits (progress : loc) (m m' : memory) :
  progress_ctx_Refresh job_writes_at progress m = (Normal tt, m') ->
  exists bar v, emitted m' = emitted m ++ [BarRefresh bar v].
Proof.
  intros H. unfold progress_ctx_Refresh, Refresh in H.
  destruct (bind_inv _ _ _ _ _ H) as [(ctx & m1 & H1 & H1')|(e & _ & ?)]; [|discriminate].
  destruct (bind_inv _ _ _ _ _ H1') as [(i & m2 & H2 & H2')|(e & _ & ?)]; [|discriminate].
  destruct (bind_inv _ _ _ _ _ H2') as [(bar & m3 & H3 & H3')|(e & _ & ?)]; [|discriminate].
  destruct (bind_inv _ _ _ _ _ H3') as [([] & m4 & H4 & H4')|(e & _ & ?)]; [|discriminate].
  inversion H4'; subst. exists bar, i. cbn.
  rewrite (proj1 (setattr_footprint _ _ _ _ _ _ H4)).
  rewrite (proj1 (silent_getattr_ref _ _ _ _ _ H3)).
  rewrite (proj1 (silent_read_i _ _ _ _ H2)).
  rewrite (proj1 (silent_getattr_ref _ _ _ _ _ H1)). reflexivity.
Qed.

Lemma calm_join (progress : loc) (timeout : Float.float) : calm (join progress timeout).
Proof. apply calm_emit. Qed.

(** The turn of the loop that raises the stall error has emitted nothing
    and has left the counter of every bar alone; the error is the one of
    the [elif], with the stall it computed. *)
Lemma Run_body_stall (progress : loc) (refresh_time : Float.float) (patience : Z)
    (last_i : pyval) (last_progress : Float.float) (m : memory) (msg : string) (m' : memory) :
  Run_body time_at is_alive_at job_writes_at progress refresh_time patience
           last_i last_progress m = (Raised (OSError msg), m') ->
  emitted m' = emitted m
  /\ (forall l, attr m' l "n" = attr m l "n")
  /\ patience <> 0
  /\ Float.gt_Z (Float.sub (time_at (time_reads m)) last_progress) patience = true
  /\ msg = stall_message (Float.sub (time_at (time_reads m)) last_progress).
Proof.
  intros H. unfold Run_body in H.
  destruct (bind_inv _ _ _ _ _ H) as [(alive & m1 & H1 & H1')|(e & H1 & _)];
    [|discriminate].
  inversion H1; subst alive m1; clear H1.
  destruct (is_alive_at (alive_polls m)); [|discriminate].
  destruct (bind_inv _ _ _ _ _ H1') as [(ct & m2 & H2 & H2')|(e & H2 & _)];
    [|discriminate].
  inversion H2; subst ct m2; clear H2.
  destruct (bind_inv _ _ _ _ _ H2') as [(i & m3 & H3 & H3')|(e & H3 & He)].
  2:{ inversion He; subst e.
      exfalso. exact (proj1 (proj2 (silent_progress_ctx_i _ _ _ _ H3)) msg eq_refl). }
  destruct (silent_progress_ctx_i _ _ _ _ H3) as (Hem & _ & Hn).
  destruct (bind_inv _ _ _ _ _ H3') as [(seen & m4 & H4 & H4')|(e & H4 & He)].
  { exfalso. revert H4'.
    generalize (Continue (fst seen) (snd seen)). intros t H4'.
    assert (Hcalm : calm (progress_ctx_Refresh job_writes_at progress ;;
                          join progress refresh_time ;; ret t)).
    { apply calm_bind; [apply calm_Refresh|]. intros _.
      apply calm_bind; [apply calm_join|]. intros _. apply calm_ret. }
    exact (Hcalm _ _ _ H4' msg eq_refl). }
  inversion He; subst e; clear He.
  destruct (negb (bool_decide (i = last_i))).
  { exfalso.
    assert (Hcalm : calm (last_i0 <- progress_ctx_i job_writes_at progress ;;
                          ret (last_i0, time_at (time_reads m)))).
    { apply calm_bind; [apply silent_calm, silent_progress_ctx_i|].
      intros ?. apply calm_ret. }
    exact (Hcalm _ _ _ H4 msg eq_refl). }
  destruct (negb (patience =? 0)) eqn:Hp; cbn [andb] in H4.
  2:{ inversion H4. }
  destruct (Float.gt_Z _ patience) eqn:Hgt; [|inversion H4].
  inversion H4; subst. cbn in Hem, Hn.
  split; [exact Hem|]. split; [exact Hn|].
  split; [intros ->; discriminate|]. split; reflexivity.
Qed.

(** A turn that goes on has redrawn a bar and has waited for the job. *)
Lemma Run_body_continue (progress : loc) (refresh_time : Float.float) (patience : Z)
    (last_i : pyval) (last_progress : Float.float) (m : memory)
    (last_i' : pyval) (last_progress' : Float.float) (m' : memory) :
  Run_body time_at is_alive_at job_writes_at progress refresh_time patience
           last_i last_progress m = (Normal (Continue last_i' last_progress'), m') ->
  exists bar v,
    emitted m' = emitted m ++ [BarRefresh bar v; ThreadJoin progress refresh_time].
Proof.
  intros H. unfold Run_body in H.
  destruct (bind_inv _ _ _ _ _ H) as [(alive & m1 & H1 & H1')|(e & _ & ?)];
    [|discriminate].
  inversion H1; subst alive m1; clear H1.
  destruct (is_alive_at (alive_polls m)); [|discriminate].
  destruct (bind_inv _ _ _ _ _ H1') as [(ct & m2 & H2 & H2')|(e & _ & ?)];
    [|discriminate].
  inversion H2; subst ct m2; clear H2.
  destruct (bind_inv _ _ _ _ _ H2') as [(i & m3 & H3 & H3')|(e & _ & ?)];
    [|discriminate].
  destruct (silent_progress_ctx_i _ _ _ _ H3) as (Hem3 & _ & _).
  destruct (bind_inv _ _ _ _ _ H3') as [(seen & m4 & H4 & H4')|(e & _ & ?)];
    [|discriminate].
  assert (Hem4 : emitted m4 = emitted m3).
  { destruct (negb (bool_decide (i = last_i))).
    - destruct (bind_inv _ _ _ _ _ H4) as [(li & m5 & H5 & H5')|(e & _ & ?)];
        [|discriminate].
      inversion H5'; subst. exact (proj1 (silent_progress_ctx_i _ _ _ _ H5)).
    - destruct (negb (patience =? 0) && Float.gt_Z _ patience); inversion H4; reflexivity. }
  destruct (bind_inv _ _ _ _ _ H4') as [([] & m5 & H5 & H5')|(e & _ & ?)];
    [|discriminate].
  destruct (Refresh_emits _ _ _ H5) as (bar & v & Hem5).
  destruct (bind_inv _ _ _ _ _ H5') as [([] & m6 & H6 & H6')|(e & _ & ?)];
    [|discriminate].
  inversion H6; subst m6. inversion H6'; subst.
  exists bar, v. cbn. rewrite Hem5, Hem4, Hem3. cbn.
  rewrite <- app_assoc. reflexivity.
Qed.

Lemma steady_read_i (ctx : loc) : steady (read_i job_writes_at ctx).
Proof.
  apply steady_bind; [|intros; apply steady_getattr].
  intros m r m' H. destruct (job_writes_at (i_reads m)) as [z|].
  - exact (steady_setattr _ _ _ _ _ _ H).
  - inversion H; subst. split; reflexivity.
Qed.

Lemma steady_progress_ctx_i (progress : loc) :
  steady (progress_ctx_i job_writes_at progress).
Proof.
  apply steady_bind; [apply steady_getattr_ref|]. intros ctx. apply steady_read_i.
Qed.

Lemma steady_Refresh (progress : loc) : steady (progress_ctx_Refresh job_writes_at progress).
Proof.
  apply steady_bind; [apply steady_getattr_ref|]. intros ctx.
  apply steady_bind; [apply steady_read_i|]. intros i.
  apply steady_bind; [apply steady_getattr_ref|]. intros bar.
  apply steady_bind; [apply steady_setattr|]. intros _. apply steady_emit.
Qed.


Lemma getattr_ref_attr (o : loc) (a : string) (l : loc) (m : memory) :
  attr m o a = Some (PyRef l) -> getattr_ref o a m = (Normal l, m).
Proof. intros H. unfold getattr_ref, bind, getattr. rewrite H. reflexivity. Qed.

(** Storing into an attribute other than [ctx] and [bar] keeps the job
    ready. *)
Lemma job_ready_setattr (m m' : memory) (progress ctx bar o : loc) (a : string) (v : pyval) :
  job_ready m progress ctx bar ->
  (forall l b, attr m' l b = if decide (l = o /\ b = a) then Some v else attr m l b) ->
  a <> "ctx" -> a <> "bar" ->
  job_ready m' progress ctx bar.
Proof.
  intros (Hc & Hb & Hi & Hn & Hs) Hattr Ha1 Ha2. unfold job_ready. rewrite !Hattr.
  rewrite (decide_False (P := progress = o /\ "ctx" = a)) by (intros [_ ?]; congruence).
  rewrite (decide_False (P := ctx = o /\ "bar" = a)) by (intros [_ ?]; congruence).
  split; [exact Hc|]. split; [exact Hb|].
  split; [case_decide; eauto|]. split; case_decide; eauto.
Qed.

Lemma read_i_ready (m : memory) (progress ctx bar : loc) :
  job_ready m progress ctx bar ->
  exists v m',
    read_i job_writes_at ctx m = (Normal v, m')
    /\ job_ready m' progress ctx bar
    /\ attr m' ctx "i" = Some v
    /\ forall i0, attr m ctx "i" = Some (PyInt i0) ->
                  (job_writes_at (i_reads m) = None \/ job_writes_at (i_reads m) = Some i0) ->
                  v = PyInt i0.
Proof.
  intros Hready. pose proof Hready as (Hc & Hb & Hi & Hn & Hs).
  unfold read_i, bind.
  destruct (job_writes_at (i_reads m)) as [z|] eqn:Hw.
  - destruct (attr_stored _ _ _ Hi) as (inst & Hinst).
    destruct (setattr_stored ctx "i" (PyInt z) (with_i_reads (S (i_reads m)) m) inst Hinst)
      as (h & Hset & Hattr).
    rewrite Hset. unfold getattr. rewrite Hattr, decide_True by auto.
    eexists _, _. split; [reflexivity|]. split; [|split].
    + eapply job_ready_setattr; [exact Hready|exact Hattr|discriminate|discriminate].
    + rewrite Hattr, decide_True by auto. reflexivity.
    + intros i0 _ [?|Heq]; [discriminate|]. congruence.
  - destruct Hi as (v & Hv). unfold getattr.
    change (attr (with_i_reads (S (i_reads m)) m) ctx "i") with (attr m ctx "i").
    rewrite Hv. eexists _, _. split; [reflexivity|]. split; [exact Hready|].
    split; [exact Hv|]. intros i0 Hi0 _. congruence.
Qed.

Lemma progress_ctx_i_ready (m : memory) (progress ctx bar : loc) :
  job_ready m progress ctx bar ->
  exists v m',
    progress_ctx_i job_writes_at progress m = (Normal v, m')
    /\ job_ready m' progress ctx bar
    /\ attr m' ctx "i" = Some v
    /\ forall i0, attr m ctx "i" = Some (PyInt i0) ->
                  (job_writes_at (i_reads m) = None \/ job_writes_at (i_reads m) = Some i0) ->
                  v = PyInt i0.
Proof.
  intros Hready. unfold progress_ctx_i, bind.
  rewrite (getattr_ref_attr _ _ _ _ (proj1 Hready)).
  exact (read_i_ready m progress ctx bar Hready).
Qed.

Lemma Refresh_ready (m : memory) (progress ctx bar : loc) :
  job_ready m progress ctx bar ->
  exists v m',
    progress_ctx_Refresh job_writes_at progress m = (Normal tt, m')
    /\ job_ready m' progress ctx bar
    /\ attr m' ctx "i" = Some v
    /\ attr m' bar "n" = Some v
    /\ emitted m' = emitted m ++ [BarRefresh bar v]
    /\ forall i0, attr m ctx "i" = Some (PyInt i0) ->
                  (job_writes_at (i_reads m) = None \/ job_writes_at (i_reads m) = Some i0) ->
                  v = PyInt i0.
Proof.
  intros Hready. unfold progress_ctx_Refresh, Refresh, bind.
  rewrite (getattr_ref_attr _ _ _ _ (proj1 Hready)).
  destruct (read_i_ready m progress ctx bar Hready) as (v & m1 & Hread & Hready1 & Hi1 & Hq).
  rewrite Hread.
  pose proof Hready1 as (Hc1 & Hb1 & _ & Hn1 & _).
  rewrite (getattr_ref_attr _ _ _ _ Hb1).
  destruct (attr_stored _ _ _ Hn1) as (inst & Hinst).
  destruct (setattr_stored bar "n" v m1 inst Hinst) as (h & Hset & Hattr).
  rewrite Hset. cbn.
  assert (Hattr' : forall l b, attr (with_emitted (emitted (with_heap h m1) ++ [BarRefresh bar v])
                                       (with_heap h m1)) l b
                               = if decide (l = bar /\ b = "n") then Some v else attr m1 l b)
    by exact Hattr.
  eexists _, _. split; [reflexivity|].
  split; [eapply job_ready_setattr; [exact Hready1|exact Hattr'|discriminate|discriminate]|].
  split; [rewrite Hattr', decide_False by (intros [_ ?]; discriminate); exact Hi1|].
  split; [rewrite Hattr', decide_True by auto; reflexivity|].
  split; [|exact Hq].
  cbn. f_equal. exact (proj1 (silent_read_i _ _ _ _ Hread)).
Qed.

Lemma bar_close_ready (m : memory) (progress ctx bar : loc) :
  job_ready m progress ctx bar ->
  progress_ctx_bar_close progress m
  = (Normal tt, with_emitted (emitted m ++ [BarClose bar]) m).
Proof.
  intros (Hc & Hb & _). unfold progress_ctx_bar_close, bind.
  rewrite (getattr_ref_attr _ _ _ _ Hc), (getattr_ref_attr _ _ _ _ Hb). reflexivity.
Qed.

Lemma is_alive_eq (progress : loc) (m : memory) :
  is_alive is_alive_at progress m
  = (Normal (is_alive_at (alive_polls m)), with_alive_polls (S (alive_polls m)) m).
Proof. reflexivity. Qed.

Lemma time_time_eq (m : memory) :
  time_time time_at m = (Normal (time_at (time_reads m)), with_time_reads (S (time_reads m)) m).
Proof. reflexivity. Qed.

(** A turn with the job dead ends the loop. *)
Lemma Run_body_dead (progress : loc) (refresh_time : Float.float) (patience : Z)
    (last_i : pyval) (last_progress : Float.float) (m : memory) :
  is_alive_at (alive_polls m) = false ->
  Run_body time_at is_alive_at job_writes_at progress refresh_time patience
           last_i last_progress m
  = (Normal Break, with_alive_polls (S (alive_polls m)) m).
Proof. intros H. unfold Run_body, bind. rewrite is_alive_eq, H. reflexivity. Qed.

(** What follows the [if] in a turn, on a ready job. *)
Lemma Run_body_tail (progress ctx bar : loc) (refresh_time : Float.float)
    (t : turn) (m : memory) :
  job_ready m progress ctx bar ->
  exists v m',
    (progress_ctx_Refresh job_writes_at progress ;;
     join progress refresh_time ;;
     ret t) m
    = (Normal t, m')
    /\ job_ready m' progress ctx bar
    /\ attr m' ctx "i" = Some v
    /\ attr m' bar "n" = Some v
    /\ time_reads m' = time_reads m
    /\ alive_polls m' = alive_polls m
    /\ emitted m' = emitted m ++ [BarRefresh bar v; ThreadJoin progress refresh_time]
    /\ forall i0, attr m ctx "i" = Some (PyInt i0) ->
                  (job_writes_at (i_reads m) = None \/ job_writes_at (i_reads m) = Some i0) ->
                  v = PyInt i0.
Proof.
  intros Hready.
  destruct (Refresh_ready m progress ctx bar Hready)
    as (v & m1 & Hrefresh & Hready1 & Hi1 & Hn1 & Hem1 & Hq).
  destruct (steady_Refresh _ _ _ _ Hrefresh) as (Ht1 & Ha1).
  unfold bind. rewrite Hrefresh. cbn.
  eexists v, _. split; [reflexivity|].
  split; [exact Hready1|]. split; [exact Hi1|]. split; [exact Hn1|].
  split; [exact Ht1|]. split; [exact Ha1|]. split; [|exact Hq].
  cbn. rewrite Hem1, <- app_assoc. reflexivity.
Qed.

(** With no patience set, a turn on a live, ready job goes on. *)
Lemma Run_body_patient (progress ctx bar : loc) (refresh_time : Float.float)
    (last_i : pyval) (last_progress : Float.float) (m : memory) :
  job_ready m progress ctx bar ->
  is_alive_at (alive_polls m) = true ->
  exists last_i' last_progress' v m',
    Run_body time_at is_alive_at job_writes_at progress refresh_time 0
             last_i last_progress m
    = (Normal (Continue last_i' last_progress'), m')
    /\ job_ready m' progress ctx bar
    /\ alive_polls m' = S (alive_polls m)
    /\ emitted m' = emitted m ++ [BarRefresh bar v; ThreadJoin progress refresh_time].
Proof.
  intros Hready Halive. unfold Run_body.
  unfold bind at 1. rewrite is_alive_eq, Halive.
  unfold bind at 1. rewrite time_time_eq.
  change (time_reads (with_alive_polls (S (alive_polls m)) m)) with (time_reads m).
  set (m2 := with_time_reads _ _).
  assert (Hready2 : job_ready m2 progress ctx bar) by exact Hready.
  destruct (progress_ctx_i_ready m2 progress ctx bar Hready2)
    as (i & m3 & Hi & Hready3 & _ & _).
  destruct (steady_progress_ctx_i _ _ _ _ Hi) as (_ & Ha3).
  pose proof (proj1 (silent_progress_ctx_i _ _ _ _ Hi)) as Hem3.
  unfold bind at 1. rewrite Hi.
  destruct (negb (bool_decide (i = last_i))).
  - destruct (progress_ctx_i_ready m3 progress ctx bar Hready3)
      as (i' & m4 & Hi' & Hready4 & _ & _).
    destruct (steady_progress_ctx_i _ _ _ _ Hi') as (_ & Ha4).
    pose proof (proj1 (silent_progress_ctx_i _ _ _ _ Hi')) as Hem4.
    unfold bind at 1. unfold bind at 1. rewrite Hi'. cbn [ret].
    destruct (Run_body_tail progress ctx bar refresh_time
                (Continue i' (time_at (time_reads m))) m4 Hready4)
      as (v & m5 & Htail & Hready5 & _ & _ & _ & Ha5 & Hem5 & _).
    cbn [fst snd] in *. rewrite Htail. eexists _, _, v, m5. split; [reflexivity|].
    split; [exact Hready5|]. split; [rewrite Ha5, Ha4, Ha3; reflexivity|].
    rewrite Hem5, Hem4, Hem3. reflexivity.
  - cbn [Z.eqb negb andb]. unfold bind at 1. cbn [ret].
    destruct (Run_body_tail progress ctx bar refresh_time
                (Continue last_i last_progress) m3 Hready3)
      as (v & m5 & Htail & Hready5 & _ & _ & _ & Ha5 & Hem5 & _).
    cbn [fst snd] in *. rewrite Htail. eexists _, _, v, m5. split; [reflexivity|].
    split; [exact Hready5|]. split; [rewrite Ha5, Ha3; reflexivity|].
    rewrite Hem5, Hem3. reflexivity.
Qed.

(** A turn on a live, ready job whose counter stays at [i0]: the stall
    error when patience is set and exceeded, and else one more redraw and
    wait, with the same [last_i] and [last_progress]. *)
Lemma Run_body_counter_stays (progress ctx bar : loc) (refresh_time : Float.float)
    (patience : Z) (i0 : Z) (last_progress : Float.float) (m : memory) :
  job_ready m progress ctx bar ->
  counter_stays job_writes_at i0 ->
  attr m ctx "i" = Some (PyInt i0) ->
  is_alive_at (alive_polls m) = true ->
  let stalled_for := Float.sub (time_at (time_reads m)) last_progress in
  if negb (patience =? 0) && Float.gt_Z stalled_for patience then
    exists m',
      Run_body time_at is_alive_at job_writes_at progress refresh_time patience
               (PyInt i0) last_progress m
      = (Raised (OSError (stall_message stalled_for)), m')
  else
    exists m',
      Run_body time_at is_alive_at job_writes_at progress refresh_time patience
               (PyInt i0) last_progress m
      = (Normal (Continue (PyInt i0) last_progress), m')
      /\ job_ready m' progress ctx bar
      /\ attr m' ctx "i" = Some (PyInt i0)
      /\ time_reads m' = S (time_reads m)
      /\ alive_polls m' = S (alive_polls m)
      /\ emitted m' = emitted m ++ [BarRefresh bar (PyInt i0);
                                    ThreadJoin progress refresh_time].
Proof.
  intros Hready Hstays Hi0 Halive stalled_for.
  set (m2 := with_time_reads (S (time_reads m)) (with_alive_polls (S (alive_polls m)) m)).
  assert (Hready2 : job_ready m2 progress ctx bar) by exact Hready.
  destruct (progress_ctx_i_ready m2 progress ctx bar Hready2)
    as (i & m3 & Hi & Hready3 & Hi3 & Hq).
  specialize (Hq i0 Hi0 (Hstays _)). subst i.
  destruct (steady_progress_ctx_i _ _ _ _ Hi) as (Ht3 & Ha3).
  pose proof (proj1 (silent_progress_ctx_i _ _ _ _ Hi)) as Hem3.
  assert (Hturn :
    Run_body time_at is_alive_at job_writes_at progress refresh_time patience
             (PyInt i0) last_progress m
    = (seen <- (if negb (patience =? 0) && Float.gt_Z stalled_for patience
                then raise (OSError (stall_message stalled_for))
                else ret (PyInt i0, last_progress)) ;;
       progress_ctx_Refresh job_writes_at progress ;;
       join progress refresh_time ;;
       ret (Continue (fst seen) (snd seen))) m3).
  { unfold Run_body.
    unfold bind at 1. rewrite is_alive_eq, Halive.
    unfold bind at 1. rewrite time_time_eq.
    change (time_reads (with_alive_polls (S (alive_polls m)) m)) with (time_reads m).
    fold m2. unfold bind at 1. rewrite Hi.
    rewrite bool_decide_eq_true_2 by reflexivity. reflexivity. }
  rewrite Hturn.
  destruct (negb (patience =? 0) && Float.gt_Z stalled_for patience).
  - eexists. reflexivity.
  - unfold bind at 1. cbn [ret fst snd].
    destruct (Run_body_tail progress ctx bar refresh_time
                (Continue (PyInt i0) last_progress) m3 Hready3)
      as (v & m5 & Htail & Hready5 & Hi5 & _ & Ht5 & Ha5 & Hem5 & Hq5).
    specialize (Hq5 i0 Hi3 (Hstays _)). subst v.
    rewrite Htail. exists m5. split; [reflexivity|].
    split; [exact Hready5|]. split; [exact Hi5|].
    split; [rewrite Ht5, Ht3; reflexivity|].
    split; [rewrite Ha5, Ha3; reflexivity|].
    rewrite Hem5, Hem3. reflexivity.
Qed.

(** The stall error of the loop is the one of a turn, reached after turns
    that each redrew a bar and waited. *)
Lemma Run_loop_stall (fuel : nat) (progress : loc) (refresh_time : Float.float)
    (patience : Z) (last_i : pyval) (last_progress : Float.float) (m : memory)
    (msg : string) (m' : memory) :
  Run_loop time_at is_alive_at job_writes_at fuel progress refresh_time patience
           last_i last_progress m = (Raised (OSError msg), m') ->
  exists m_turn last_i' last_progress' redrawn,
    Run_body time_at is_alive_at job_writes_at progress refresh_time patience
             last_i' last_progress' m_turn = (Raised (OSError msg), m')
    /\ emitted m_turn = emitted m ++ turns_trace progress refresh_time redrawn.
Proof.
  revert last_i last_progress m.
  induction fuel as [|fuel IH]; intros last_i last_progress m H; [discriminate|].
  cbn [Run_loop] in H.
  destruct (bind_inv _ _ _ _ _ H) as [(t & m1 & Ht & Hrest)|(e & Ht & He)].
  - destruct t as [li lp|]; [|discriminate].
    destruct (Run_body_continue _ _ _ _ _ _ _ _ _ Ht) as (bar & v & Hem).
    destruct (IH _ _ _ Hrest) as (m_turn & li' & lp' & redrawn & Hturn & Hem').
    exists m_turn, li', lp', ((bar, v) :: redrawn). split; [exact Hturn|].
    rewrite Hem', Hem, turns_trace_cons, <- app_assoc. reflexivity.
  - inversion He; subst e. exists m, last_i, last_progress, [].
    split; [exact Ht|]. cbn. rewrite app_nil_r. reflexivity.
Qed.

Lemma calm_Run_body_patient (progress : loc) (refresh_time : Float.float)
    (last_i : pyval) (last_progress : Float.float) :
  calm (Run_body time_at is_alive_at job_writes_at progress refresh_time 0
                 last_i last_progress).
Proof.
  intros m r m' H msg ->.
  destruct (Run_body_stall _ _ _ _ _ _ _ _ H) as (_ & _ & Hp & _). exact (Hp eq_refl).
Qed.

Lemma calm_Run_loop_patient (fuel : nat) (progress : loc) (refresh_time : Float.float)
    (last_i : pyval) (last_progress : Float.float) :
  calm (Run_loop time_at is_alive_at job_writes_at fuel progress refresh_time 0
                 last_i last_progress).
Proof.
  revert last_i last_progress. induction fuel as [|fuel IH]; intros last_i last_progress.
  - apply calm_ret.
  - cbn [Run_loop]. apply calm_bind; [apply calm_Run_body_patient|].
    intros [li lp|]; [apply IH|apply calm_ret].
Qed.

Lemma calm_after_loop (progress : loc) (ended : bool) :
  calm (if ended
        then progress_ctx_Refresh job_writes_at progress ;;
             progress_ctx_bar_close progress ;; ret (Some progress)
        else ret None).
Proof.
  destruct ended; [|apply calm_ret].
  apply calm_bind; [apply calm_Refresh|]. intros _.
  apply calm_bind; [apply calm_bar_close|]. intros _. apply calm_ret.
Qed.

(** With no patience set the loop ends at the first poll that finds the
    job dead, after one redraw and one wait per earlier poll. *)
Lemma Run_loop_ends (progress ctx bar : loc) (refresh_time : Float.float) (k : nat) :
  forall (last_i : pyval) (last_progress : Float.float) (m : memory),
    job_ready m progress ctx bar ->
    (forall j, (j < k)%nat -> is_alive_at (alive_polls m + j) = true) ->
    is_alive_at (alive_polls m + k) = false ->
    exists m' redrawn,
      (forall fuel, (k < fuel)%nat ->
         Run_loop time_at is_alive_at job_writes_at fuel progress refresh_time 0
                  last_i last_progress m = (Normal true, m'))
      /\ job_ready m' progress ctx bar
      /\ emitted m' = emitted m ++ turns_trace progress refresh_time redrawn
      /\ length redrawn = k
      /\ Forall (fun bv => fst bv = bar) redrawn.
Proof.
  induction k as [|k IH]; intros last_i last_progress m Hready Halive Hdead.
  - rewrite Nat.add_0_r in Hdead.
    exists (with_alive_polls (S (alive_polls m)) m), [].
    split; [|split; [exact Hready|split; [|split; [reflexivity|constructor]]]];
      [|cbn; rewrite app_nil_r; reflexivity].
    intros [|fuel] Hfuel; [lia|]. cbn [Run_loop]. unfold bind.
    rewrite (Run_body_dead _ _ _ _ _ _ Hdead). reflexivity.
  - destruct (Run_body_patient progress ctx bar refresh_time last_i last_progress m Hready)
      as (li & lp & v & m1 & Hturn & Hready1 & Ha1 & Hem1).
    { rewrite <- (Halive 0%nat) by lia. f_equal. lia. }
    destruct (IH li lp m1 Hready1) as (m' & redrawn & Hrun & Hready' & Hem' & Hlen & Hbars).
    { intros j Hj. rewrite Ha1. rewrite <- (Halive (S j)) by lia. f_equal. lia. }
    { rewrite Ha1. rewrite <- Hdead. f_equal. lia. }
    exists m', ((bar, v) :: redrawn).
    split; [|split; [exact Hready'|split; [|split; [cbn; lia|]]]];
      [| |constructor; [reflexivity|exact Hbars]].
    + intros [|fuel] Hfuel; [lia|]. cbn [Run_loop]. unfold bind at 1.
      rewrite Hturn. apply Hrun. lia.
    + rewrite Hem', Hem1, turns_trace_cons, <- app_assoc. reflexivity.
Qed.

(** On a live job whose counter stays put, the loop raises the stall
    error at the first turn that sees the patience exceeded. *)
Lemma Run_loop_counter_stays (progress ctx bar : loc) (refresh_time : Float.float)
    (patience : Z) (i0 : Z) (last_progress : Float.float) (j : nat) :
  forall m : memory,
    job_ready m progress ctx bar ->
    counter_stays job_writes_at i0 ->
    attr m ctx "i" = Some (PyInt i0) ->
    patience <> 0 ->
    (forall i, (i <= j)%nat -> is_alive_at (alive_polls m + i) = true) ->
    (forall i, (i < j)%nat ->
       Float.gt_Z (Float.sub (time_at (time_reads m + i)) last_progress) patience = false) ->
    Float.gt_Z (Float.sub (time_at (time_reads m + j)) last_progress) patience = true ->
    exists m',
      (forall fuel, (j < fuel)%nat ->
         Run_loop time_at is_alive_at job_writes_at fuel progress refresh_time patience
                  (PyInt i0) last_progress m
         = (Raised (OSError (stall_message
                               (Float.sub (time_at (time_reads m + j)) last_progress))), m'))
      /\ emitted m' = emitted m
                      ++ turns_trace progress refresh_time (repeat (bar, PyInt i0) j).
Proof.
  induction j as [|j IH]; intros m Hready Hstays Hi0 Hp Halive Hbefore Hstall.
  - pose proof (Run_body_counter_stays progress ctx bar refresh_time patience i0
                  last_progress m Hready Hstays Hi0) as Hturn.
    rewrite Nat.add_0_r in Hstall.
    cbv zeta in Hturn. rewrite Hstall in Hturn.
    replace (negb (patience =? 0)) with true in Hturn
      by (symmetry; apply negb_true_iff, Z.eqb_neq, Hp).
    destruct Hturn as (m' & Hturn).
    { rewrite <- (Halive 0%nat) by lia. f_equal. lia. }
    exists m'. split.
    + intros [|fuel] Hfuel; [lia|]. cbn [Run_loop]. unfold bind.
      rewrite Nat.add_0_r, Hturn. reflexivity.
    + destruct (Run_body_stall _ _ _ _ _ _ _ _ Hturn) as (Hem & _).
      cbn. rewrite app_nil_r. exact Hem.
  - pose proof (Run_body_counter_stays progress ctx bar refresh_time patience i0
                  last_progress m Hready Hstays Hi0) as Hturn.
    cbv zeta in Hturn.
    replace (time_at (time_reads m)) with (time_at (time_reads m + 0)) in Hturn
      by (f_equal; lia).
    rewrite (Hbefore 0%nat) in Hturn by lia. rewrite andb_false_r in Hturn.
    destruct Hturn as (m1 & Hturn & Hready1 & Hi1 & Ht1 & Ha1 & Hem1).
    { rewrite <- (Halive 0%nat) by lia. f_equal. lia. }
    destruct (IH m1 Hready1 Hstays Hi1 Hp) as (m' & Hrun & Hem').
    { intros i Hi. rewrite Ha1. rewrite <- (Halive (S i)) by lia. f_equal. lia. }
    { intros i Hi. rewrite Ht1.
      replace (S (time_reads m) + i)%nat with (time_reads m + S i)%nat by lia.
      apply Hbefore. lia. }
    { rewrite Ht1.
      replace (S (time_reads m) + j)%nat with (time_reads m + S j)%nat by lia.
      exact Hstall. }
    exists m'. split.
    + intros [|fuel] Hfuel; [lia|]. cbn [Run_loop]. unfold bind at 1.
      rewrite Hturn. rewrite (Hrun fuel) by lia. rewrite Ht1.
      replace (S (time_reads m) + j)%nat with (time_reads m + S j)%nat by lia.
      reflexivity.
    + rewrite Hem', Hem1. cbn [repeat]. rewrite turns_trace_cons, <- app_assoc.
      reflexivity.
Qed.

Lemma calm_Start (progress : loc) : calm (Start progress).
Proof.
  apply calm_bind; [apply silent_calm, silent_getattr|]. intros _. apply calm_emit.
Qed.

(** The start of [Run] on a ready job: the thread is started, the counter
    and the clock are read once each. *)
Lemma Run_start (progress ctx bar : loc) (m : memory) :
  job_ready m progress ctx bar ->
  exists v m3,
    (forall fuel refresh_time patience,
       Run time_at is_alive_at job_writes_at fuel progress refresh_time patience m
       = (ended <- Run_loop time_at is_alive_at job_writes_at fuel progress refresh_time
                            patience v (time_at (time_reads m)) ;;
          if ended : bool
          then progress_ctx_Refresh job_writes_at progress ;;
               progress_ctx_bar_close progress ;; ret (Some progress)
          else ret None) m3)
    /\ job_ready m3 progress ctx bar
    /\ attr m3 ctx "i" = Some v
    /\ time_reads m3 = S (time_reads m)
    /\ alive_polls m3 = alive_polls m
    /\ emitted m3 = emitted m ++ [ThreadStart progress]
    /\ forall i0,
         attr m ctx "i" = Some (PyInt i0) -> counter_stays job_writes_at i0 -> v = PyInt i0.
Proof.
  intros Hready.
  set (m1 := with_emitted (emitted m ++ [ThreadStart progress]) m).
  assert (Hready1 : job_ready m1 progress ctx bar) by exact Hready.
  destruct (progress_ctx_i_ready m1 progress ctx bar Hready1)
    as (v & m2 & Hi & Hready2 & Hi2 & Hq).
  destruct (steady_progress_ctx_i _ _ _ _ Hi) as (Ht2 & Ha2).
  pose proof (proj1 (silent_progress_ctx_i _ _ _ _ Hi)) as Hem2.
  exists v, (with_time_reads (S (time_reads m2)) m2).
  split; [|split; [exact Hready2|split; [exact Hi2|split; [cbn; rewrite Ht2; reflexivity|
    split; [exact Ha2|split; [exact Hem2|]]]]]].
  - intros fuel refresh_time patience. unfold Run, Start.
    destruct Hready as (_ & _ & _ & _ & start_ & Hstart).
    unfold bind at 1. unfold bind at 1. unfold getattr at 1. rewrite Hstart.
    cbn [emit]. fold m1.
    unfold bind at 1. rewrite Hi.
    unfold bind at 1. rewrite time_time_eq, Ht2. reflexivity.
  - intros i0 Hi0 Hstays. exact (Hq i0 Hi0 (Hstays _)).
Qed.

(** A stall error of [Run] comes out of its loop. *)
Lemma Run_stall (fuel : nat) (progress : loc) (refresh_time : Float.float) (patience : Z)
    (m : memory) (msg : string) (m' : memory) :
  Run time_at is_alive_at job_writes_at fuel progress refresh_time patience m
  = (Raised (OSError msg), m') ->
  exists last_i last_progress m3,
    Run_loop time_at is_alive_at job_writes_at fuel progress refresh_time patience
             last_i last_progress m3 = (Raised (OSError msg), m')
    /\ emitted m3 = emitted m ++ [ThreadStart progress].
Proof.
  intros H. unfold Run in H.
  destruct (bind_inv _ _ _ _ _ H) as [([] & m1 & H1 & H1')|(e & H1 & He)].
  2:{ inversion He; subst e. exfalso. exact (calm_Start _ _ _ _ H1 msg eq_refl). }
  assert (Hem1 : emitted m1 = emitted m ++ [ThreadStart progress]).
  { unfold Start in H1.
    destruct (bind_inv _ _ _ _ _ H1) as [(v & m0 & H0 & H0')|(e & _ & ?)]; [|discriminate].
    inversion H0'; subst m1. cbn.
    rewrite (proj1 (silent_getattr _ _ _ _ _ H0)). reflexivity. }
  destruct (bind_inv _ _ _ _ _ H1') as [(li & m2 & H2 & H2')|(e & H2 & He)].
  2:{ inversion He; subst e.
      exfalso. exact (proj1 (proj2 (silent_progress_ctx_i _ _ _ _ H2)) msg eq_refl). }
  pose proof (proj1 (silent_progress_ctx_i _ _ _ _ H2)) as Hem2. rewrite Hem1 in Hem2.
  destruct (bind_inv _ _ _ _ _ H2') as [(lp & m3 & H3 & H3')|(e & H3 & _)]; [|discriminate].
  inversion H3; subst lp m3; clear H3.
  destruct (bind_inv _ _ _ _ _ H3') as [(ended & m4 & H4 & H4')|(e & H4 & He)].
  { exfalso. exact (calm_after_loop progress ended _ _ _ H4' msg eq_refl). }
  inversion He; subst e.
  eexists _, _, _. split; [exact H4|]. exact Hem2.
Qed.

(** C8. When [Run] raises the stall error, the error comes from a turn
    of the loop that emitted nothing (no redraw, no close) and stored into
    the counter of no bar: everything [Run] emitted was emitted before
    that turn, namely the start of the thread and then, turn by turn, a
    redraw followed by the wait; no bar was closed. *)
Theorem Run_stall_before_Refresh (fuel : nat) (progress : loc)
    (refresh_time : Float.float) (patience : Z) (m : memory) (msg : string) (m' : memory) :
  Run time_at is_alive_at job_writes_at fuel progress refresh_time patience m
  = (Raised (OSError msg), m') ->
  exists m_turn last_i last_progress redrawn,
    Run_body time_at is_alive_at job_writes_at progress refresh_time patience
             last_i last_progress m_turn = (Raised (OSError msg), m')
    /\ emitted m_turn
       = emitted m ++ ThreadStart progress :: turns_trace progress refresh_time redrawn
    /\ emitted m' = emitted m_turn
    /\ (forall l, attr m' l "n" = attr m_turn l "n")
    /\ forall bar,
         ~ In (BarClose bar) (ThreadStart progress :: turns_trace progress refresh_time redrawn).
Proof.
  intros H.
  destruct (Run_stall _ _ _ _ _ _ _ H) as (li & lp & m3 & Hloop & Hem3).
  destruct (Run_loop_stall _ _ _ _ _ _ _ _ _ Hloop)
    as (m_turn & li' & lp' & redrawn & Hturn & Hem).
  destruct (Run_body_stall _ _ _ _ _ _ _ _ Hturn) as (Hem' & Hn & _).
  exists m_turn, li', lp', redrawn.
  split; [exact Hturn|].
  split; [rewrite Hem, Hem3, <- app_assoc; reflexivity|].
  split; [exact Hem'|]. split; [exact Hn|].
  intros bar [Hin|Hin]; [discriminate|].
  exact (turns_trace_no_close _ _ _ _ Hin).
Qed.

(** C3. With [patience = 0], [Run] never raises the stall error; and on a
    ready job that is found dead at its [k]-th poll, [Run] returns that job
    after [k] turns, a last redraw at the current counter, and the close of
    the bar, whatever the counter did meanwhile. *)
Theorem Run_without_patience (progress : loc) (refresh_time : Float.float) :
  (forall fuel m msg m',
     Run time_at is_alive_at job_writes_at fuel progress refresh_time 0 m
     <> (Raised (OSError msg), m'))
  /\ forall (m : memory) (ctx bar : loc) (k : nat),
       job_ready m progress ctx bar ->
       (forall j, (j < k)%nat -> is_alive_at (alive_polls m + j) = true) ->
       is_alive_at (alive_polls m + k) = false ->
       exists m' redrawn v,
         (forall fuel, (k < fuel)%nat ->
            Run time_at is_alive_at job_writes_at fuel progress refresh_time 0 m
            = (Normal (Some progress), m'))
         /\ emitted m'
            = emitted m ++ ThreadStart progress :: turns_trace progress refresh_time redrawn
                        ++ [BarRefresh bar v; BarClose bar]
         /\ length redrawn = k
         /\ attr m' ctx "i" = Some v
         /\ attr m' bar "n" = Some v.
Proof.
  split.
  - intros fuel m msg m' H.
    destruct (Run_stall _ _ _ _ _ _ _ H) as (li & lp & m3 & Hloop & _).
    exact (calm_Run_loop_patient _ _ _ _ _ _ _ _ Hloop msg eq_refl).
  - intros m ctx bar k Hready Halive Hdead.
    destruct (Run_start progress ctx bar m Hready)
      as (li & m3 & Hrun & Hready3 & _ & _ & Ha3 & Hem3 & _).
    destruct (Run_loop_ends progress ctx bar refresh_time k li (time_at (time_reads m))
                            m3 Hready3)
      as (m4 & redrawn & Hloop & Hready4 & Hem4 & Hlen & _).
    { intros j Hj. rewrite Ha3. apply Halive. exact Hj. }
    { rewrite Ha3. exact Hdead. }
    destruct (Refresh_ready m4 progress ctx bar Hready4)
      as (v & m5 & Hrefresh & Hready5 & Hi5 & Hn5 & Hem5 & _).
    exists (with_emitted (emitted m5 ++ [BarClose bar]) m5), redrawn, v.
    split; [|split; [|split; [exact Hlen|split; [exact Hi5|exact Hn5]]]].
    + intros fuel Hfuel. rewrite Hrun. unfold bind at 1. rewrite (Hloop fuel Hfuel).
      unfold bind at 1. rewrite Hrefresh.
      unfold bind at 1. rewrite (bar_close_ready m5 progress ctx bar Hready5).
      reflexivity.
    + cbn. rewrite Hem5, Hem4, Hem3. rewrite <- !app_assoc. reflexivity.
Qed.

(** C2, as the code has it.  On a ready job that stays alive and whose
    counter stays put, with [patience = P > 0]: if the stall the turns
    compute (the clock minus its reading before the loop) passes [P] at
    some turn, then [Run] raises [OSError] at the first turn whose stall
    passes [P], whatever the clock did in between.  The message is "Failed
    to make progress after", the stall of that turn with no decimals, and
    "seconds"; that stall is above [P].  The turns before it each redrew
    the bar and waited; the raising turn emits nothing, and the exception
    ends [Run]: there is no further turn.  The code sets no bound on the
    stall in terms of [refresh_time]. *)
Theorem Run_stalls_past_patience (progress ctx bar : loc) (refresh_time : Float.float)
    (P : Z) (i0 : Z) (m : memory) (k : nat) :
  let stall j := Float.sub (time_at (S (time_reads m + j))) (time_at (time_reads m)) in
  job_ready m progress ctx bar ->
  attr m ctx "i" = Some (PyInt i0) ->
  counter_stays job_writes_at i0 ->
  0 < P ->
  (forall j, (j <= k)%nat -> is_alive_at (alive_polls m + j) = true) ->
  Float.gt_Z (stall k) P = true ->
  exists j m',
    (j <= k)%nat
    /\ (forall i, (i < j)%nat -> Float.gt_Z (stall i) P = false)
    /\ Float.gt_Z (stall j) P = true
    /\ (forall fuel, (j < fuel)%nat ->
          Run time_at is_alive_at job_writes_at fuel progress refresh_time P m
          = (Raised (OSError ("Failed to make progress after "
                              +:+ Float.format_0f (stall j) +:+ " seconds")), m'))
    /\ (forall q, Float.to_Q (stall j) = Some q -> (inject_Z P < q)%Q)
    /\ emitted m'
       = emitted m ++ ThreadStart progress
                   :: turns_trace progress refresh_time (repeat (bar, PyInt i0) j).
Proof.
  intros stall Hready Hi0 Hstays HP Halive Hstall.
  destruct (first_true (fun j => Float.gt_Z (stall j) P) k Hstall)
    as (j & Hjk & Hj & Hbefore).
  destruct (Run_start progress ctx bar m Hready)
    as (li & m3 & Hrun & Hready3 & Hi3 & Ht3 & Ha3 & Hem3 & Hq).
  specialize (Hq i0 Hi0 Hstays). subst li.
  destruct (Run_loop_counter_stays progress ctx bar refresh_time P i0
              (time_at (time_reads m)) j m3 Hready3 Hstays Hi3)
    as (m' & Hloop & Hem').
  { lia. }
  { intros i Hi. rewrite Ha3. apply Halive. lia. }
  { intros i Hi. rewrite Ht3. exact (Hbefore i Hi). }
  { rewrite Ht3. exact Hj. }
  exists j, m'.
  split; [exact Hjk|]. split; [exact Hbefore|]. split; [exact Hj|].
  split.
  { intros fuel Hfuel. rewrite Hrun. unfold bind at 1.
    rewrite (Hloop fuel Hfuel). rewrite Ht3. reflexivity. }
  split.
  { intros q Hq. cbv beta in Hj. rewrite (gt_Z_to_Q _ _ _ Hq) in Hj.
    apply negb_true_iff in Hj. apply Qnot_le_lt. intros Hle'.
    apply Qle_bool_iff in Hle'. congruence. }
  rewrite Hem', Hem3, <- app_assoc. reflexivity.
Qed.

End RunProperties.

(** ** The theorems at sample inputs *)

(** C1 as stated fails.  The enclosed code raises [ValueError]: the
    exception reaches the caller, but the sink was not called (not once) and
    the timer was not stopped. *)
Lemma Profile_raising_body_skips_report :
  let scope :=
    with_ (Profile sample_utcnow sample_Duration (NameStr "task") sample_sink)
          (fun _ => raise (A := unit) (ValueError "boom")) sample_memory in
  scope = (Raised (ValueError "boom"), snd (ProfileTimer_init sample_utcnow sample_memory), [])
  /\ count_sink (snd scope) <> 1%nat
  /\ end_ (timers (snd (fst scope)) 1%positive) = None.
Proof. split; [reflexivity|]. split; [discriminate|reflexivity]. Qed.

(** The amended C1 on a scope whose name is a callback and whose enclosed
    code returns 5: the timer is stopped, the callback is given the elapsed
    seconds, and the sink is then run once, with "task in 0s". *)
Lemma Profile_reports_on_return_only_witness :
  let f := fun _ : Float.float => ret "task" in
  let body := fun _ : loc => ret 5 in
  let m2 := snd (ProfileTimer_init sample_utcnow sample_memory) in
  let m3 := snd (Stop sample_utcnow 1%positive m2) in
  let x := total_seconds (end_at_Stop sample_utcnow m2 1%positive
                          - start (timers m2 1%positive)) in
  Stop sample_utcnow 1%positive m2 = (Normal tt, m3)
  /\ end_ (timers m3 1%positive) = Some (end_at_Stop sample_utcnow m2 1%positive)
  /\ exists y m6,
       elapsed sample_utcnow 1%positive m3 = (Normal y, m6)
       /\ with_ (Profile sample_utcnow sample_Duration (NameFn true f) sample_sink) body
                sample_memory
          = (Normal (Some 5),
             with_emitted (emitted m6 ++ [Printed [PyStr ("task" +:+ " in " +:+ sample_Duration y)] ∅])
                          m6,
             [CallStop 1%positive; CallName x]
             ++ [CallSink ("task" +:+ " in " +:+ sample_Duration y)]).
Proof.
  intros f body m2 m3 x.
  exact (Profile_reports_on_return_only sample_utcnow sample_Duration
           (NameFn true f) sample_sink body sample_memory).
Defined.

(** C10 as stated fails.  With the default name, which is falsy, and
    enclosed code that raises, the sink receives no message: nothing is
    printed and the sink was not called. *)
Lemma Profile_falsy_name_raising_body_no_message :
  let scope :=
    with_ (Profile sample_utcnow sample_Duration Profile_default_name sample_sink)
          (fun _ => raise (A := unit) (ValueError "boom")) sample_memory in
  truthy Profile_default_name = false
  /\ fst (fst scope) = Raised (ValueError "boom")
  /\ emitted (snd (fst scope)) = []
  /\ count_sink (snd scope) = 0%nat.
Proof. split; [reflexivity|]. split; [reflexivity|]. split; reflexivity. Qed.

(** The amended C10 on the defaults of [Profile]: the sink, which hands
    its message to [logging.info], is run with "completed in 0s". *)
Lemma Profile_falsy_name_completed_witness :
  let m2 := snd (ProfileTimer_init sample_utcnow sample_memory) in
  let m3 := snd (Stop sample_utcnow 1%positive m2) in
  truthy Profile_default_name = false
  /\ end_ (timers m3 1%positive) = Some (end_at_Stop sample_utcnow m2 1%positive)
  /\ with_ (Profile sample_utcnow sample_Duration Profile_default_name
                    (Profile_default_print_to sample_logging))
           (fun _ : loc => ret 5) sample_memory
     = (Normal (Some 5),
        with_emitted [Printed [PyStr "completed in 0s"] ∅] m3,
        [CallStop 1%positive; CallSink "completed in 0s"]).
Proof.
  intros m2 m3. split; [reflexivity|].
  exact (proj2 (Profile_falsy_name_completed sample_utcnow sample_Duration
                  Profile_default_name (Profile_default_print_to sample_logging)
                  (fun _ : loc => ret 5) sample_memory eq_refl)).
Defined.

(** The job that [Progress.__init__] makes is ready for [Run]. *)
Lemma sample_job_ready : job_ready sample_job 1%positive 2%positive 3%positive.
Proof. repeat split; vm_compute; eauto. Qed.

(** C7 on the context that [ProgressBarContext.__init__] makes. *)
Lemma ToProgressContext_strips_bar_witness :
  let a := match heap sample_context !! 1%positive with
           | Some o => attrs o
           | None => ∅
           end in
  heap sample_context !! 1%positive = Some (Instance ProgressBarContext a)
  /\ a !! "print_context" = Some (PyRef 3%positive)
  /\ a !! "bar" = Some (PyRef 2%positive)
  /\ exists new m' a',
       ToProgressContext 1%positive sample_context = (Normal new, m')
       /\ heap sample_context !! new = None
       /\ heap m' !! new = Some (Instance ProgressContext a')
       /\ a' !! "print_context" = Some (PyRef 3%positive)
       /\ a' !! "bar" = None
       /\ hasattr (Instance ProgressContext a') "bar" = false
       /\ forall l, l <> new -> heap m' !! l = heap sample_context !! l.
Proof.
  intros a.
  assert (H1 : heap sample_context !! 1%positive = Some (Instance ProgressBarContext a))
    by (vm_compute; reflexivity).
  assert (H2 : a !! "print_context" = Some (PyRef 3%positive)) by (vm_compute; reflexivity).
  assert (H3 : a !! "bar" = Some (PyRef 2%positive)) by (vm_compute; reflexivity).
  split; [exact H1|]. split; [exact H2|]. split; [exact H3|].
  exact (ToProgressContext_strips_bar 1%positive sample_context a _ _ H1 H2 H3).
Defined.

(** C9 on the module's [NullContext]. *)
Lemma NullContext_print_raises_witness :
  heap sample_null !! 1%positive
    = Some (Instance ProgressContext (<["print_context" := PyNone]> ∅))
  /\ (<["print_context" := PyNone]> (∅ : gmap string pyval)) !! "print_context" = Some PyNone
  /\ print 1%positive [PyStr "hello"] ∅ sample_null
     = (Raised (TypeError "'NoneType' object is not callable"), sample_null).
Proof.
  assert (H1 : heap sample_null !! 1%positive
               = Some (Instance ProgressContext (<["print_context" := PyNone]> ∅)))
    by (vm_compute; reflexivity).
  assert (H2 : (<["print_context" := PyNone]> (∅ : gmap string pyval)) !! "print_context"
               = Some PyNone) by (vm_compute; reflexivity).
  split; [exact H1|]. split; [exact H2|].
  exact (proj1 (NullContext_print_raises sample_logging 1%positive sample_null _
                  [PyStr "hello"] ∅ 20 (NameStr "load") H1 H2)).
Defined.

(** C3 on a job that counts up and is found dead at the fourth poll. *)
Lemma Run_without_patience_witness :
  job_ready sample_job 1%positive 2%positive 3%positive
  /\ (forall j, (j < 3)%nat -> alive_three_polls (alive_polls sample_job + j) = true)
  /\ alive_three_polls (alive_polls sample_job + 3) = false
  /\ exists m' redrawn v,
       (forall fuel, (3 < fuel)%nat ->
          Run sample_time alive_three_polls job_counts fuel 1%positive quarter_second 0 sample_job
          = (Normal (Some 1%positive), m'))
       /\ emitted m'
          = emitted sample_job ++ ThreadStart 1%positive
              :: turns_trace 1%positive quarter_second redrawn
              ++ [BarRefresh 3%positive v; BarClose 3%positive]
       /\ length redrawn = 3%nat
       /\ attr m' 2%positive "i" = Some v
       /\ attr m' 3%positive "n" = Some v.
Proof.
  assert (H1 : forall j, (j < 3)%nat -> alive_three_polls (alive_polls sample_job + j) = true).
  { intros j Hj. unfold alive_three_polls. apply Nat.ltb_lt. exact Hj. }
  assert (H2 : alive_three_polls (alive_polls sample_job + 3) = false) by reflexivity.
  split; [exact sample_job_ready|]. split; [exact H1|]. split; [exact H2|].
  exact (proj2 (Run_without_patience sample_time alive_three_polls job_counts
                  1%positive quarter_second)
               sample_job 2%positive 3%positive 3%nat sample_job_ready H1 H2).
Defined.

(** C8 on a job that stays alive and stores nothing, with a patience of one
    second and polls a quarter of a second apart. *)
Lemma Run_stall_before_Refresh_witness :
  let stalled := Run sample_time always_alive job_stores_nothing 20 1%positive
                     quarter_second 1 sample_job in
  stalled = (Raised (OSError "Failed to make progress after 1 seconds"), snd stalled)
  /\ exists m_turn last_i last_progress redrawn,
       Run_body sample_time always_alive job_stores_nothing 1%positive quarter_second 1
                last_i last_progress m_turn
       = (Raised (OSError "Failed to make progress after 1 seconds"), snd stalled)
       /\ emitted m_turn
          = emitted sample_job ++ ThreadStart 1%positive
              :: turns_trace 1%positive quarter_second redrawn
       /\ emitted (snd stalled) = emitted m_turn
       /\ (forall l, attr (snd stalled) l "n" = attr m_turn l "n")
       /\ forall bar,
            ~ In (BarClose bar)
                 (ThreadStart 1%positive :: turns_trace 1%positive quarter_second redrawn).
Proof.
  intros stalled.
  assert (H : stalled = (Raised (OSError "Failed to make progress after 1 seconds"), snd stalled))
    by (vm_compute; reflexivity).
  split; [exact H|].
  exact (Run_stall_before_Refresh sample_time always_alive job_stores_nothing 20 1%positive
           quarter_second 1 sample_job _ _ H).
Defined.

(** C2 as stated fails.  On a clock that advances by three quarters of a
    second per reading, with a refresh time of a quarter of a second and a
    patience of one second, the stall error is raised with a stall of a
    second and a half, which is more than the patience and the refresh
    time together. *)
Lemma Run_stall_beyond_refresh_time :
  let run := Run slow_time always_alive job_stores_nothing 5 1%positive quarter_second 1
                 sample_job in
  let stall := Float.sub (slow_time 2) (slow_time 0) in
  fst run = Raised (OSError "Failed to make progress after 2 seconds")
  /\ counter_stays job_stores_nothing 0
  /\ attr sample_job 2%positive "i" = Some (PyInt 0)
  /\ match Float.to_Q stall, Float.to_Q quarter_second with
     | Some q, Some r => (q == 3 # 2)%Q /\ (r == 1 # 4)%Q /\ (inject_Z 1 + r < q)%Q
     | _, _ => False
     end.
Proof.
  split; [vm_compute; reflexivity|].
  split; [intros k; left; reflexivity|].
  split; [vm_compute; reflexivity|].
  vm_compute. split; [reflexivity|]. split; reflexivity.
Qed.

(** The amended C2 on the sample job and the clock that advances by a
    quarter of a second: the fifth turn raises, with a stall of a second
    and a quarter. *)
Lemma Run_stalls_past_patience_witness :
  let stall j := Float.sub (sample_time (S (time_reads sample_job + j)))
                           (sample_time (time_reads sample_job)) in
  job_ready sample_job 1%positive 2%positive 3%positive
  /\ attr sample_job 2%positive "i" = Some (PyInt 0)
  /\ counter_stays job_stores_nothing 0
  /\ 0 < 1
  /\ (forall j, (j <= 4)%nat -> always_alive (alive_polls sample_job + j) = true)
  /\ Float.gt_Z (stall 4%nat) 1 = true
  /\ exists j m',
       (j <= 4)%nat
       /\ (forall i, (i < j)%nat -> Float.gt_Z (stall i) 1 = false)
       /\ Float.gt_Z (stall j) 1 = true
       /\ (forall fuel, (j < fuel)%nat ->
             Run sample_time always_alive job_stores_nothing fuel 1%positive quarter_second 1
                 sample_job
             = (Raised (OSError ("Failed to make progress after "
                                 +:+ Float.format_0f (stall j) +:+ " seconds")), m'))
       /\ (forall q, Float.to_Q (stall j) = Some q -> (inject_Z 1 < q)%Q)
       /\ emitted m'
          = emitted sample_job ++ ThreadStart 1%positive
              :: turns_trace 1%positive quarter_second (repeat (3%positive, PyInt 0) j).
Proof.
  intros stall.
  assert (H1 : attr sample_job 2%positive "i" = Some (PyInt 0)) by (vm_compute; reflexivity).
  assert (H2 : counter_stays job_stores_nothing 0) by (intros k; left; reflexivity).
  assert (H3 : 0 < 1) by lia.
  assert (H4 : forall j, (j <= 4)%nat -> always_alive (alive_polls sample_job + j) = true)
    by (intros j _; reflexivity).
  assert (H5 : Float.gt_Z (stall 4%nat) 1 = true) by (vm_compute; reflexivity).
  split; [exact sample_job_ready|]. split; [exact H1|]. split; [exact H2|]. split; [exact H3|].
  split; [exact H4|]. split; [exact H5|].
  exact (Run_stalls_past_patience sample_time always_alive job_stores_nothing
           1%positive 2%positive 3%positive quarter_second 1 0 sample_job 4
           sample_job_ready H1 H2 H3 H4 H5).
Defined.

(** * Further properties *)

(** ** Floats: signs *)

Lemma binary_round_aux_sign (sx : bool) (mx ex : Z) (lx : location) :
  match binary_round_aux Float.prec Float.emax sx mx ex lx with
  | S754_nan => True
  | r => sign_bit r = sx
  end.
Proof.
  unfold binary_round_aux.
  destruct (shr_fexp Float.prec Float.emax mx ex lx) as [mrs' e'].
  destruct (shr_fexp Float.prec Float.emax _ e' loc_Exact) as [mrs'' e''].
  destruct (shr_m mrs'') as [|p|p]; [reflexivity| |exact I].
  destruct (e'' <=? Float.emax - Float.prec)%Z; reflexivity.
Qed.

Lemma total_seconds_sign (us : Z) :
  0 <= us -> sign_bit (total_seconds us) = false.
Proof.
  intros Hus. unfold total_seconds, Float.int_truediv.
  destruct us as [|p|p]; [reflexivity| |lia].
  unfold SFdiv.
  destruct (SFdiv_core_binary Float.prec Float.emax (Z.pos p) 0 1000000 0) as [[mz ez] lz].
  pose proof (binary_round_aux_sign (xorb false false) mz ez lz) as H.
  destruct (binary_round_aux Float.prec Float.emax (xorb false false) mz ez lz);
    first [exact H | reflexivity].
Qed.

Lemma round_half_even_nonneg (m e : Z) : 0 <= m -> 0 <= Float.round_half_even m e.
Proof.
  intros Hm. unfold Float.round_half_even. destruct e as [|p|p].
  - lia.
  - apply Z.mul_nonneg_nonneg; [exact Hm|]. apply Z.pow_nonneg. lia.
  - assert (Hd : 0 < Z.pow_pos 2 p)
      by (rewrite Z.pow_pos_fold; apply Z.pow_pos_nonneg; lia).
    pose proof (Z.div_pos m (Z.pow_pos 2 p) Hm Hd) as Hq.
    destruct (2 * (m mod Z.pow_pos 2 p) ?= Z.pow_pos 2 p); [|lia|lia].
    destruct (Z.even (m / Z.pow_pos 2 p)); lia.
Qed.

Lemma round_times_1000_nonneg (x : Float.float) (z : Z) :
  sign_bit x = false ->
  Float.round (Float.mul x (Float.of_Z 1000)) = Normal z ->
  0 <= z.
Proof.
  intros Hx Hz.
  assert (Hm : match Float.mul x (Float.of_Z 1000) with
               | S754_nan => True
               | r => sign_bit r = false
               end).
  { change (Float.of_Z 1000) with (S754_finite false 8796093022208000 (-43)).
    destruct x as [s|s| |s m e]; cbn in Hx; subst; try exact I; try reflexivity.
    unfold Float.mul, SFmul.
    apply (binary_round_aux_sign (xorb false false)). }
  destruct (Float.mul x (Float.of_Z 1000)) as [s|s| |s m e]; cbn in Hz, Hm;
    try discriminate.
  - inversion Hz. lia.
  - subst s. inversion Hz. apply round_half_even_nonneg. lia.
Qed.

Section MoreProfileTimer.

Variable utcnow_at : nat -> Z.

(** X1. Reading [elapsed] or [elapsed_ms] never stops or alters a timer:
    the timers, the heap and the output are as before; a stopped timer costs
    no reading of the clock, a running one exactly one. *)
Theorem elapsed_only_reads_the_clock (self : loc) (m : memory) :
  let m1 := snd (elapsed utcnow_at self m) in
  snd (elapsed_ms utcnow_at self m) = m1
  /\ (forall l, timers m1 l = timers m l)
  /\ next_timer m1 = next_timer m
  /\ heap m1 = heap m
  /\ emitted m1 = emitted m
  /\ utc_reads m1 = match end_ (timers m self) with
                    | Some _ => utc_reads m
                    | None => S (utc_reads m)
                    end.
Proof.
  intros m1. unfold m1, elapsed_ms, bind.
  destruct (end_ (timers m self)) as [e|] eqn:E.
  - rewrite (elapsed_stopped _ _ _ e E). cbn. repeat split; reflexivity.
  - rewrite (elapsed_running _ _ _ E). cbn. repeat split; reflexivity.
Qed.

(** X2. When the end of the window (the recorded end, or the clock on a
    running timer) is not before the start, [elapsed] returns a float
    without the sign bit, and [elapsed_ms], when it returns, is not
    negative either. *)
Theorem elapsed_not_negative (self : loc) (m : memory) :
  start (timers m self) <= match end_ (timers m self) with
                           | Some e => e
                           | None => utcnow_at (utc_reads m)
                           end ->
  (exists x m', elapsed utcnow_at self m = (Normal x, m') /\ sign_bit x = false)
  /\ forall z m', elapsed_ms utcnow_at self m = (Normal z, m') -> 0 <= z.
Proof.
  intros Hle.
  assert (He : exists x m', elapsed utcnow_at self m = (Normal x, m') /\ sign_bit x = false).
  { destruct (end_ (timers m self)) as [e|] eqn:E.
    - rewrite (elapsed_stopped _ _ _ e E). eexists _, _. split; [reflexivity|].
      apply total_seconds_sign. lia.
    - rewrite (elapsed_running _ _ _ E). eexists _, _. split; [reflexivity|].
      apply total_seconds_sign. lia. }
  split; [exact He|].
  destruct He as (x & m1 & Hx & Hsign).
  intros z m' Hz. unfold elapsed_ms, bind in Hz. rewrite Hx in Hz.
  inversion Hz as [[Hr Hm]]. exact (round_times_1000_nonneg x z Hsign Hr).
Qed.

End MoreProfileTimer.

Section MoreProfile.

Variable utcnow_at : nat -> Z.
Variable Duration : Float.float -> string.

(** X3. With a name that is not called (a string or another object, the
    string completed when it is falsy), when the enclosed code returns: the
    scope calls [Stop], then the sink once, in the memory [Stop] left, with
    the name, the word in, and the duration; the duration runs to the end
    the timer already had if the enclosed code stopped it, and else to the
    clock at exit.  The outcome of the block is its value when the sink
    returns, and the exception of the sink when it raises. *)
Theorem Profile_plain_name {A} (name : name_t) (print_to : string -> M unit)
    (body : loc -> M A) (m : memory) (a : A) (m2 : memory) :
  let timer := next_timer m in
  let msg := name_text (or_ name (NameStr "completed")) +:+ " in "
             +:+ Duration (total_seconds (end_at_Stop utcnow_at m2 timer
                                          - start (timers m2 timer))) in
  reported_as_is name = true ->
  body timer (snd (ProfileTimer_init utcnow_at m)) = (Normal a, m2) ->
  with_ (Profile utcnow_at Duration name print_to) body m
  = match print_to msg (snd (Stop utcnow_at timer m2)) with
    | (Normal _, m') => (Normal (Some a), m', [CallStop timer; CallSink msg])
    | (Raised ex, m') => (Raised ex, m', [CallStop timer; CallSink msg])
    end.
Proof.
  intros timer msg Hplain Hbody.
  rewrite with_Profile_paths. cbv beta zeta. fold timer. rewrite Hbody.
  unfold reported_as_is in Hplain. unfold msg.
  destruct (or_ name (NameStr "completed")) as [s|t s|t f]; [| |discriminate];
    rewrite ProfileTimer_repr_eq, elapsed_after_Stop; reflexivity.
Qed.

(** X4. With a callable name, when the enclosed code returns: after
    [Stop] the callback is called once with the elapsed seconds of the
    stopped timer; when it returns [s], the sink is then called once with
    [s], the word in, and the duration, which is read again after the
    callback. *)
Theorem Profile_callable_name {A} (f : Float.float -> M string)
    (print_to : string -> M unit) (body : loc -> M A) (m : memory)
    (a : A) (m2 : memory) (s : string) (m5 : memory) :
  let timer := next_timer m in
  let x := total_seconds (end_at_Stop utcnow_at m2 timer - start (timers m2 timer)) in
  body timer (snd (ProfileTimer_init utcnow_at m)) = (Normal a, m2) ->
  f x (snd (Stop utcnow_at timer m2)) = (Normal s, m5) ->
  exists y m6,
    elapsed utcnow_at timer m5 = (Normal y, m6)
    /\ with_ (Profile utcnow_at Duration (NameFn true f) print_to) body m
       = match print_to (s +:+ " in " +:+ Duration y) m6 with
         | (Normal _, m') =>
             (Normal (Some a), m',
              [CallStop timer; CallName x; CallSink (s +:+ " in " +:+ Duration y)])
         | (Raised ex, m') =>
             (Raised ex, m',
              [CallStop timer; CallName x; CallSink (s +:+ " in " +:+ Duration y)])
         end.
Proof.
  intros timer x Hbody Hf.
  destruct (elapsed_returns utcnow_at timer m5) as (y & m6 & Hy).
  exists y, m6. split; [exact Hy|].
  rewrite with_Profile_paths. cbv beta zeta. fold timer. rewrite Hbody.
  cbn [or_ truthy]. rewrite elapsed_after_Stop. fold x. rewrite Hf.
  rewrite ProfileTimer_repr_eq, Hy. reflexivity.
Qed.

(** X5. When the callable name raises, its exception leaves the [with]
    statement in place of the block's value, and the sink is not called;
    [Stop] was called before. *)
Theorem Profile_callable_name_raises {A} (f : Float.float -> M string)
    (print_to : string -> M unit) (body : loc -> M A) (m : memory)
    (a : A) (m2 : memory) (ex : exn) (m5 : memory) :
  let timer := next_timer m in
  let x := total_seconds (end_at_Stop utcnow_at m2 timer - start (timers m2 timer)) in
  body timer (snd (ProfileTimer_init utcnow_at m)) = (Normal a, m2) ->
  f x (snd (Stop utcnow_at timer m2)) = (Raised ex, m5) ->
  with_ (Profile utcnow_at Duration (NameFn true f) print_to) body m
  = (Raised ex, m5, [CallStop timer; CallName x])
  /\ count_sink [CallStop timer; CallName x] = 0%nat.
Proof.
  intros timer x Hbody Hf. split; [|reflexivity].
  rewrite with_Profile_paths. cbv beta zeta. fold timer. rewrite Hbody.
  cbn [or_ truthy]. rewrite elapsed_after_Stop. fold x. rewrite Hf. reflexivity.
Qed.

Variable logging_call : severity -> list pyval -> gmap string pyval -> M unit.

Lemma Stop_keeps_heap (self : loc) (m : memory) :
  heap (snd (Stop utcnow_at self m)) = heap m.
Proof.
  destruct (end_ (timers m self)) as [e|] eqn:E.
  - rewrite (Stop_stopped _ _ _ e E). reflexivity.
  - rewrite (Stop_running _ _ _ E). reflexivity.
Qed.

(** X6. The scope of [ProgressContext.Profile] reports through [Log]:
    whatever [level] is, the logging facility is called at the INFO
    severity, with [level], the format [%s] and the message as its
    positional arguments, and with the [print_context] that the context
    holds when the scope is left as the only keyword. *)
Theorem ProgressContext_Profile_logs_info {A} (self : loc) (level : Z) (name : name_t)
    (body : loc -> M A) (m : memory) (a : A) (m2 : memory) (pc : pyval) :
  let timer := next_timer m in
  let msg := name_text (or_ name (NameStr "completed")) +:+ " in "
             +:+ Duration (total_seconds (end_at_Stop utcnow_at m2 timer
                                          - start (timers m2 timer))) in
  reported_as_is name = true ->
  body timer (snd (ProfileTimer_init utcnow_at m)) = (Normal a, m2) ->
  attr m2 self "print_context" = Some pc ->
  with_ (ProgressContext_Profile utcnow_at Duration logging_call self level name) body m
  = match logging_call INFO [PyInt level; PyStr "%s"; PyStr msg]
                       (<["print_context" := pc]> ∅) (snd (Stop utcnow_at timer m2)) with
    | (Normal _, m') => (Normal (Some a), m', [CallStop timer; CallSink msg])
    | (Raised ex, m') => (Raised ex, m', [CallStop timer; CallSink msg])
    end.
Proof.
  intros timer msg Hplain Hbody Hpc.
  unfold ProgressContext_Profile.
  rewrite with_Profile_paths. cbv beta zeta. fold timer. rewrite Hbody.
  assert (Hlog : forall x,
            Log logging_call self [PyInt level; PyStr "%s"; PyStr x] ∅
                (snd (Stop utcnow_at timer m2))
            = logging_call INFO [PyInt level; PyStr "%s"; PyStr x]
                           (<["print_context" := pc]> ∅) (snd (Stop utcnow_at timer m2))).
  { intros x. unfold Log, bind, getattr, attr. rewrite Stop_keeps_heap.
    unfold attr in Hpc. rewrite Hpc. reflexivity. }
  unfold reported_as_is in Hplain. unfold msg.
  destruct (or_ name (NameStr "completed")) as [s|t s|t f]; [| |discriminate];
    rewrite ProfileTimer_repr_eq, elapsed_after_Stop, Hlog; reflexivity.
Qed.

End MoreProfile.

(** ** Constructors *)

Lemma bind_new_object {B} (o : instance) (k : loc -> M B) (m : memory) :
  (x <- new_object o ;; k x) m
  = k (fresh (dom (heap m))) (with_heap (<[fresh (dom (heap m)) := o]> (heap m)) m).
Proof. reflexivity. Qed.

Lemma bind_setattr {B} (o : loc) (a : string) (v : pyval) (k : M B) (m : memory)
    (i : instance) :
  heap m !! o = Some i ->
  (setattr o a v ;; k) m
  = k (with_heap (<[o := Instance (cls i) (<[a := v]> (attrs i))]> (heap m)) m).
Proof. intros H. unfold bind, setattr. rewrite H. reflexivity. Qed.

(** What [ProgressBarContext.__init__] stores. *)
Lemma ProgressBarContext_init_stores (name : string) (i : Z) (n : option Z) (unit : string)
    (vertical_position : Z) (leave : option bool) (m : memory) :
  exists self bar method h,
    ProgressBarContext_init name i n unit vertical_position leave m
    = (Normal self, with_heap h m)
    /\ self = fresh (dom (heap m))
    /\ heap m !! self = None /\ heap m !! bar = None /\ heap m !! method = None
    /\ self <> bar /\ self <> method /\ bar <> method
    /\ h !! self
       = Some (Instance ProgressBarContext
                 (<["print_context" := PyRef method]> (<["bar" := PyRef bar]>
                  (<["n" := opt_int n]> (<["vertical_position" := PyInt vertical_position]>
                   (<["unit" := PyStr unit]> (<["n" := opt_int n]>
                    (<["i" := PyInt i]> (<["name" := PyStr name]> ∅)))))))))
    /\ h !! bar
       = Some (Instance Tqdm
                 (<["desc" := PyStr name]> (<["n" := PyInt i]>
                  (<["total" := opt_int n]> (<["unit" := PyStr (if String.eqb unit EmptyString
                                                       then unit else " " +:+ unit)]>
                   (<["pos" := PyInt (- vertical_position)]>
                    (<["leave" := opt_bool leave]> ∅)))))))
    /\ h !! method
       = Some (Instance BoundMethod
                 (<["__self__" := PyClass Tqdm]>
                  (<["__name__" := PyStr "external_write_mode"]> ∅)))
    /\ forall l, l <> self -> l <> bar -> l <> method -> h !! l = heap m !! l.
Proof.
  unfold ProgressBarContext_init.
  rewrite bind_new_object.
  set (self := fresh (dom (heap m))).
  assert (Hself : heap m !! self = None) by apply new_object_fresh.
  set (m0 := with_heap _ m).
  assert (H0 : heap m0 !! self = Some (Instance ProgressBarContext ∅))
    by apply lookup_insert_eq.
  rewrite (bind_setattr _ _ _ _ _ _ H0). cbn [cls attrs].
  set (m1 := with_heap _ m0).
  assert (H1 : heap m1 !! self
               = Some (Instance ProgressBarContext (<["name" := PyStr name]> ∅)))
    by apply lookup_insert_eq.
  rewrite (bind_setattr _ _ _ _ _ _ H1). cbn [cls attrs].
  set (m2 := with_heap _ m1).
  assert (H2 : heap m2 !! self
               = Some (Instance ProgressBarContext
                         (<["i" := PyInt i]> (<["name" := PyStr name]> ∅))))
    by apply lookup_insert_eq.
  rewrite (bind_setattr _ _ _ _ _ _ H2). cbn [cls attrs].
  set (m3 := with_heap _ m2).
  assert (H3 : heap m3 !! self
               = Some (Instance ProgressBarContext
                         (<["n" := opt_int n]> (<["i" := PyInt i]>
                          (<["name" := PyStr name]> ∅)))))
    by apply lookup_insert_eq.
  rewrite (bind_setattr _ _ _ _ _ _ H3). cbn [cls attrs].
  set (m4 := with_heap _ m3).
  assert (H4 : heap m4 !! self
               = Some (Instance ProgressBarContext
                         (<["unit" := PyStr unit]> (<["n" := opt_int n]>
                          (<["i" := PyInt i]> (<["name" := PyStr name]> ∅))))))
    by apply lookup_insert_eq.
  rewrite (bind_setattr _ _ _ _ _ _ H4). cbn [cls attrs].
  set (m5 := with_heap _ m4).
  assert (H5 : heap m5 !! self
               = Some (Instance ProgressBarContext
                         (<["vertical_position" := PyInt vertical_position]>
                          (<["unit" := PyStr unit]> (<["n" := opt_int n]>
                           (<["i" := PyInt i]> (<["name" := PyStr name]> ∅)))))))
    by apply lookup_insert_eq.
  assert (Hn : exists m6,
             (forall B (k : M B),
                (match n with
                 | Some z => setattr self "n" (PyInt z)
                 | None => ret tt
                 end ;; k) m5 = k m6)
             /\ heap m6 !! self
                = Some (Instance ProgressBarContext
                          (<["n" := opt_int n]>
                           (<["vertical_position" := PyInt vertical_position]>
                            (<["unit" := PyStr unit]> (<["n" := opt_int n]>
                             (<["i" := PyInt i]> (<["name" := PyStr name]> ∅)))))))
             /\ (forall l, l <> self -> heap m6 !! l = heap m !! l)
             /\ exists h6, m6 = with_heap h6 m).
  { assert (Hold5 : forall l, l <> self -> heap m5 !! l = heap m !! l).
    { intros l Hl. cbn. rewrite !lookup_insert_ne by congruence. reflexivity. }
    destruct n as [z|].
    - eexists. split; [intros B k; rewrite (bind_setattr _ _ _ _ _ _ H5); reflexivity|].
      split; [apply lookup_insert_eq|]. split; [|eexists; reflexivity].
      intros l Hl. cbn [heap with_heap]. rewrite lookup_insert_ne by congruence.
      apply Hold5, Hl.
    - exists m5. split; [intros B k; reflexivity|].
      split; [|split; [exact Hold5|eexists; reflexivity]].
      rewrite H5. reflexivity. }
  destruct Hn as (m6 & Hk & H6 & Hold6 & h6 & Hm6).
  rewrite Hk. cbv zeta.
  unfold tqdm_init. rewrite bind_new_object.
  set (bar := fresh (dom (heap m6))).
  assert (Hbar6 : heap m6 !! bar = None) by apply new_object_fresh.
  assert (Hsb : self <> bar).
  { intros Heq. rewrite <- Heq in Hbar6. congruence. }
  set (m7 := with_heap _ m6).
  assert (H7 : heap m7 !! self = heap m6 !! self)
    by (cbn; apply lookup_insert_ne; congruence).
  rewrite H6 in H7.
  rewrite (bind_setattr _ _ _ _ _ _ H7). cbn [cls attrs].
  set (m8 := with_heap _ m7).
  unfold bound_classmethod. rewrite bind_new_object.
  set (method := fresh (dom (heap m8))).
  assert (Hmethod8 : heap m8 !! method = None) by apply new_object_fresh.
  assert (Hsm : self <> method).
  { intros Heq. rewrite <- Heq in Hmethod8. cbn in Hmethod8.
    rewrite lookup_insert_eq in Hmethod8. discriminate. }
  assert (Hbm : bar <> method).
  { intros Heq. rewrite <- Heq in Hmethod8. cbn in Hmethod8.
    rewrite lookup_insert_ne in Hmethod8 by congruence.
    rewrite lookup_insert_eq in Hmethod8. discriminate. }
  set (m9 := with_heap _ m8).
  assert (H8 : heap m8 !! self
               = Some (Instance ProgressBarContext
                         (<["bar" := PyRef bar]>
                          (<["n" := opt_int n]>
                           (<["vertical_position" := PyInt vertical_position]>
                            (<["unit" := PyStr unit]> (<["n" := opt_int n]>
                             (<["i" := PyInt i]> (<["name" := PyStr name]> ∅)))))))))
    by apply lookup_insert_eq.
  assert (H9 : heap m9 !! self = heap m8 !! self)
    by (cbn; apply lookup_insert_ne; congruence).
  rewrite H8 in H9.
  rewrite (bind_setattr _ _ _ _ _ _ H9). cbn [cls attrs].
  exists self, bar, method. eexists.
  split; [unfold ret; subst m6; reflexivity|].
  split; [reflexivity|]. split; [exact Hself|].
  split.
  { rewrite <- (Hold6 bar) by congruence. exact Hbar6. }
  split.
  { cbn in Hmethod8. rewrite !lookup_insert_ne in Hmethod8 by congruence.
    rewrite <- (Hold6 method) by congruence. exact Hmethod8. }
  split; [exact Hsb|]. split; [exact Hsm|]. split; [exact Hbm|].
  split; [apply lookup_insert_eq|].
  split.
  { rewrite lookup_insert_ne by congruence. cbn.
    rewrite lookup_insert_ne by congruence.
    rewrite lookup_insert_ne by congruence. apply lookup_insert_eq. }
  split.
  { rewrite lookup_insert_ne by congruence. cbn. apply lookup_insert_eq. }
  intros l Hl1 Hl2 Hl3. rewrite lookup_insert_ne by congruence. cbn.
  rewrite !lookup_insert_ne by congruence. apply Hold6, Hl1.
Qed.

(** What [Progress.__init__] stores. *)
Lemma Progress_init_stores (name : string) (i : Z) (n : option Z) (unit : string)
    (vertical_position : Z) (leave : option bool) (m : memory) :
  exists self ctx bar run_ start_ is_alive_ h,
    Progress_init name i n unit vertical_position leave m = (Normal self, with_heap h m)
    /\ heap m !! self = None /\ heap m !! ctx = None /\ heap m !! bar = None
    /\ heap m !! run_ = None /\ heap m !! start_ = None /\ heap m !! is_alive_ = None
    /\ h !! self
       = Some (Instance Progress
                 (<["IsAlive" := PyRef is_alive_]> (<["Start" := PyRef start_]>
                  (<["run" := PyRef run_]> (<["ctx" := PyRef ctx]> ∅)))))
    /\ attr (with_heap h m) ctx "bar" = Some (PyRef bar)
    /\ attr (with_heap h m) ctx "i" = Some (PyInt i)
    /\ attr (with_heap h m) bar "n" = Some (PyInt i)
    /\ h !! run_
       = Some (Instance BoundMethod
                 (<["__self__" := PyRef self]> (<["__name__" := PyStr "Run"]> ∅)))
    /\ h !! start_
       = Some (Instance BoundMethod
                 (<["__self__" := PyRef self]> (<["__name__" := PyStr "start"]> ∅)))
    /\ h !! is_alive_
       = Some (Instance BoundMethod
                 (<["__self__" := PyRef self]> (<["__name__" := PyStr "is_alive"]> ∅)))
    /\ forall l, is_Some (heap m !! l) -> h !! l = heap m !! l.
Proof.
  unfold Progress_init.
  rewrite bind_new_object.
  set (self := fresh (dom (heap m))).
  assert (Hself : heap m !! self = None) by apply new_object_fresh.
  set (m0 := with_heap _ m).
  assert (H0 : heap m0 !! self = Some (Instance Progress ∅)) by apply lookup_insert_eq.
  destruct (ProgressBarContext_init_stores name i n unit vertical_position leave m0)
    as (ctx & bar & method & h1 & Hinit & _ & Hctx0 & Hbar0 & Hmethod0 & Hcb & Hcm & Hbm
        & Hctx1 & Hbar1 & Hmethod1 & Hold1).
  unfold bind at 1. rewrite Hinit.
  change (with_heap h1 m0) with (with_heap h1 m). set (m1 := with_heap h1 m).
  assert (Hsc : self <> ctx) by (intros Heq; rewrite <- Heq in Hctx0; congruence).
  assert (Hsb : self <> bar) by (intros Heq; rewrite <- Heq in Hbar0; congruence).
  assert (Hsm : self <> method) by (intros Heq; rewrite <- Heq in Hmethod0; congruence).
  assert (H1 : heap m1 !! self = Some (Instance Progress ∅)).
  { cbn. rewrite Hold1 by congruence. exact H0. }
  rewrite (bind_setattr _ _ _ _ _ _ H1). cbn [cls attrs].
  set (m2 := with_heap _ m1).
  unfold bound_method. rewrite bind_new_object.
  set (run_ := fresh (dom (heap m2))).
  assert (Hrun2 : heap m2 !! run_ = None) by apply new_object_fresh.
  assert (Hrs : run_ <> self).
  { intros Heq. rewrite Heq in Hrun2. cbn in Hrun2.
    rewrite lookup_insert_eq in Hrun2. discriminate. }
  assert (Hrun1 : h1 !! run_ = None).
  { cbn in Hrun2. rewrite lookup_insert_ne in Hrun2 by congruence. exact Hrun2. }
  set (m3 := with_heap _ m2).
  assert (H3 : heap m3 !! self
               = Some (Instance Progress (<["ctx" := PyRef ctx]> ∅))).
  { cbn. rewrite lookup_insert_ne by congruence. apply lookup_insert_eq. }
  rewrite (bind_setattr _ _ _ _ _ _ H3). cbn [cls attrs].
  set (m4 := with_heap _ m3).
  rewrite bind_new_object.
  set (start_ := fresh (dom (heap m4))).
  assert (Hstart4 : heap m4 !! start_ = None) by apply new_object_fresh.
  assert (Hss : start_ <> self).
  { intros Heq. rewrite Heq in Hstart4. cbn in Hstart4.
    rewrite lookup_insert_eq in Hstart4. discriminate. }
  assert (Hsr : start_ <> run_).
  { intros Heq. rewrite Heq in Hstart4. cbn in Hstart4.
    rewrite lookup_insert_ne in Hstart4 by congruence.
    rewrite lookup_insert_eq in Hstart4. discriminate. }
  assert (Hstart1 : h1 !! start_ = None).
  { cbn in Hstart4. rewrite !lookup_insert_ne in Hstart4 by congruence. exact Hstart4. }
  set (m5 := with_heap _ m4).
  assert (H5 : heap m5 !! self
               = Some (Instance Progress
                         (<["run" := PyRef run_]> (<["ctx" := PyRef ctx]> ∅)))).
  { cbn. rewrite lookup_insert_ne by congruence. apply lookup_insert_eq. }
  rewrite (bind_setattr _ _ _ _ _ _ H5). cbn [cls attrs].
  set (m6 := with_heap _ m5).
  rewrite bind_new_object.
  set (is_alive_ := fresh (dom (heap m6))).
  assert (Halive6 : heap m6 !! is_alive_ = None) by apply new_object_fresh.
  assert (Has : is_alive_ <> self).
  { intros Heq. rewrite Heq in Halive6. cbn in Halive6.
    rewrite lookup_insert_eq in Halive6. discriminate. }
  assert (Hast : is_alive_ <> start_).
  { intros Heq. rewrite Heq in Halive6. cbn in Halive6.
    rewrite lookup_insert_ne in Halive6 by congruence.
    rewrite lookup_insert_eq in Halive6. discriminate. }
  assert (Har : is_alive_ <> run_).
  { intros Heq. rewrite Heq in Halive6. cbn in Halive6.
    rewrite !lookup_insert_ne in Halive6 by congruence.
    rewrite lookup_insert_eq in Halive6. discriminate. }
  assert (Halive1 : h1 !! is_alive_ = None).
  { cbn in Halive6. rewrite !lookup_insert_ne in Halive6 by congruence. exact Halive6. }
  set (m7 := with_heap _ m6).
  assert (H7 : heap m7 !! self
               = Some (Instance Progress
                         (<["Start" := PyRef start_]> (<["run" := PyRef run_]>
                          (<["ctx" := PyRef ctx]> ∅))))).
  { cbn. rewrite lookup_insert_ne by congruence. apply lookup_insert_eq. }
  rewrite (bind_setattr _ _ _ _ _ _ H7). cbn [cls attrs].
  assert (Hnew : forall l, h1 !! l = None -> l <> self -> heap m !! l = None).
  { intros l Hl Hls.
    destruct (decide (l = ctx)) as [->|Hlc]; [congruence|].
    destruct (decide (l = bar)) as [->|Hlb]; [congruence|].
    destruct (decide (l = method)) as [->|Hlm]; [congruence|].
    rewrite Hold1 in Hl by assumption. cbn in Hl.
    rewrite lookup_insert_ne in Hl by congruence. exact Hl. }
  assert (Hrc : run_ <> ctx) by congruence.
  assert (Hrb : run_ <> bar) by congruence.
  assert (Hstc : start_ <> ctx) by congruence.
  assert (Hstb : start_ <> bar) by congruence.
  assert (Hac : is_alive_ <> ctx) by congruence.
  assert (Hab : is_alive_ <> bar) by congruence.
  exists self, ctx, bar, run_, start_, is_alive_. eexists.
  split; [unfold ret; reflexivity|].
  split; [exact Hself|].
  split; [cbn in Hctx0; rewrite lookup_insert_ne in Hctx0 by congruence; exact Hctx0|].
  split; [cbn in Hbar0; rewrite lookup_insert_ne in Hbar0 by congruence; exact Hbar0|].
  split; [apply Hnew; assumption|].
  split; [apply Hnew; assumption|].
  split; [apply Hnew; assumption|].
  split; [apply lookup_insert_eq|].
  split.
  { unfold attr. cbn [heap with_heap]. rewrite lookup_insert_ne by congruence. cbn.
    rewrite !lookup_insert_ne by congruence. rewrite Hctx1. reflexivity. }
  split.
  { unfold attr. cbn [heap with_heap]. rewrite lookup_insert_ne by congruence. cbn.
    rewrite !lookup_insert_ne by congruence. rewrite Hctx1. reflexivity. }
  split.
  { unfold attr. cbn [heap with_heap]. rewrite lookup_insert_ne by congruence. cbn.
    rewrite !lookup_insert_ne by congruence. rewrite Hbar1. reflexivity. }
  split.
  { rewrite lookup_insert_ne by congruence. cbn.
    rewrite !lookup_insert_ne by congruence. apply lookup_insert_eq. }
  split.
  { rewrite lookup_insert_ne by congruence. cbn.
    rewrite !lookup_insert_ne by congruence. apply lookup_insert_eq. }
  split.
  { rewrite lookup_insert_ne by congruence. cbn. apply lookup_insert_eq. }
  intros l [o Hl].
  assert (l <> self) by congruence.
  assert (l <> ctx).
  { intros ->. cbn in Hctx0. rewrite lookup_insert_ne in Hctx0 by congruence. congruence. }
  assert (l <> bar).
  { intros ->. cbn in Hbar0. rewrite lookup_insert_ne in Hbar0 by congruence. congruence. }
  assert (l <> method).
  { intros ->. cbn in Hmethod0. rewrite lookup_insert_ne in Hmethod0 by congruence.
    congruence. }
  assert (l <> run_) by (intros ->; rewrite (Hnew _ Hrun1 Hrs) in Hl; discriminate).
  assert (l <> start_) by (intros ->; rewrite (Hnew _ Hstart1 Hss) in Hl; discriminate).
  assert (l <> is_alive_) by (intros ->; rewrite (Hnew _ Halive1 Has) in Hl; discriminate).
  rewrite lookup_insert_ne by congruence. cbn.
  rewrite !lookup_insert_ne by congruence.
  rewrite Hold1 by congruence. cbn. apply lookup_insert_ne. congruence.
Qed.

Lemma with_heap_same (m : memory) : with_heap (heap m) m = m.
Proof. destruct m; reflexivity. Qed.

(** X7. [ProgressBarContext.__init__] always returns: it stores three new
    objects (the context, its bar, and the method object
    [bar.external_write_mode] as [print_context]) and changes no object
    that was there.  The context keeps the arguments as given; the bar
    starts at [i] with [n] as its total, its unit is the given unit after
    one space, or empty when the given unit is empty, and its [pos] is the
    vertical position with the sign changed.  The method that is stored
    is bound to the class [tqdm], not to the bar: calling [print_context]
    gives the write mode of the class, and [print] on the new context
    prints between the entry and the exit of that write mode.  No clock is
    read and nothing is emitted. *)
Theorem ProgressBarContext_init_builds_bar (name : string) (i : Z) (n : option Z)
    (unit : string) (vertical_position : Z) (leave : option bool) (m : memory) :
  exists self bar method m',
    ProgressBarContext_init name i n unit vertical_position leave m = (Normal self, m')
    /\ heap m !! self = None /\ heap m !! bar = None /\ heap m !! method = None
    /\ self <> bar
    /\ attr m' self "name" = Some (PyStr name)
    /\ attr m' self "i" = Some (PyInt i)
    /\ attr m' self "n" = Some (opt_int n)
    /\ attr m' self "unit" = Some (PyStr unit)
    /\ attr m' self "vertical_position" = Some (PyInt vertical_position)
    /\ attr m' self "bar" = Some (PyRef bar)
    /\ attr m' self "print_context" = Some (PyRef method)
    /\ attr m' bar "desc" = Some (PyStr name)
    /\ attr m' bar "n" = Some (PyInt i)
    /\ attr m' bar "total" = Some (opt_int n)
    /\ attr m' bar "unit"
       = Some (PyStr (if String.eqb unit EmptyString then EmptyString else " " +:+ unit))
    /\ attr m' bar "pos" = Some (PyInt (- vertical_position))
    /\ attr m' bar "leave" = Some (opt_bool leave)
    /\ attr m' method "__self__" = Some (PyClass Tqdm)
    /\ attr m' method "__name__" = Some (PyStr "external_write_mode")
    /\ call_value (PyRef method) m' = (Normal Tqdm, m')
    /\ (forall args kwargs,
          print self args kwargs m'
          = (Normal tt,
             with_emitted (emitted m ++ [WriteModeEnter Tqdm; Printed args kwargs;
                                         WriteModeExit Tqdm]) m'))
    /\ (forall l, is_Some (heap m !! l) -> heap m' !! l = heap m !! l)
    /\ with_heap (heap m) m' = m.
Proof.
  destruct (ProgressBarContext_init_stores name i n unit vertical_position leave m)
    as (self & bar & method & h & Hinit & _ & Hself & Hbar & Hmethod & Hsb & Hsm & Hbm
        & Hself' & Hbar' & Hmethod' & Hold).
  exists self, bar, method, (with_heap h m).
  split; [exact Hinit|]. split; [exact Hself|]. split; [exact Hbar|].
  split; [exact Hmethod|]. split; [exact Hsb|].
  unfold attr, call_value. cbn [heap with_heap]. rewrite Hself', Hbar', Hmethod'.
  cbn [attrs].
  split; [reflexivity|]. split; [reflexivity|].
  split; [destruct n; reflexivity|].
  split; [reflexivity|]. split; [reflexivity|]. split; [reflexivity|].
  split; [reflexivity|]. split; [reflexivity|]. split; [reflexivity|].
  split; [reflexivity|].
  split.
  { destruct (String.eqb unit EmptyString) eqn:Hu; [|reflexivity].
    apply String.eqb_eq in Hu. subst unit. reflexivity. }
  split; [reflexivity|]. split; [reflexivity|]. split; [reflexivity|].
  split; [reflexivity|]. split; [reflexivity|].
  split.
  { intros args kwargs. unfold print, bind, getattr, attr, call_value, emit.
    cbn [heap with_heap]. rewrite Hself'. cbn [attrs]. rewrite lookup_insert_eq.
    cbn [heap with_heap]. rewrite Hmethod'. cbn [attrs].
    rewrite lookup_insert_eq. rewrite lookup_insert_ne by discriminate.
    rewrite lookup_insert_eq. cbn. rewrite <- !app_assoc. reflexivity. }
  split; [|exact (with_heap_same m)].
  intros l [o Hl]. apply Hold; congruence.
Qed.

(** X8. [Progress.__init__] always returns a new job that is ready for
    [Run]: it holds a new context, which holds a new bar, both counters at
    [i]; its [run], [Start] and [IsAlive] are new bound methods of the job
    itself, for [Run], [start] and [is_alive].  No object that was there
    is changed, no clock is read and nothing is emitted. *)
Theorem Progress_init_ready (name : string) (i : Z) (n : option Z) (unit : string)
    (vertical_position : Z) (leave : option bool) (m : memory) :
  exists self ctx bar m',
    Progress_init name i n unit vertical_position leave m = (Normal self, m')
    /\ heap m !! self = None /\ heap m !! ctx = None /\ heap m !! bar = None
    /\ job_ready m' self ctx bar
    /\ attr m' ctx "i" = Some (PyInt i)
    /\ attr m' bar "n" = Some (PyInt i)
    /\ (exists a, heap m' !! self = Some (Instance Progress a))
    /\ (forall attribute method,
          In (attribute, method) [("run", "Run"); ("Start", "start"); ("IsAlive", "is_alive")] ->
          exists f,
            attr m' self attribute = Some (PyRef f)
            /\ heap m !! f = None
            /\ heap m' !! f
               = Some (Instance BoundMethod
                         (<["__self__" := PyRef self]> (<["__name__" := PyStr method]> ∅))))
    /\ (forall l, is_Some (heap m !! l) -> heap m' !! l = heap m !! l)
    /\ with_heap (heap m) m' = m.
Proof.
  destruct (Progress_init_stores name i n unit vertical_position leave m)
    as (self & ctx & bar & run_ & start_ & is_alive_ & h & Hinit & Hself & Hctx & Hbar
        & Hrun & Hstart & Halive & Hself' & Hcb & Hci & Hbn & Hrun' & Hstart' & Halive'
        & Hold).
  exists self, ctx, bar, (with_heap h m).
  split; [exact Hinit|]. split; [exact Hself|]. split; [exact Hctx|].
  split; [exact Hbar|].
  assert (Hattr : forall b, attr (with_heap h m) self b
                            = (<["IsAlive" := PyRef is_alive_]> (<["Start" := PyRef start_]>
                               (<["run" := PyRef run_]> (<["ctx" := PyRef ctx]>
                                (∅ : gmap string pyval))))) !! b).
  { intros b. unfold attr. cbn [heap with_heap]. rewrite Hself'. reflexivity. }
  split.
  { unfold job_ready. rewrite !Hattr, Hcb, Hci, Hbn.
    split; [reflexivity|]. split; [reflexivity|]. split; [eauto|]. split; eauto. }
  split; [exact Hci|]. split; [exact Hbn|]. split; [eauto|].
  split; [|split; [exact Hold|exact (with_heap_same m)]].
  intros attribute method [Heq|[Heq|[Heq|[]]]]; inversion Heq; subst attribute method;
    rewrite Hattr; eexists; (split; [reflexivity|]); split; assumption.
Qed.

Lemma call_value_memory (v : pyval) (m : memory) : snd (call_value v m) = m.
Proof.
  destruct v as [| | | |f|c]; try reflexivity. cbn.
  destruct (heap m !! f) as [[c a]|]; [|reflexivity].
  destruct c; try reflexivity.
  destruct (a !! "__self__") as [[| | | | |[]]|]; try reflexivity;
    destruct (a !! "__name__") as [[| | |name| |]|]; try reflexivity;
    destruct (String.eqb name "external_write_mode"); reflexivity.
Qed.

(** Calling a value gives the same in two memories that store the same
    bound methods. *)
Lemma call_value_new_object (v : pyval) (m m' : memory) (new : loc) (c : class)
    (a : gmap string pyval) :
  heap m !! new = None -> heap m' !! new = Some (Instance c a) -> c <> BoundMethod ->
  (forall l, l <> new -> heap m' !! l = heap m !! l) ->
  fst (call_value v m') = fst (call_value v m).
Proof.
  intros Hnew Hnew' Hc Hold. destruct v as [| | | |f|c0]; try reflexivity. cbn.
  destruct (decide (f = new)) as [->|Hf].
  - rewrite Hnew, Hnew'. destruct c; try reflexivity. congruence.
  - rewrite (Hold f Hf). destruct (heap m !! f) as [[c' a']|]; [|reflexivity].
    destruct c'; try reflexivity.
    destruct (a' !! "__self__") as [[| | | | |[]]|]; try reflexivity;
      destruct (a' !! "__name__") as [[| | |name| |]|]; try reflexivity;
      destruct (String.eqb name "external_write_mode"); reflexivity.
Qed.

Section MoreContext.

Variable logging_call : severity -> list pyval -> gmap string pyval -> M unit.
Variable job_writes_at : nat -> option Z.

(** X9. On an object without a [print_context], [ToProgressContext]
    raises [AttributeError] and stores nothing.  Otherwise the context it
    returns can stand in for the original: [print] on it has the outcome
    and the output that [print] on the original had before the call, and
    after the call [print], [Log], [Warning] and [Error] do the same on
    either. *)
Theorem ToProgressContext_same_behaviour (self : loc) (m : memory) :
  match attr m self "print_context" with
  | None => ToProgressContext self m = (Raised (AttributeError "print_context"), m)
  | Some pc =>
      exists new m',
        ToProgressContext self m = (Normal new, m')
        /\ heap m !! new = None
        /\ forall args kwargs,
             fst (print new args kwargs m') = fst (print self args kwargs m)
             /\ emitted (snd (print new args kwargs m'))
                = emitted (snd (print self args kwargs m))
             /\ print self args kwargs m' = print new args kwargs m'
             /\ Log logging_call self args kwargs m' = Log logging_call new args kwargs m'
             /\ Warning logging_call self args kwargs m'
                = Warning logging_call new args kwargs m'
             /\ Error logging_call self args kwargs m'
                = Error logging_call new args kwargs m'
  end.
Proof.
  destruct (attr m self "print_context") as [pc|] eqn:Hpc.
  2:{ unfold ToProgressContext, bind, getattr. rewrite Hpc. reflexivity. }
  destruct (ProgressContext_init_spec pc m) as (m' & Hinit & Hfresh & Hnew & Hold).
  set (new := fresh (dom (heap m))) in *.
  assert (Hm' : emitted m' = emitted m).
  { unfold ProgressContext_init, bind, new_object, setattr in Hinit. cbn in Hinit.
    fold new in Hinit. rewrite lookup_insert_eq in Hinit.
    inversion Hinit. reflexivity. }
  exists new, m'.
  split; [unfold ToProgressContext, bind, getattr; rewrite Hpc; exact Hinit|].
  split; [exact Hfresh|].
  assert (Hns : self <> new).
  { intros Heq. unfold attr in Hpc. rewrite Heq, Hfresh in Hpc. discriminate. }
  assert (Hself' : attr m' self "print_context" = Some pc).
  { unfold attr. rewrite (Hold self Hns). exact Hpc. }
  assert (Hnew' : attr m' new "print_context" = Some pc).
  { unfold attr. rewrite Hnew. reflexivity. }
  intros args kwargs.
  assert (Hprint : forall o mo, attr mo o "print_context" = Some pc ->
            print o args kwargs mo
            = match fst (call_value pc mo) with
              | Normal c =>
                  (Normal tt,
                   with_emitted (emitted mo ++ [WriteModeEnter c; Printed args kwargs;
                                               WriteModeExit c]) mo)
              | Raised e => (Raised e, mo)
              end).
  { intros o mo Ho. unfold print, bind at 1, getattr. rewrite Ho.
    unfold bind at 1. pose proof (call_value_memory pc mo) as Hmem.
    destruct (call_value pc mo) as [[c|e] mo']; cbn in Hmem; subst mo'; cbn [fst];
      [|reflexivity].
    unfold bind, emit. cbn. rewrite <- !app_assoc. reflexivity. }
  assert (Hcall : fst (call_value pc m') = fst (call_value pc m)).
  { apply (call_value_new_object pc m m' new ProgressContext _ Hfresh Hnew);
      [discriminate|exact Hold]. }
  rewrite (Hprint new m' Hnew'), (Hprint self m' Hself'), (Hprint self m Hpc), Hcall.
  split; [destruct (fst (call_value pc m)); reflexivity|].
  split; [destruct (fst (call_value pc m)); cbn; [rewrite Hm'|]; congruence|].
  split; [reflexivity|].
  unfold Log, Warning, Error, bind, getattr. rewrite Hself', Hnew'.
  split; [reflexivity|]. split; reflexivity.
Qed.

(** X10. [Refresh] on a context with a stored bar returns: the counter
    of the bar is then the counter of the context (the value the job last
    stored), one redraw of that bar at that count is emitted, the counter
    was read once, and no other attribute of any object has changed. *)
Theorem Refresh_syncs_bar (ctx bar : loc) (v0 : pyval) (m : memory) :
  let v := match job_writes_at (i_reads m) with
           | Some z => PyInt z
           | None => v0
           end in
  attr m ctx "bar" = Some (PyRef bar) ->
  attr m ctx "i" = Some v0 ->
  is_Some (heap m !! bar) ->
  exists m',
    Refresh job_writes_at ctx m = (Normal tt, m')
    /\ attr m' ctx "i" = Some v
    /\ attr m' bar "n" = Some v
    /\ emitted m' = emitted m ++ [BarRefresh bar v]
    /\ i_reads m' = S (i_reads m)
    /\ forall l b, (l, b) <> (ctx, "i") -> (l, b) <> (bar, "n") -> attr m' l b = attr m l b.
Proof.
  intros v Hbar Hi [ob Hob].
  destruct (attr_stored m ctx "i" (ex_intro _ _ Hi)) as [oc Hoc].
  assert (Hread : exists m1,
            read_i job_writes_at ctx m = (Normal v, m1)
            /\ (forall l b, attr m1 l b
                            = if decide (l = ctx /\ b = "i") then Some v else attr m l b)
            /\ emitted m1 = emitted m /\ i_reads m1 = S (i_reads m)
            /\ is_Some (heap m1 !! bar)).
  { unfold read_i, bind. subst v. destruct (job_writes_at (i_reads m)) as [z|].
    - unfold setattr. cbn [heap with_i_reads]. rewrite Hoc.
      eexists. unfold getattr, attr at 1. cbn [heap with_heap].
      rewrite lookup_insert_eq. cbn [attrs]. rewrite lookup_insert_eq.
      split; [reflexivity|].
      split.
      { intros l b. unfold attr. cbn [heap with_heap with_i_reads].
        destruct (decide (l = ctx)) as [->|Hl].
        - rewrite lookup_insert_eq, Hoc. cbn [attrs].
          destruct (decide (b = "i")) as [->|Hb].
          + rewrite lookup_insert_eq, decide_True by auto. reflexivity.
          + rewrite lookup_insert_ne by congruence. rewrite decide_False by tauto.
            reflexivity.
        - rewrite lookup_insert_ne by congruence. rewrite decide_False by tauto.
          reflexivity. }
      split; [reflexivity|]. split; [reflexivity|].
      cbn. destruct (decide (ctx = bar)) as [->|Hne].
      + rewrite lookup_insert_eq. eauto.
      + rewrite lookup_insert_ne by congruence. eauto.
    - exists (with_i_reads (S (i_reads m)) m).
      unfold getattr. change (attr (with_i_reads (S (i_reads m)) m) ctx "i")
        with (attr m ctx "i"). rewrite Hi.
      split; [reflexivity|].
      split.
      { intros l b. change (attr (with_i_reads (S (i_reads m)) m) l b) with (attr m l b).
        case_decide as Hd; [destruct Hd; subst; exact Hi|reflexivity]. }
      split; [reflexivity|]. split; [reflexivity|]. cbn. eauto. }
  destruct Hread as (m1 & Hread & Hattr1 & Hem1 & Hreads1 & [ob1 Hob1]).
  destruct (setattr_stored bar "n" v m1 ob1 Hob1) as (h & Hset & Hattr2).
  exists (with_emitted (emitted (with_heap h m1) ++ [BarRefresh bar v]) (with_heap h m1)).
  split.
  { unfold Refresh, bind at 1. rewrite Hread.
    unfold bind at 1. rewrite (getattr_ref_attr ctx "bar" bar m1).
    2:{ rewrite Hattr1. rewrite decide_False by (intros [_ ?]; discriminate). exact Hbar. }
    unfold bind, emit. rewrite Hset. reflexivity. }
  change (forall l b, attr (with_emitted (emitted (with_heap h m1) ++ [BarRefresh bar v])
                                         (with_heap h m1)) l b
                      = if decide (l = bar /\ b = "n") then Some v else attr m1 l b)
    in Hattr2.
  split.
  { rewrite Hattr2, Hattr1. rewrite decide_False by (intros [_ ?]; discriminate).
    rewrite decide_True by auto. reflexivity. }
  split; [rewrite Hattr2, decide_True by auto; reflexivity|].
  split; [cbn; rewrite Hem1; reflexivity|].
  split; [exact Hreads1|].
  intros l b H1 H2. rewrite Hattr2, Hattr1.
  rewrite decide_False by (intros [-> ->]; congruence).
  rewrite decide_False by (intros [-> ->]; congruence). reflexivity.
Qed.

End MoreContext.

(** ** The loop of [Run] *)

Lemma forward_bind {A B} (c : M A) (k : A -> M B) :
  forward c -> (forall a, forward (k a)) -> forward (bind c k).
Proof.
  intros Hc Hk m r m' H.
  destruct (bind_inv _ _ _ _ _ H) as [(a & m1 & Hc' & Hk')|(e & Hc' & _)].
  - etransitivity; [exact (Hc _ _ _ Hc')|exact (Hk a _ _ _ Hk')].
  - exact (Hc _ _ _ Hc').
Qed.

Lemma forward_ret {A} (a : A) : forward (ret a).
Proof. intros m r m' H. inversion H; subst. reflexivity. Qed.

Lemma forward_emit (o : output) : forward (emit o).
Proof. intros m r m' H. inversion H; subst. reflexivity. Qed.

Lemma forward_getattr (o : loc) (a : string) : forward (getattr o a).
Proof.
  intros m r m' H. pose proof (getattr_memory o a m) as Hm. rewrite H in Hm.
  cbn in Hm. subst m'. reflexivity.
Qed.

Lemma forward_getattr_ref (o : loc) (a : string) : forward (getattr_ref o a).
Proof.
  apply forward_bind; [apply forward_getattr|].
  intros [| | | |l|c] m r m' H; inversion H; subst; reflexivity.
Qed.

Lemma forward_setattr (o : loc) (a : string) (v : pyval) : forward (setattr o a v).
Proof.
  intros m r m' H. unfold setattr in H.
  destruct (heap m !! o); inversion H; subst; reflexivity.
Qed.

Lemma getattr_ref_inv (o : loc) (a : string) (m : memory) (l : loc) (m' : memory) :
  getattr_ref o a m = (Normal l, m') -> m' = m /\ attr m o a = Some (PyRef l).
Proof.
  unfold getattr_ref, bind, getattr. destruct (attr m o a) as [[| | | |l'|c]|];
    intros H; inversion H; subst. split; reflexivity.
Qed.

Lemma setattr_inv (o : loc) (a : string) (v : pyval) (m m' : memory) :
  setattr o a v m = (Normal tt, m') ->
  (forall l b, attr m' l b = if decide (l = o /\ b = a) then Some v else attr m l b)
  /\ emitted m' = emitted m /\ alive_polls m' = alive_polls m
  /\ i_reads m' = i_reads m.
Proof.
  intros H. destruct (heap m !! o) as [i|] eqn:Ho.
  - destruct (setattr_stored o a v m i Ho) as (h & Hset & Hattr).
    rewrite Hset in H. inversion H; subst m'.
    split; [exact Hattr|]. split; [reflexivity|]. split; reflexivity.
  - unfold setattr in H. rewrite Ho in H. discriminate.
Qed.

Section MoreRun.

Variable time_at : nat -> Float.float.
Variable is_alive_at : nat -> bool.
Variable job_writes_at : nat -> option Z.

(** While the polls find the job alive and no patience is set, the loop
    goes on. *)
Lemma Run_loop_alive (progress ctx bar : loc) (refresh_time : Float.float) (fuel : nat) :
  forall (last_i : pyval) (last_progress : Float.float) (m : memory),
    job_ready m progress ctx bar ->
    (forall j, (j < fuel)%nat -> is_alive_at (alive_polls m + j) = true) ->
    exists m' redrawn,
      Run_loop time_at is_alive_at job_writes_at fuel progress refresh_time 0
               last_i last_progress m = (Normal false, m')
      /\ emitted m' = emitted m ++ turns_trace progress refresh_time redrawn
      /\ length redrawn = fuel
      /\ Forall (fun bv => fst bv = bar) redrawn
      /\ alive_polls m' = (alive_polls m + fuel)%nat.
Proof.
  induction fuel as [|fuel IH]; intros last_i last_progress m Hready Halive.
  - exists m, []. cbn. rewrite app_nil_r, Nat.add_0_r.
    split; [reflexivity|]. split; [reflexivity|]. split; [reflexivity|].
    split; [constructor|reflexivity].
  - destruct (Run_body_patient time_at is_alive_at job_writes_at progress ctx bar
                refresh_time last_i last_progress m Hready)
      as (li & lp & v & m1 & Hturn & Hready1 & Ha1 & Hem1).
    { rewrite <- (Halive 0%nat) by lia. f_equal. lia. }
    destruct (IH li lp m1 Hready1) as (m' & redrawn & Hrun & Hem' & Hlen & Hbars & Ha').
    { intros j Hj. rewrite Ha1. rewrite <- (Halive (S j)) by lia. f_equal. lia. }
    exists m', ((bar, v) :: redrawn).
    split; [cbn [Run_loop]; unfold bind at 1; rewrite Hturn; exact Hrun|].
    split; [rewrite Hem', Hem1, turns_trace_cons, <- app_assoc; reflexivity|].
    split; [cbn; lia|]. split; [constructor; [reflexivity|exact Hbars]|].
    rewrite Ha', Ha1. lia.
Qed.

(** X11. With no patience set, as long as the polls find a ready job
    alive, [Run] is still in its loop: after [fuel] turns it has neither
    returned nor raised, it has started the thread and redrawn the job's
    bar once per turn, and it has closed no bar. *)
Theorem Run_waits_while_alive (progress ctx bar : loc) (refresh_time : Float.float)
    (fuel : nat) (m : memory) :
  job_ready m progress ctx bar ->
  (forall j, (j < fuel)%nat -> is_alive_at (alive_polls m + j) = true) ->
  exists m' redrawn,
    Run time_at is_alive_at job_writes_at fuel progress refresh_time 0 m = (Normal None, m')
    /\ emitted m'
       = emitted m ++ ThreadStart progress :: turns_trace progress refresh_time redrawn
    /\ length redrawn = fuel
    /\ Forall (fun bv => fst bv = bar) redrawn
    /\ forall b, ~ In (BarClose b) (emitted m) -> ~ In (BarClose b) (emitted m').
Proof.
  intros Hready Halive.
  destruct (Run_start time_at is_alive_at job_writes_at progress ctx bar m Hready)
    as (v & m3 & Hrun & Hready3 & _ & _ & Ha3 & Hem3 & _).
  destruct (Run_loop_alive progress ctx bar refresh_time fuel v (time_at (time_reads m))
              m3 Hready3) as (m' & redrawn & Hloop & Hem' & Hlen & Hbars & _).
  { intros j Hj. rewrite Ha3. apply Halive, Hj. }
  exists m', redrawn.
  assert (Hem : emitted m'
                = emitted m ++ ThreadStart progress
                            :: turns_trace progress refresh_time redrawn).
  { rewrite Hem', Hem3, <- app_assoc. reflexivity. }
  split; [rewrite Hrun; unfold bind; rewrite Hloop; reflexivity|].
  split; [exact Hem|]. split; [exact Hlen|]. split; [exact Hbars|].
  intros b Hb Hin. rewrite Hem in Hin. apply in_app_or in Hin.
  destruct Hin as [Hin|[Hin|Hin]]; [exact (Hb Hin)|discriminate|].
  exact (turns_trace_no_close _ _ _ _ Hin).
Qed.

(** X12. A negative patience is not treated as unset: on a live, ready
    job whose counter stays put, with a clock that did not go back, [Run]
    raises the stall error in its first turn, before any redraw. *)
Theorem Run_negative_patience (progress ctx bar : loc) (refresh_time : Float.float)
    (patience i0 : Z) (m : memory) (q : Q) :
  let stalled_for := Float.sub (time_at (S (time_reads m))) (time_at (time_reads m)) in
  job_ready m progress ctx bar ->
  counter_stays job_writes_at i0 ->
  attr m ctx "i" = Some (PyInt i0) ->
  is_alive_at (alive_polls m) = true ->
  patience < 0 ->
  Float.to_Q stalled_for = Some q ->
  (0 <= q)%Q ->
  exists m',
    (forall fuel, (0 < fuel)%nat ->
       Run time_at is_alive_at job_writes_at fuel progress refresh_time patience m
       = (Raised (OSError (stall_message stalled_for)), m'))
    /\ emitted m' = emitted m ++ [ThreadStart progress].
Proof.
  intros stalled_for Hready Hstays Hi0 Halive Hp Hq Hq0.
  destruct (Run_start time_at is_alive_at job_writes_at progress ctx bar m Hready)
    as (v & m3 & Hrun & Hready3 & Hi3 & Ht3 & Ha3 & Hem3 & Hv).
  pose proof (Hv i0 Hi0 Hstays) as ->.
  destruct (Run_loop_counter_stays time_at is_alive_at job_writes_at progress ctx bar
              refresh_time patience i0 (time_at (time_reads m)) 0 m3 Hready3 Hstays Hi3)
    as (m' & Hloop & Hem').
  { lia. }
  { intros i Hi. rewrite Ha3. replace i with 0%nat by lia.
    rewrite Nat.add_0_r. exact Halive. }
  { intros i Hi. lia. }
  { rewrite Ht3, Nat.add_0_r. fold stalled_for.
    rewrite (gt_Z_to_Q _ _ _ Hq). apply negb_true_iff.
    destruct (Qle_bool q (inject_Z patience)) eqn:Hle; [|reflexivity].
    apply Qle_bool_iff in Hle. exfalso.
    assert (Hlt : (inject_Z patience < 0)%Q).
    { unfold Qlt, inject_Z. cbn. lia. }
    apply (Qlt_irrefl 0). eapply Qle_lt_trans; [|exact Hlt].
    eapply Qle_trans; [exact Hq0|exact Hle]. }
  exists m'. split.
  - intros fuel Hfuel. rewrite Hrun. unfold bind. rewrite (Hloop fuel Hfuel).
    rewrite Ht3, Nat.add_0_r. reflexivity.
  - rewrite Hem', Hem3. cbn. rewrite app_nil_r. reflexivity.
Qed.

(** A read of the counter that returns: the value is the one the job
    stored since the last read, or else the one in place. *)
Lemma read_i_inv (ctx : loc) (m : memory) (v : pyval) (m' : memory) :
  read_i job_writes_at ctx m = (Normal v, m') ->
  attr m' ctx "i" = Some v
  /\ (forall z, job_writes_at (i_reads m) = Some z -> v = PyInt z)
  /\ (forall l b, b <> "i" -> attr m' l b = attr m l b)
  /\ emitted m' = emitted m /\ alive_polls m' = alive_polls m
  /\ i_reads m' = S (i_reads m).
Proof.
  intros H. unfold read_i in H.
  destruct (bind_inv _ _ _ _ _ H) as [([] & m1 & H1 & H1')|(e & _ & ?)]; [|discriminate].
  unfold getattr in H1'. destruct (attr m1 ctx "i") as [v'|] eqn:Hv; [|discriminate].
  inversion H1'; subst v' m'; clear H1'.
  split; [exact Hv|].
  destruct (job_writes_at (i_reads m)) as [z|].
  - destruct (setattr_inv _ _ _ _ _ H1) as (Hattr & Hem & Ha & Hr).
    split.
    { intros z' Hz. inversion Hz; subst z'. rewrite Hattr in Hv.
      rewrite decide_True in Hv by auto. congruence. }
    split.
    { intros l b Hb. rewrite Hattr. rewrite decide_False by (intros [_ ?]; congruence).
      reflexivity. }
    split; [exact Hem|]. split; [exact Ha|exact Hr].
  - inversion H1; subst m1. split; [discriminate|].
    split; [reflexivity|]. split; [reflexivity|]. split; reflexivity.
Qed.

Lemma progress_ctx_i_inv (progress : loc) (m : memory) (v : pyval) (m' : memory) :
  progress_ctx_i job_writes_at progress m = (Normal v, m') ->
  (forall z, job_writes_at (i_reads m) = Some z -> v = PyInt z)
  /\ i_reads m' = S (i_reads m).
Proof.
  intros H. unfold progress_ctx_i in H.
  destruct (bind_inv _ _ _ _ _ H) as [(ctx & m1 & H1 & H1')|(e & _ & ?)]; [|discriminate].
  destruct (getattr_ref_inv _ _ _ _ _ H1) as (-> & _).
  destruct (read_i_inv _ _ _ _ H1') as (_ & Hz & _ & _ & _ & Hr).
  split; [exact Hz|exact Hr].
Qed.

(** A [Refresh] that returns has stored the counter in the bar of the
    job's context and has redrawn that bar. *)
Lemma Refresh_inv (progress : loc) (m m' : memory) :
  progress_ctx_Refresh job_writes_at progress m = (Normal tt, m') ->
  exists ctx bar v,
    attr m' progress "ctx" = Some (PyRef ctx)
    /\ attr m' ctx "bar" = Some (PyRef bar)
    /\ attr m' ctx "i" = Some v
    /\ attr m' bar "n" = Some v
    /\ emitted m' = emitted m ++ [BarRefresh bar v]
    /\ alive_polls m' = alive_polls m.
Proof.
  intros H. unfold progress_ctx_Refresh, Refresh in H.
  destruct (bind_inv _ _ _ _ _ H) as [(ctx & m1 & H1 & H1')|(e & _ & ?)]; [|discriminate].
  destruct (getattr_ref_inv _ _ _ _ _ H1) as (-> & Hctx).
  destruct (bind_inv _ _ _ _ _ H1') as [(i & m2 & H2 & H2')|(e & _ & ?)]; [|discriminate].
  destruct (read_i_inv _ _ _ _ H2) as (Hi2 & _ & Hframe2 & Hem2 & Ha2 & _).
  destruct (bind_inv _ _ _ _ _ H2') as [(bar & m3 & H3 & H3')|(e & _ & ?)]; [|discriminate].
  destruct (getattr_ref_inv _ _ _ _ _ H3) as (-> & Hbar).
  destruct (bind_inv _ _ _ _ _ H3') as [([] & m4 & H4 & H4')|(e & _ & ?)]; [|discriminate].
  destruct (setattr_inv _ _ _ _ _ H4) as (Hattr4 & Hem4 & Ha4 & _).
  inversion H4'; subst m'; clear H4'.
  exists ctx, bar, i.
  change (forall l b, attr (with_emitted (emitted m4 ++ [BarRefresh bar i]) m4) l b
                      = if decide (l = bar /\ b = "n") then Some i else attr m2 l b)
    in Hattr4.
  rewrite !Hattr4.
  rewrite (decide_False (P := progress = bar /\ "ctx" = "n")) by (intros [_ ?]; discriminate).
  rewrite (decide_False (P := ctx = bar /\ "bar" = "n")) by (intros [_ ?]; discriminate).
  rewrite (decide_False (P := ctx = bar /\ "i" = "n")) by (intros [_ ?]; discriminate).
  rewrite (decide_True (P := bar = bar /\ "n" = "n")) by auto.
  split; [rewrite Hframe2 by discriminate; exact Hctx|].
  split; [exact Hbar|]. split; [exact Hi2|]. split; [reflexivity|].
  split; [cbn; rewrite Hem4, Hem2; reflexivity|].
  cbn. rewrite Ha4, Ha2. reflexivity.
Qed.

(** What a turn that does not raise tells about the poll it made. *)
Lemma Run_body_polls (progress : loc) (refresh_time : Float.float) (patience : Z)
    (last_i : pyval) (last_progress : Float.float) (m : memory) (t : turn) (m' : memory) :
  Run_body time_at is_alive_at job_writes_at progress refresh_time patience
           last_i last_progress m = (Normal t, m') ->
  alive_polls m' = S (alive_polls m)
  /\ match t with
     | Continue _ _ =>
         is_alive_at (alive_polls m) = true
         /\ exists bar v,
              emitted m' = emitted m ++ [BarRefresh bar v; ThreadJoin progress refresh_time]
     | Break => is_alive_at (alive_polls m) = false /\ emitted m' = emitted m
     end.
Proof.
  intros H. pose proof H as Hturn. unfold Run_body in H.
  destruct (bind_inv _ _ _ _ _ H) as [(alive & m1 & H1 & H1')|(e & _ & ?)];
    [|discriminate].
  inversion H1; subst alive m1; clear H1.
  destruct (is_alive_at (alive_polls m)) eqn:Halive.
  2:{ inversion H1'; subst. split; [reflexivity|]. split; reflexivity. }
  destruct (bind_inv _ _ _ _ _ H1') as [(ct & m2 & H2 & H2')|(e & _ & ?)];
    [|discriminate].
  inversion H2; subst ct m2; clear H2.
  assert (Hsteady : steady
            (i <- progress_ctx_i job_writes_at progress ;;
             seen <- (if negb (bool_decide (i = last_i))
                      then last_i0 <- progress_ctx_i job_writes_at progress ;;
                           ret (last_i0, time_at (time_reads m))
                      else if negb (patience =? 0)
                              && Float.gt_Z (Float.sub (time_at (time_reads m)) last_progress)
                                            patience
                           then raise (OSError (stall_message
                                                  (Float.sub (time_at (time_reads m))
                                                             last_progress)))
                           else ret (last_i, last_progress)) ;;
             progress_ctx_Refresh job_writes_at progress ;;
             join progress refresh_time ;;
             ret (Continue (fst seen) (snd seen)))).
  { apply steady_bind; [apply steady_progress_ctx_i|]. intros i.
    apply steady_bind.
    { destruct (negb (bool_decide (i = last_i))).
      - apply steady_bind; [apply steady_progress_ctx_i|]. intros ?. apply steady_ret.
      - destruct (negb (patience =? 0) && Float.gt_Z _ patience);
          [apply steady_raise|apply steady_ret]. }
    intros seen. apply steady_bind; [apply steady_Refresh|]. intros _.
    apply steady_bind; [apply steady_emit|]. intros _. apply steady_ret. }
  destruct (Hsteady _ _ _ H2') as (_ & Hpolls).
  split; [exact Hpolls|].
  destruct t as [li lp|].
  - split; [reflexivity|]. exact (Run_body_continue _ _ _ _ _ _ _ _ _ _ _ _ Hturn).
  - exfalso.
    destruct (bind_inv _ _ _ _ _ H2') as [(i & m3 & H3 & H3')|(e & _ & ?)];
      [|discriminate].
    destruct (bind_inv _ _ _ _ _ H3') as [(seen & m4 & H4 & H4')|(e & _ & ?)];
      [|discriminate].
    destruct (bind_inv _ _ _ _ _ H4') as [([] & m5 & H5 & H5')|(e & _ & ?)];
      [|discriminate].
    destruct (bind_inv _ _ _ _ _ H5') as [([] & m6 & H6 & H6')|(e & _ & ?)];
      [|discriminate].
    discriminate.
Qed.

(** A loop that ended made its last poll on a dead job, and all the polls
    before on a live one. *)
Lemma Run_loop_returns (progress : loc) (refresh_time : Float.float) (patience : Z)
    (fuel : nat) :
  forall (last_i : pyval) (last_progress : Float.float) (m m' : memory),
    Run_loop time_at is_alive_at job_writes_at fuel progress refresh_time patience
             last_i last_progress m = (Normal true, m') ->
    exists k redrawn,
      (k < fuel)%nat
      /\ (forall j, (j < k)%nat -> is_alive_at (alive_polls m + j) = true)
      /\ is_alive_at (alive_polls m + k) = false
      /\ alive_polls m' = (alive_polls m + S k)%nat
      /\ emitted m' = emitted m ++ turns_trace progress refresh_time redrawn
      /\ length redrawn = k.
Proof.
  induction fuel as [|fuel IH]; intros last_i last_progress m m' H; [discriminate|].
  cbn [Run_loop] in H.
  destruct (bind_inv _ _ _ _ _ H) as [(t & m1 & H1 & H1')|(e & _ & ?)]; [|discriminate].
  destruct (Run_body_polls _ _ _ _ _ _ _ _ H1) as (Ha1 & Ht).
  destruct t as [li lp|].
  - destruct Ht as (Halive & bar & v & Hem1).
    destruct (IH _ _ _ _ H1') as (k & redrawn & Hk & Hbefore & Hdead & Ha' & Hem' & Hlen).
    exists (S k), ((bar, v) :: redrawn).
    split; [lia|].
    split.
    { intros [|j] Hj; [rewrite Nat.add_0_r; exact Halive|].
      replace (alive_polls m + S j)%nat with (alive_polls m1 + j)%nat by lia.
      apply Hbefore. lia. }
    split.
    { replace (alive_polls m + S k)%nat with (alive_polls m1 + k)%nat by lia.
      exact Hdead. }
    split; [lia|].
    split; [rewrite Hem', Hem1, turns_trace_cons, <- app_assoc; reflexivity|].
    cbn. lia.
  - destruct Ht as (Hdead & Hem1). inversion H1'; subst m'.
    exists 0%nat, []. split; [lia|]. split; [intros j Hj; lia|].
    split; [rewrite Nat.add_0_r; exact Hdead|]. split; [lia|].
    split; [cbn; rewrite app_nil_r; exact Hem1|reflexivity].
Qed.

(** X13. Whatever the patience, when [Run] returns, it returns the job
    it was given, and a poll has found the job dead: the polls before
    found it alive, each of those turns redrew a bar and waited, and after
    the loop one bar was redrawn once more, at the count it is left with,
    and closed. *)
Theorem Run_returns_after_job_died (fuel : nat) (progress : loc)
    (refresh_time : Float.float) (patience : Z) (m : memory) (r : loc) (m' : memory) :
  Run time_at is_alive_at job_writes_at fuel progress refresh_time patience m
  = (Normal (Some r), m') ->
  r = progress
  /\ exists k redrawn bar v,
       (k < fuel)%nat
       /\ (forall j, (j < k)%nat -> is_alive_at (alive_polls m + j) = true)
       /\ is_alive_at (alive_polls m + k) = false
       /\ alive_polls m' = (alive_polls m + S k)%nat
       /\ emitted m'
          = emitted m ++ ThreadStart progress :: turns_trace progress refresh_time redrawn
                      ++ [BarRefresh bar v; BarClose bar]
       /\ length redrawn = k
       /\ attr m' bar "n" = Some v.
Proof.
  intros H. unfold Run in H.
  destruct (bind_inv _ _ _ _ _ H) as [([] & m1 & H1 & H1')|(e & _ & ?)]; [|discriminate].
  assert (Hm1 : emitted m1 = emitted m ++ [ThreadStart progress]
                /\ alive_polls m1 = alive_polls m).
  { unfold Start in H1.
    destruct (bind_inv _ _ _ _ _ H1) as [(v & m0 & H0 & H0')|(e & _ & ?)]; [|discriminate].
    pose proof (getattr_memory progress "Start" m) as Hm0. rewrite H0 in Hm0.
    cbn in Hm0. subst m0. inversion H0'; subst m1. split; reflexivity. }
  destruct Hm1 as (Hem1 & Ha1).
  destruct (bind_inv _ _ _ _ _ H1') as [(li & m2 & H2 & H2')|(e & _ & ?)]; [|discriminate].
  pose proof (proj1 (silent_progress_ctx_i _ _ _ _ _ H2)) as Hem2.
  pose proof (proj2 (steady_progress_ctx_i _ _ _ _ _ H2)) as Ha2.
  destruct (bind_inv _ _ _ _ _ H2') as [(lp & m3 & H3 & H3')|(e & _ & ?)]; [|discriminate].
  inversion H3; subst lp m3; clear H3.
  destruct (bind_inv _ _ _ _ _ H3') as [(ended & m4 & H4 & H4')|(e & _ & ?)];
    [|discriminate].
  destruct ended; [|discriminate].
  destruct (Run_loop_returns _ _ _ _ _ _ _ _ H4)
    as (k & redrawn & Hk & Hbefore & Hdead & Ha4 & Hem4 & Hlen).
  cbn [alive_polls emitted with_time_reads] in Hbefore, Hdead, Ha4, Hem4.
  destruct (bind_inv _ _ _ _ _ H4') as [([] & m5 & H5 & H5')|(e & _ & ?)]; [|discriminate].
  destruct (Refresh_inv _ _ _ H5) as (ctx & bar & v & Hctx & Hbar & _ & Hn & Hem5 & Ha5).
  unfold progress_ctx_bar_close in H5'. unfold bind at 1 in H5'. unfold bind at 1 in H5'.
  rewrite (getattr_ref_attr _ _ _ _ Hctx) in H5'. unfold bind at 1 in H5'.
  rewrite (getattr_ref_attr _ _ _ _ Hbar) in H5'.
  inversion H5'; subst r m'; clear H5'.
  split; [reflexivity|].
  exists k, redrawn, bar, v.
  split; [exact Hk|].
  split; [intros j Hj; rewrite <- Ha1, <- Ha2; apply Hbefore, Hj|].
  split; [rewrite <- Ha1, <- Ha2; exact Hdead|].
  split; [cbn; rewrite Ha5, Ha4, Ha2, Ha1; reflexivity|].
  split; [|split; [exact Hlen|exact Hn]].
  cbn. rewrite Hem5, Hem4, Hem2, Hem1. rewrite <- !app_assoc. reflexivity.
Qed.

Lemma forward_read_i (ctx : loc) : forward (read_i job_writes_at ctx).
Proof.
  apply forward_bind; [|intros; apply forward_getattr].
  intros m r m' H. destruct (job_writes_at (i_reads m)) as [z|].
  - pose proof (forward_setattr _ _ _ _ _ _ H) as Hle. cbn in Hle. lia.
  - inversion H; subst. cbn. lia.
Qed.

Lemma forward_Refresh (progress : loc) :
  forward (progress_ctx_Refresh job_writes_at progress).
Proof.
  apply forward_bind; [apply forward_getattr_ref|]. intros ctx.
  apply forward_bind; [apply forward_read_i|]. intros i.
  apply forward_bind; [apply forward_getattr_ref|]. intros bar.
  apply forward_bind; [apply forward_setattr|]. intros _. apply forward_emit.
Qed.

(** With a counter that advances, a turn that starts with a [last_i] read
    earlier finds another value: it does not raise the stall error, and
    the [last_i] it leaves was read in this turn. *)
Lemma Run_body_advances (progress : loc) (refresh_time : Float.float) (patience : Z)
    (last_i : pyval) (last_progress : Float.float) (m : memory)
    (r : outcome turn) (m' : memory) :
  counter_advances job_writes_at ->
  (exists j z, (j < i_reads m)%nat /\ job_writes_at j = Some z /\ last_i = PyInt z) ->
  Run_body time_at is_alive_at job_writes_at progress refresh_time patience
           last_i last_progress m = (r, m') ->
  (forall msg, r <> Raised (OSError msg))
  /\ forall li lp, r = Normal (Continue li lp) ->
       exists j z, (j < i_reads m')%nat /\ job_writes_at j = Some z /\ li = PyInt z.
Proof.
  intros (Hsome & Hnew) (j & z & Hj & Hjz & ->) H. unfold Run_body in H.
  destruct (bind_inv _ _ _ _ _ H) as [(alive & m1 & H1 & H1')|(e & H1 & _)];
    [|discriminate].
  inversion H1; subst alive m1; clear H1.
  destruct (is_alive_at (alive_polls m)).
  2:{ inversion H1'; subst. split; [discriminate|discriminate]. }
  destruct (bind_inv _ _ _ _ _ H1') as [(ct & m2 & H2 & H2')|(e & H2 & _)];
    [|discriminate].
  inversion H2; subst ct m2; clear H2.
  destruct (bind_inv _ _ _ _ _ H2') as [(i & m3 & H3 & H3')|(e & H3 & ->)].
  2:{ split; [|discriminate]. intros msg Heq. inversion Heq; subst e.
      exact (proj1 (proj2 (silent_progress_ctx_i _ _ _ _ _ H3)) msg eq_refl). }
  destruct (progress_ctx_i_inv _ _ _ _ H3) as (Hi & Hr3).
  cbn [i_reads with_time_reads with_alive_polls] in Hi, Hr3.
  destruct (Hsome (i_reads m)) as [z1 Hz1].
  pose proof (Hi z1 Hz1) as ->.
  assert (Hne : negb (bool_decide (PyInt z1 = PyInt z)) = true).
  { apply negb_true_iff, bool_decide_eq_false. intros Heq. inversion Heq; subst z1.
    exact (Hnew j (i_reads m) z Hj Hjz Hz1). }
  rewrite Hne in H3'.
  destruct (bind_inv _ _ _ _ _ H3') as [(seen & m4 & H4 & H4')|(e & H4 & ->)].
  2:{ split; [|discriminate]. intros msg Heq. inversion Heq; subst e.
      destruct (bind_inv _ _ _ _ _ H4) as [(li & m5 & H5 & H5')|(e & H5 & He)];
        [discriminate|].
      inversion He; subst e.
      exact (proj1 (proj2 (silent_progress_ctx_i _ _ _ _ _ H5)) msg eq_refl). }
  destruct (bind_inv _ _ _ _ _ H4) as [(li & m5 & H5 & H5')|(e & _ & ?)]; [|discriminate].
  inversion H5'; subst seen m5; clear H5'.
  destruct (progress_ctx_i_inv _ _ _ _ H5) as (Hli & Hr4).
  destruct (Hsome (i_reads m3)) as [z2 Hz2].
  pose proof (Hli z2 Hz2) as ->.
  cbn [fst snd] in H4'.
  assert (Hcalm : calm (progress_ctx_Refresh job_writes_at progress ;;
                        join progress refresh_time ;;
                        ret (Continue (PyInt z2) (time_at (time_reads m))))).
  { apply calm_bind; [apply calm_Refresh|]. intros _.
    apply calm_bind; [apply calm_join|]. intros _. apply calm_ret. }
  assert (Hforward : forward (progress_ctx_Refresh job_writes_at progress ;;
                              join progress refresh_time ;;
                              ret (Continue (PyInt z2) (time_at (time_reads m))))).
  { apply forward_bind; [apply forward_Refresh|]. intros _.
    apply forward_bind; [apply forward_emit|]. intros _. apply forward_ret. }
  split; [exact (Hcalm _ _ _ H4')|].
  intros li lp Hr. pose proof (Hforward _ _ _ H4') as Hle.
  assert (Hturn : Normal (Continue li lp)
                  = Normal (Continue (PyInt z2) (time_at (time_reads m)))).
  { rewrite <- Hr.
    destruct (bind_inv _ _ _ _ _ H4') as [([] & m6 & H6 & H6')|(e & _ & He)].
    2:{ rewrite He in Hr. discriminate. }
    destruct (bind_inv _ _ _ _ _ H6') as [([] & m7 & H7 & H7')|(e & H7 & _)];
      [|discriminate].
    inversion H7'; reflexivity. }
  inversion Hturn; subst li lp.
  exists (i_reads m3), z2. split; [lia|]. split; [exact Hz2|reflexivity].
Qed.

Lemma calm_Run_loop_advances (progress : loc) (refresh_time : Float.float) (patience : Z)
    (fuel : nat) :
  counter_advances job_writes_at ->
  forall (last_i : pyval) (last_progress : Float.float) (m : memory)
         (r : outcome bool) (m' : memory),
    (exists j z, (j < i_reads m)%nat /\ job_writes_at j = Some z /\ last_i = PyInt z) ->
    Run_loop time_at is_alive_at job_writes_at fuel progress refresh_time patience
             last_i last_progress m = (r, m') ->
    forall msg, r <> Raised (OSError msg).
Proof.
  intros Hadv.
  induction fuel as [|fuel IH]; intros last_i last_progress m r m' Hseen H msg.
  - inversion H; subst. discriminate.
  - cbn [Run_loop] in H.
    destruct (bind_inv _ _ _ _ _ H) as [(t & m1 & H1 & H1')|(e & H1 & ->)].
    + destruct (Run_body_advances _ _ _ _ _ _ _ _ Hadv Hseen H1) as (_ & Hnext).
      destruct t as [li lp|].
      * exact (IH _ _ _ _ _ (Hnext li lp eq_refl) H1' msg).
      * inversion H1'; subst. discriminate.
    + intros Heq. inversion Heq; subst e.
      exact (proj1 (Run_body_advances _ _ _ _ _ _ _ _ Hadv Hseen H1) msg eq_refl).
Qed.

(** X14. A job that stores a new value in its counter between any two
    reads is never reported as stalled: [Run] does not raise the stall
    error, whatever the patience, the clock and the memory. *)
Theorem Run_advancing_counter_never_stalls (fuel : nat) (progress : loc)
    (refresh_time : Float.float) (patience : Z) :
  counter_advances job_writes_at ->
  calm (Run time_at is_alive_at job_writes_at fuel progress refresh_time patience).
Proof.
  intros Hadv m r m' H msg. unfold Run in H.
  destruct (bind_inv _ _ _ _ _ H) as [([] & m1 & H1 & H1')|(e & H1 & ->)].
  2:{ intros Heq. inversion Heq; subst e. exact (calm_Start _ _ _ _ H1 msg eq_refl). }
  destruct (bind_inv _ _ _ _ _ H1') as [(li & m2 & H2 & H2')|(e & H2 & ->)].
  2:{ intros Heq. inversion Heq; subst e.
      exact (proj1 (proj2 (silent_progress_ctx_i _ _ _ _ _ H2)) msg eq_refl). }
  destruct (progress_ctx_i_inv _ _ _ _ H2) as (Hli & Hr2).
  destruct (proj1 Hadv (i_reads m1)) as [z Hz].
  pose proof (Hli z Hz) as ->.
  destruct (bind_inv _ _ _ _ _ H2') as [(lp & m3 & H3 & H3')|(e & H3 & _)]; [|discriminate].
  inversion H3; subst lp m3; clear H3.
  destruct (bind_inv _ _ _ _ _ H3') as [(ended & m4 & H4 & H4')|(e & H4 & ->)].
  - exact (calm_after_loop _ progress ended _ _ _ H4' msg).
  - intros Heq. inversion Heq; subst e.
    refine (calm_Run_loop_advances _ _ _ _ Hadv _ _ _ _ _ _ H4 msg eq_refl).
    exists (i_reads m1), z. cbn. split; [lia|]. split; [exact Hz|reflexivity].
Qed.

End MoreRun.

(** ** The further properties at sample inputs *)

(** X2 on a timer that was just made and is still running. *)
Lemma elapsed_not_negative_witness :
  let m := snd (ProfileTimer_init sample_utcnow sample_memory) in
  start (timers m 1%positive) <= sample_utcnow (utc_reads m)
  /\ (exists x m', elapsed sample_utcnow 1%positive m = (Normal x, m') /\ sign_bit x = false)
  /\ forall z m', elapsed_ms sample_utcnow 1%positive m = (Normal z, m') -> 0 <= z.
Proof.
  intros m.
  assert (H : start (timers m 1%positive) <= sample_utcnow (utc_reads m))
    by (vm_compute; discriminate).
  split; [exact H|].
  exact (elapsed_not_negative sample_utcnow 1%positive m H).
Defined.

(** X3 on a scope named "load" whose enclosed code returns 5. *)
Lemma Profile_plain_name_witness :
  let body := fun _ : loc => ret 5 in
  let m2 := snd (ProfileTimer_init sample_utcnow sample_memory) in
  reported_as_is (NameStr "load") = true
  /\ body 1%positive m2 = (Normal 5, m2)
  /\ with_ (Profile sample_utcnow sample_Duration (NameStr "load") sample_sink) body
           sample_memory
     = (Normal (Some 5),
        with_emitted [Printed [PyStr "load in 0s"] ∅] (snd (Stop sample_utcnow 1%positive m2)),
        [CallStop 1%positive; CallSink "load in 0s"]).
Proof.
  intros body m2. split; [reflexivity|]. split; [reflexivity|].
  rewrite (Profile_plain_name sample_utcnow sample_Duration (NameStr "load") sample_sink
             body sample_memory 5 m2 eq_refl eq_refl).
  reflexivity.
Defined.

(** X4 on a callback that names the task by the seconds it is given. *)
Lemma Profile_callable_name_witness :
  let f := fun e : Float.float => ret ("took " +:+ Float.format_0f e) in
  let body := fun _ : loc => ret 5 in
  let m2 := snd (ProfileTimer_init sample_utcnow sample_memory) in
  let m3 := snd (Stop sample_utcnow 1%positive m2) in
  let x := total_seconds (end_at_Stop sample_utcnow m2 1%positive
                          - start (timers m2 1%positive)) in
  body 1%positive m2 = (Normal 5, m2)
  /\ f x m3 = (Normal "took 0", m3)
  /\ exists y m6,
       elapsed sample_utcnow 1%positive m3 = (Normal y, m6)
       /\ with_ (Profile sample_utcnow sample_Duration (NameFn true f) sample_sink) body
                sample_memory
          = match sample_sink ("took 0" +:+ " in " +:+ sample_Duration y) m6 with
            | (Normal _, m') =>
                (Normal (Some 5), m',
                 [CallStop 1%positive; CallName x;
                  CallSink ("took 0" +:+ " in " +:+ sample_Duration y)])
            | (Raised ex, m') =>
                (Raised ex, m',
                 [CallStop 1%positive; CallName x;
                  CallSink ("took 0" +:+ " in " +:+ sample_Duration y)])
            end.
Proof.
  intros f body m2 m3 x. split; [reflexivity|].
  assert (Hf : f x m3 = (Normal "took 0", m3)) by (vm_compute; reflexivity).
  split; [exact Hf|].
  exact (Profile_callable_name sample_utcnow sample_Duration f sample_sink body
           sample_memory 5 m2 "took 0" m3 eq_refl Hf).
Defined.

(** X5 on a callback that raises. *)
Lemma Profile_callable_name_raises_witness :
  let f := fun _ : Float.float => raise (A := string) (ValueError "no name") in
  let body := fun _ : loc => ret 5 in
  let m2 := snd (ProfileTimer_init sample_utcnow sample_memory) in
  let m3 := snd (Stop sample_utcnow 1%positive m2) in
  let x := total_seconds (end_at_Stop sample_utcnow m2 1%positive
                          - start (timers m2 1%positive)) in
  body 1%positive m2 = (Normal 5, m2)
  /\ f x m3 = (Raised (ValueError "no name"), m3)
  /\ with_ (Profile sample_utcnow sample_Duration (NameFn true f) sample_sink) body
           sample_memory
     = (Raised (ValueError "no name"), m3, [CallStop 1%positive; CallName x])
  /\ count_sink [CallStop 1%positive; CallName x] = 0%nat.
Proof.
  intros f body m2 m3 x. split; [reflexivity|]. split; [reflexivity|].
  exact (Profile_callable_name_raises sample_utcnow sample_Duration f sample_sink body
           sample_memory 5 m2 (ValueError "no name") m3 eq_refl eq_refl).
Defined.

(** X6 on the context that [ProgressBarContext.__init__] makes, at
    level 20. *)
Lemma ProgressContext_Profile_logs_info_witness :
  let body := fun _ : loc => ret 5 in
  let m2 := snd (ProfileTimer_init sample_utcnow sample_context) in
  reported_as_is (NameStr "load") = true
  /\ body 1%positive m2 = (Normal 5, m2)
  /\ attr m2 1%positive "print_context" = Some (PyRef 3%positive)
  /\ with_ (ProgressContext_Profile sample_utcnow sample_Duration sample_logging
                                    1%positive 20 (NameStr "load")) body sample_context
     = (Normal (Some 5),
        with_emitted [Printed [PyInt 20; PyStr "%s"; PyStr "load in 0s"]
                              (<["print_context" := PyRef 3%positive]> ∅)]
                     (snd (Stop sample_utcnow 1%positive m2)),
        [CallStop 1%positive; CallSink "load in 0s"]).
Proof.
  intros body m2. split; [reflexivity|]. split; [reflexivity|].
  assert (Hpc : attr m2 1%positive "print_context" = Some (PyRef 3%positive))
    by (vm_compute; reflexivity).
  split; [exact Hpc|].
  rewrite (ProgressContext_Profile_logs_info sample_utcnow sample_Duration sample_logging
             1%positive 20 (NameStr "load") body sample_context 5 m2 (PyRef 3%positive)
             eq_refl eq_refl Hpc).
  reflexivity.
Defined.

(** X10 on the context that [ProgressBarContext.__init__] makes, with a
    job that has stored 0. *)
Lemma Refresh_syncs_bar_witness :
  attr sample_context 1%positive "bar" = Some (PyRef 2%positive)
  /\ attr sample_context 1%positive "i" = Some (PyInt 0)
  /\ is_Some (heap sample_context !! 2%positive)
  /\ exists m',
       Refresh job_counts 1%positive sample_context = (Normal tt, m')
       /\ attr m' 1%positive "i" = Some (PyInt 0)
       /\ attr m' 2%positive "n" = Some (PyInt 0)
       /\ emitted m' = emitted sample_context ++ [BarRefresh 2%positive (PyInt 0)]
       /\ i_reads m' = S (i_reads sample_context)
       /\ forall l b, (l, b) <> (1%positive, "i") -> (l, b) <> (2%positive, "n") ->
                      attr m' l b = attr sample_context l b.
Proof.
  assert (H1 : attr sample_context 1%positive "bar" = Some (PyRef 2%positive))
    by (vm_compute; reflexivity).
  assert (H2 : attr sample_context 1%positive "i" = Some (PyInt 0))
    by (vm_compute; reflexivity).
  assert (H3 : is_Some (heap sample_context !! 2%positive)) by (vm_compute; eauto).
  split; [exact H1|]. split; [exact H2|]. split; [exact H3|].
  exact (Refresh_syncs_bar job_counts 1%positive 2%positive (PyInt 0) sample_context
           H1 H2 H3).
Defined.

(** X13 on a job that counts up and is found dead at the fourth poll. *)
Lemma Run_returns_after_job_died_witness :
  let run := Run sample_time alive_three_polls job_counts 5 1%positive quarter_second 0
                 sample_job in
  run = (Normal (Some 1%positive), snd run)
  /\ exists k redrawn bar v,
       (k < 5)%nat
       /\ (forall j, (j < k)%nat -> alive_three_polls (alive_polls sample_job + j) = true)
       /\ alive_three_polls (alive_polls sample_job + k) = false
       /\ alive_polls (snd run) = (alive_polls sample_job + S k)%nat
       /\ emitted (snd run)
          = emitted sample_job
            ++ ThreadStart 1%positive :: turns_trace 1%positive quarter_second redrawn
            ++ [BarRefresh bar v; BarClose bar]
       /\ length redrawn = k
       /\ attr (snd run) bar "n" = Some v.
Proof.
  intros run.
  assert (H : run = (Normal (Some 1%positive), snd run)) by (vm_compute; reflexivity).
  split; [exact H|].
  exact (proj2 (Run_returns_after_job_died sample_time alive_three_polls job_counts 5
                  1%positive quarter_second 0 sample_job 1%positive (snd run) H)).
Defined.

(** X14 on a job that counts up, with a patience of one second. *)
Lemma Run_advancing_counter_never_stalls_witness :
  counter_advances job_counts
  /\ calm (Run sample_time always_alive job_counts 5 1%positive quarter_second 1).
Proof.
  assert (H : counter_advances job_counts).
  { split; [intros k; eexists; reflexivity|].
    intros j k z Hjk Hj Hk. unfold job_counts in Hj, Hk.
    inversion Hj. inversion Hk. lia. }
  split; [exact H|].
  exact (Run_advancing_counter_never_stalls sample_time always_alive job_counts 5
           1%positive quarter_second 1 H).
Defined.

(** X12 on a job that stores nothing, with a patience of -1. *)
Lemma Run_negative_patience_witness :
  let stalled_for := Float.sub (sample_time (S (time_reads sample_job)))
                               (sample_time (time_reads sample_job)) in
  job_ready sample_job 1%positive 2%positive 3%positive
  /\ counter_stays job_stores_nothing 0
  /\ attr sample_job 2%positive "i" = Some (PyInt 0)
  /\ always_alive (alive_polls sample_job) = true
  /\ -1 < 0
  /\ Float.to_Q stalled_for = Some (4503599627370496 # 18014398509481984)
  /\ (0 <= 4503599627370496 # 18014398509481984)%Q
  /\ exists m',
       (forall fuel, (0 < fuel)%nat ->
          Run sample_time always_alive job_stores_nothing fuel 1%positive quarter_second
              (-1) sample_job
          = (Raised (OSError (stall_message stalled_for)), m'))
       /\ emitted m' = emitted sample_job ++ [ThreadStart 1%positive].
Proof.
  intros stalled_for.
  assert (H2 : counter_stays job_stores_nothing 0) by (intros k; left; reflexivity).
  assert (H3 : attr sample_job 2%positive "i" = Some (PyInt 0)) by (vm_compute; reflexivity).
  assert (H5 : -1 < 0) by lia.
  assert (H6 : Float.to_Q stalled_for = Some (4503599627370496 # 18014398509481984))
    by (vm_compute; reflexivity).
  assert (H7 : (0 <= 4503599627370496 # 18014398509481984)%Q) by (vm_compute; discriminate).
  split; [exact sample_job_ready|]. split; [exact H2|]. split; [exact H3|].
  split; [reflexivity|]. split; [exact H5|]. split; [exact H6|]. split; [exact H7|].
  exact (Run_negative_patience sample_time always_alive job_stores_nothing
           1%positive 2%positive 3%positive quarter_second (-1) 0 sample_job _
           sample_job_ready H2 H3 eq_refl H5 H6 H7).
Defined.

(** X11 on a job that is alive at every poll, for three turns. *)
Lemma Run_waits_while_alive_witness :
  job_ready sample_job 1%positive 2%positive 3%positive
  /\ (forall j, (j < 3)%nat -> always_alive (alive_polls sample_job + j) = true)
  /\ exists m' redrawn,
       Run sample_time always_alive job_counts 3 1%positive quarter_second 0 sample_job
       = (Normal None, m')
       /\ emitted m'
          = emitted sample_job
            ++ ThreadStart 1%positive :: turns_trace 1%positive quarter_second redrawn
       /\ length redrawn = 3%nat
       /\ Forall (fun bv => fst bv = 3%positive) redrawn
       /\ forall b, ~ In (BarClose b) (emitted sample_job) -> ~ In (BarClose b) (emitted m').
Proof.
  assert (H : forall j, (j < 3)%nat -> always_alive (alive_polls sample_job + j) = true)
    by (intros j _; reflexivity).
  split; [exact sample_job_ready|]. split; [exact H|].
  exact (Run_waits_while_alive sample_time always_alive job_counts
           1%positive 2%positive 3%positive quarter_second 3 sample_job sample_job_ready H).
Defined.
